(** * USD/ILS exchange-rate intelligence: acquisition chain and MA-crossover backtest

    A shallow embedding of [main.py] and the properties of its
    data-acquisition fallback chain (live sources, cache file, demo
    generator) and of its moving-average crossover backtest.

    Conventions of the embedding.
    - Numbers are rationals [Q], and equalities between computed numbers
      are stated with [==] ([Qeq]).  The rates of a frame and the amounts
      of the backtest loop are taken exactly.  Where a result of the
      program hangs on how binary64 rounds, in the rolling means of pandas
      and in the age the cache loader prints, every float operation is the
      exact one followed by [b64], the rounding to the nearest binary64
      number.  NaN, infinities and signed zeros are outside the model.
    - Python exceptions are explicit: fallible code returns a [result].
    - The outside world (HTTP responses, the cache file, the clock) is an
      explicit [World] record that the acquisition functions read, and the
      cache file they leave behind is returned next to their result.
    - A pandas [DataFrame] is a record of its columns; the in-place column
      assignment of [calculate_trading_profit] is modelled by returning the
      updated frame next to the function's result. *)

From Stdlib Require Import QArith Qabs Qminmax Qround Qpower ZArith String Ascii Bool
  Lia Lqa List.
Import ListNotations.

Local Open Scope string_scope.
Local Open Scope list_scope.
Local Open Scope Q_scope.

(* ------------------------------------------------------------------ *)
(** ** Python values: exceptions, numbers, formatting                   *)
(* ------------------------------------------------------------------ *)

Inductive exn : Type :=
| KeyError
| ValueError
| TypeError
| IndexError
| OSError
| JSONDecodeError
| ZeroDivisionError.

Inductive result (A : Type) : Type :=
| Ok (a : A)
| Raise (e : exn).
Arguments Ok {A} a.
Arguments Raise {A} e.

Definition bind {A B : Type} (m : result A) (k : A -> result B) : result B :=
  match m with
  | Ok a => k a
  | Raise e => Raise e
  end.

Notation "x <- m ;; k" := (bind m (fun x => k))
  (at level 61, m at next level, right associativity).

(** [a < b] on numbers, as a boolean. *)
Definition Qlt_bool (a b : Q) : bool := negb (Qle_bool b a).

(** [x / y] on Python floats: a zero divisor raises. *)
Definition py_div (x y : Q) : result Q :=
  if Qeq_bool y 0 then Raise ZeroDivisionError else Ok (x / y).

(** [x / y] on a numpy scalar: a zero divisor gives [inf] or [nan] with a
    warning, no exception; [None] stands for those two. *)
Definition np_div (x y : Q) : option Q :=
  if Qeq_bool y 0 then None else Some (x / y).

(** Nearest integer, ties to the even neighbour (the rounding of [round] and
    of the [.1f] format). *)
Definition round_half_even (q : Q) : Z :=
  let f := Qfloor q in
  let r := q - inject_Z f in
  if Qlt_bool r (1#2) then f
  else if Qlt_bool (1#2) r then (f + 1)%Z
  else if Z.even f then f else (f + 1)%Z.

(** [round(q, ndigits)] for a non-negative number of digits, on the exact
    value of [q]: the nearest multiple of [10^-ndigits], the even one on a
    tie. *)
Definition py_round (q : Q) (ndigits : nat) : Q :=
  let scale := inject_Z (10 ^ Z.of_nat ndigits) in
  inject_Z (round_half_even (q * scale)) / scale.

(* ------------------------------------------------------------------ *)
(** ** binary64                                                         *)
(* ------------------------------------------------------------------ *)

Definition pow2 (e : Z) : Q := 2 ^ e.

(** [floor(log2 a)] for a positive [a]: the difference of the bit lengths
    of numerator and denominator, or one less. *)
Definition ilog2 (a : Q) : Z :=
  let c := (Z.log2 (Qnum a) - Z.log2 (Z.pos (Qden a)))%Z in
  if Qle_bool (pow2 c) a then c else (c - 1)%Z.

(** The binary64 number nearest to [q], ties to the even significand: 53
    significant bits down to the exponent -1022, multiples of [2^-1074]
    below that.  A float operation returns the [b64] of its exact
    result. *)
Definition b64 (q : Q) : Q :=
  let q := Qred q in
  if Qeq_bool q 0 then 0
  else
    let a := Qabs q in
    let ulp := pow2 (Z.max (ilog2 a) (-1022) - 52) in
    let m := inject_Z (round_half_even (a / ulp)) in
    Qred (if Qlt_bool q 0 then - (m * ulp) else m * ulp).

(* ------------------------------------------------------------------ *)
(** ** Rolling mean: [Series.rolling(window=w, min_periods=1).mean()]   *)
(* ------------------------------------------------------------------ *)

Fixpoint sumQ (l : list Q) : Q :=
  match l with
  | [] => 0
  | x :: t => x + sumQ t
  end.

(** The variables pandas' [roll_mean] carries from one index to the
    next. *)
Record MeanState : Type := mkMean {
  nobs : nat;
  sum_x : Q;
  neg_ct : nat;
  compensation_add : Q;
  compensation_remove : Q;
  num_consecutive_same_value : nat;
  prev_value : Q
}.

(** The set-up at index 0. *)
Definition mean_setup (first : Q) : MeanState :=
  {| nobs := 0; sum_x := 0; neg_ct := 0;
     compensation_add := 0; compensation_remove := 0;
     num_consecutive_same_value := 0; prev_value := first |}.

Section RollMean.

(** The rounding applied to the result of every arithmetic operation:
    [b64] for the program's floats, none for exact arithmetic. *)
Variable fl : Q -> Q.

(** [add_mean]: a compensated (Kahan) addition to the running sum, and
    the count of equal values in a row. *)
Definition add_mean (val : Q) (s : MeanState) : MeanState :=
  let y := fl (val - compensation_add s) in
  let t := fl (sum_x s + y) in
  {| nobs := S (nobs s);
     sum_x := t;
     neg_ct := if Qlt_bool val 0 then S (neg_ct s) else neg_ct s;
     compensation_add := fl (fl (t - sum_x s) - y);
     compensation_remove := compensation_remove s;
     num_consecutive_same_value :=
       if Qeq_bool val (prev_value s)
       then S (num_consecutive_same_value s) else 1%nat;
     prev_value := val |}.

(** [remove_mean]: the compensated subtraction of the value that leaves
    the window. *)
Definition remove_mean (val : Q) (s : MeanState) : MeanState :=
  let y := fl (- val - compensation_remove s) in
  let t := fl (sum_x s + y) in
  {| nobs := pred (nobs s);
     sum_x := t;
     neg_ct := if Qlt_bool val 0 then pred (neg_ct s) else neg_ct s;
     compensation_add := compensation_add s;
     compensation_remove := fl (fl (t - sum_x s) - y);
     num_consecutive_same_value := num_consecutive_same_value s;
     prev_value := prev_value s |}.

(** [calc_mean] with [min_periods = 1], called once a value has been
    added ([nobs >= 1]): the quotient, replaced by the last value when the
    whole window repeats it, and by zero when its sign contradicts the
    signs of the window. *)
Definition calc_mean (s : MeanState) : Q :=
  let result := fl (sum_x s / inject_Z (Z.of_nat (nobs s))) in
  if (nobs s <=? num_consecutive_same_value s)%nat then prev_value s
  else if (neg_ct s =? 0)%nat && Qlt_bool result 0 then 0
  else if (neg_ct s =? nobs s)%nat && Qlt_bool 0 result then 0
  else result.

(** One index of the loop for a window [w >= 2]: set up at index 0, drop
    [values[i - w]] once the window is full, add [values[i]]. *)
Definition mean_step (w : nat) (values : list Q) (i : nat) (val : Q)
           (s : MeanState) : MeanState :=
  let s0 := if (i =? 0)%nat then mean_setup val else s in
  let s1 := if (w <=? i)%nat
            then remove_mean (nth (i - w) values 0) s0 else s0 in
  add_mean val s1.

Fixpoint roll_mean_from (w : nat) (values : list Q) (i : nat)
         (todo : list Q) (s : MeanState) : list Q :=
  match todo with
  | [] => []
  | val :: rest =>
      let s' := mean_step w values i val s in
      calc_mean s' :: roll_mean_from w values (S i) rest s'
  end.

Definition roll_mean (w : nat) (values : list Q) : list Q :=
  roll_mean_from w values 0 values (mean_setup 0).

End RollMean.

(** The column the program gets: the values taken as float64, the running
    mean computed in binary64. *)
Definition rolling_mean (w : nat) (values : list Q) : list Q :=
  roll_mean b64 w (map b64 values).

(** Exact arithmetic: no rounding. *)
Definition exact (q : Q) : Q := q.

(** The indicator as the specification words it: the arithmetic mean of
    [rate[max(0, i-(W-1)) .. i]], both ends included. *)
Definition trailing_window_spec (W : nat) (rate : list Q) (i : nat) : list Q :=
  let lo := Nat.max 0 (i - (W - 1)) in
  firstn (i - lo + 1) (skipn lo rate).

Definition mean_spec (l : list Q) : Q :=
  sumQ l / inject_Z (Z.of_nat (length l)).

(* ------------------------------------------------------------------ *)
(** ** Clock values: [datetime], [timedelta], [strftime], [isoformat]   *)
(* ------------------------------------------------------------------ *)

(** A naive [datetime] is a count of microseconds since 1970-01-01T00:00:00;
    a [timedelta] is a difference of two such counts. *)
Definition datetime := Z.
Bind Scope Z_scope with datetime.

Definition usec_per_day : Z := 86400000000.

Definition timedelta_days (n : Z) : Z := (n * usec_per_day)%Z.

(** Proleptic Gregorian date [(year, month, day)] of a day number. *)
Definition civil_from_days (z0 : Z) : Z * Z * Z :=
  let z := (z0 + 719468)%Z in
  let era := (z / 146097)%Z in
  let doe := (z - era * 146097)%Z in
  let yoe := ((doe - doe / 1460 + doe / 36524 - doe / 146096) / 365)%Z in
  let doy := (doe - (365 * yoe + yoe / 4 - yoe / 100))%Z in
  let mp := ((5 * doy + 2) / 153)%Z in
  let d := (doy - (153 * mp + 2) / 5 + 1)%Z in
  let m := (if mp <? 10 then mp + 3 else mp - 9)%Z in
  let y := (yoe + era * 400)%Z in
  ((if m <=? 2 then y + 1 else y)%Z, m, d).

Definition days_from_civil (y0 m d : Z) : Z :=
  let y := (if m <=? 2 then y0 - 1 else y0)%Z in
  let era := (y / 400)%Z in
  let yoe := (y - era * 400)%Z in
  let mp := (if 2 <? m then m - 3 else m + 9)%Z in
  let doy := ((153 * mp + 2) / 5 + d - 1)%Z in
  let doe := (yoe * 365 + yoe / 4 - yoe / 100 + doy)%Z in
  (era * 146097 + doe - 719468)%Z.

Definition digit_char (d : Z) : ascii := ascii_of_nat (48 + Z.to_nat d).

Fixpoint dec_digits (fuel : nat) (n : Z) (acc : string) : string :=
  match fuel with
  | O => acc
  | S fuel' =>
      let acc' := String (digit_char (n mod 10)) acc in
      if (n / 10 =? 0)%Z then acc' else dec_digits fuel' (n / 10) acc'
  end.

(** Decimal numeral of a non-negative integer. *)
Definition str_of_Z (n : Z) : string :=
  dec_digits (S (Z.to_nat (Z.log2 n))) n "".

Fixpoint zeros (k : nat) : string :=
  match k with
  | O => ""
  | S k' => String "0" (zeros k')
  end.

(** [%0<width>d]. *)
Definition zero_pad (width : nat) (n : Z) : string :=
  let s := str_of_Z n in
  (zeros (width - String.length s) ++ s)%string.

(** [t.strftime("%Y-%m-%d")]. *)
Definition strftime_ymd (t : datetime) : string :=
  let '(y, m, d) := civil_from_days (t / usec_per_day) in
  (zero_pad 4 y ++ "-" ++ zero_pad 2 m ++ "-" ++ zero_pad 2 d)%string.

(** [t.isoformat()]: the fraction is printed only when it is not zero. *)
Definition isoformat (t : datetime) : string :=
  let us := (t mod usec_per_day)%Z in
  let secs := (us / 1000000)%Z in
  let frac := (us mod 1000000)%Z in
  (strftime_ymd t ++ "T" ++ zero_pad 2 (secs / 3600) ++ ":"
    ++ zero_pad 2 ((secs / 60) mod 60) ++ ":" ++ zero_pad 2 (secs mod 60)
    ++ (if (frac =? 0)%Z then "" else "." ++ zero_pad 6 frac))%string.

(** [(a - b).total_seconds()]: the microseconds over [10**6], a true
    division of integers, correctly rounded. *)
Definition total_seconds (delta : Z) : Q := b64 (inject_Z delta / 1000000).

(** [f"{q:.1f}"] for a float of exact value [q]: the nearest number of
    tenths, the even one on a tie, the sign kept in front of the
    magnitude. *)
Definition format_1f (q : Q) : string :=
  let tenths := round_half_even (Qabs q * 10) in
  ((if Qlt_bool q 0 then "-" else "")
    ++ str_of_Z (tenths / 10) ++ "." ++ str_of_Z (tenths mod 10))%string.

(** The value of a decimal digit. *)
Definition digit_of (c : ascii) : option Z :=
  let n := nat_of_ascii c in
  if ((48 <=? n) && (n <=? 57))%nat then Some (Z.of_nat (n - 48)) else None.

Fixpoint read_digits (k : nat) (acc : Z) (s : string) : option (Z * string) :=
  match k with
  | O => Some (acc, s)
  | S k' =>
      match s with
      | String c rest =>
          match digit_of c with
          | Some d => read_digits k' (10 * acc + d)%Z rest
          | None => None
          end
      | EmptyString => None
      end
  end.

Definition expect (c : ascii) (s : string) : option string :=
  match s with
  | String c' rest => if Ascii.eqb c c' then Some rest else None
  | EmptyString => None
  end.

Definition obind {A B : Type} (m : option A) (k : A -> option B) : option B :=
  match m with
  | Some a => k a
  | None => None
  end.

Definition is_leap (y : Z) : bool :=
  ((y mod 4 =? 0) && (negb (y mod 100 =? 0) || (y mod 400 =? 0)))%Z.

Definition days_in_month (y m : Z) : Z :=
  if (m =? 2)%Z then (if is_leap y then 29 else 28)%Z
  else if ((m =? 4) || (m =? 6) || (m =? 9) || (m =? 11))%Z then 30%Z
  else 31%Z.

(** A parser for the two shapes [isoformat] writes,
    [YYYY-MM-DDTHH:MM:SS] and [YYYY-MM-DDTHH:MM:SS.ffffff]; anything else is
    a [ValueError].  [datetime.fromisoformat] reads more shapes than these
    two (a date alone, other separators, offsets); the statements on the
    cache loader take the parser as a parameter, and this one runs the
    loader on examples where the two agree. *)
Definition parse_iso (s : string) : option datetime :=
  obind (read_digits 4 0 s) (fun '(y, s) =>
  obind (expect "-" s) (fun s =>
  obind (read_digits 2 0 s) (fun '(m, s) =>
  obind (expect "-" s) (fun s =>
  obind (read_digits 2 0 s) (fun '(d, s) =>
  obind (expect "T" s) (fun s =>
  obind (read_digits 2 0 s) (fun '(hh, s) =>
  obind (expect ":" s) (fun s =>
  obind (read_digits 2 0 s) (fun '(mi, s) =>
  obind (expect ":" s) (fun s =>
  obind (read_digits 2 0 s) (fun '(ss, s) =>
  obind (match s with
         | EmptyString => Some 0%Z
         | String c rest =>
             if Ascii.eqb c "."
             then obind (read_digits 6 0 rest) (fun '(f, s') =>
                    match s' with EmptyString => Some f | _ => None end)
             else None
         end) (fun frac =>
  if ((1 <=? y) && (y <=? 9999) && (1 <=? m) && (m <=? 12) && (1 <=? d)
      && (d <=? days_in_month y m) && (hh <? 24) && (mi <? 60)
      && (ss <? 60))%Z
  then Some (days_from_civil y m d * usec_per_day
             + ((hh * 60 + mi) * 60 + ss) * 1000000 + frac)%Z
  else None)))))))))))).

Definition fromisoformat_basic (s : string) : result datetime :=
  match parse_iso s with
  | Some t => Ok t
  | None => Raise ValueError
  end.

(* ------------------------------------------------------------------ *)
(** ** Data model: rate points, frames, trades                          *)
(* ------------------------------------------------------------------ *)

(** One record of the series, [{"Date": ..., "Rate": ...}]. *)
Record RatePoint : Type := mkPoint { Date : string; Rate : Q }.

(** The frame the program passes around: the records it was built from and
    the two indicator columns, absent until the backtest assigns them. *)
Record DataFrame : Type := mkFrame {
  records : list RatePoint;
  SMA_7 : option (list Q);
  SMA_14 : option (list Q)
}.

(** [pd.DataFrame(data)] for a list of records. *)
Definition pd_DataFrame (data : list RatePoint) : DataFrame :=
  {| records := data; SMA_7 := None; SMA_14 := None |}.

(** [df.empty]. *)
Definition df_empty (df : DataFrame) : bool :=
  match records df with
  | [] => true
  | _ :: _ => false
  end.

(** [len(df)]. *)
Definition df_len (df : DataFrame) : nat := length (records df).

(** [df['Rate']]: a frame built from an empty list has no columns at all. *)
Definition col_Rate (df : DataFrame) : result (list Q) :=
  match records df with
  | [] => Raise KeyError
  | _ :: _ => Ok (map Rate (records df))
  end.

(** [df['SMA_7']], [df['SMA_14']]. *)
Definition col_opt (c : option (list Q)) : result (list Q) :=
  match c with
  | Some l => Ok l
  | None => Raise KeyError
  end.

(** [df['Date']]. *)
Definition col_Date (df : DataFrame) : result (list string) :=
  match records df with
  | [] => Raise KeyError
  | _ :: _ => Ok (map Date (records df))
  end.

(** [series.iloc[-1]]. *)
Definition iloc_last {A : Type} (l : list A) : result A :=
  match rev l with
  | x :: _ => Ok x
  | [] => Raise IndexError
  end.

(** [df.loc[k, column]] on the default integer index. *)
Definition loc (column : list Q) (k : nat) : result Q :=
  match nth_error column k with
  | Some x => Ok x
  | None => Raise KeyError
  end.

Inductive Action : Type := BUY | SELL.

Record Trade : Type := mkTrade {
  date : string;
  action : Action;
  rate : Q;
  amount_usd : Q;
  amount_nis : Q
}.

(** A row as [df.iterrows()] yields it once both indicator columns exist. *)
Record Row : Type := mkRow {
  row_Date : string;
  row_Rate : Q;
  row_SMA_7 : Q;
  row_SMA_14 : Q
}.

Fixpoint iterrows_from (index : nat) (recs : list RatePoint)
         (sma7 sma14 : list Q) : list (nat * Row) :=
  match recs, sma7, sma14 with
  | r :: recs', a :: sma7', b :: sma14' =>
      (index, mkRow (Date r) (Rate r) a b)
        :: iterrows_from (S index) recs' sma7' sma14'
  | _, _, _ => []
  end.

Definition iterrows (recs : list RatePoint) (sma7 sma14 : list Q)
  : list (nat * Row) :=
  iterrows_from 0 recs sma7 sma14.

(* ------------------------------------------------------------------ *)
(** ** The backtest: [calculate_trading_profit]                         *)
(* ------------------------------------------------------------------ *)

(** The local variables the loop updates. *)
Record Sim : Type := mkSim {
  usd_balance : Q;
  nis_balance : Q;
  trades : list Trade;
  portfolio_value : list Q
}.

Definition sim_init (initial_usd : Q) : Sim :=
  {| usd_balance := initial_usd; nis_balance := 0;
     trades := []; portfolio_value := [] |}.

(** The crossover branch of the loop body ([if index > 0: ...]). *)
Definition crossover (sma7 sma14 : list Q) (index : nat) (row : Row)
           (st : Sim) : result Sim :=
  let current_rate := row_Rate row in
  if (0 <? index)%nat then
    prev_sma_7 <- loc sma7 (index - 1) ;;
    prev_sma_14 <- loc sma14 (index - 1) ;;
    if Qlt_bool (row_SMA_14 row) (row_SMA_7 row)
       && Qle_bool prev_sma_7 prev_sma_14
       && Qlt_bool 0 (usd_balance st)
    then
      let nis := usd_balance st * current_rate in
      Ok {| usd_balance := 0;
            nis_balance := nis;
            trades := trades st ++
                      [mkTrade (row_Date row) BUY current_rate
                               (usd_balance st) nis];
            portfolio_value := portfolio_value st |}
    else if Qlt_bool (row_SMA_7 row) (row_SMA_14 row)
            && Qle_bool prev_sma_14 prev_sma_7
            && Qlt_bool 0 (nis_balance st)
    then
      usd <- py_div (nis_balance st) current_rate ;;
      Ok {| usd_balance := usd;
            nis_balance := 0;
            trades := trades st ++
                      [mkTrade (row_Date row) SELL current_rate
                               usd (nis_balance st)];
            portfolio_value := portfolio_value st |}
    else Ok st
  else Ok st.

(** One iteration: the crossover branch, then the mark-to-market value. *)
Definition loop_body (sma7 sma14 : list Q) (ir : nat * Row) (st : Sim)
  : result Sim :=
  let '(index, row) := ir in
  st1 <- crossover sma7 sma14 index row st ;;
  in_usd <- py_div (nis_balance st1) (row_Rate row) ;;
  Ok {| usd_balance := usd_balance st1;
        nis_balance := nis_balance st1;
        trades := trades st1;
        portfolio_value :=
          portfolio_value st1 ++ [usd_balance st1 + in_usd] |}.

Fixpoint run_rows (sma7 sma14 : list Q) (rows : list (nat * Row)) (st : Sim)
  : result Sim :=
  match rows with
  | [] => Ok st
  | ir :: rest =>
      st' <- loop_body sma7 sma14 ir st ;;
      run_rows sma7 sma14 rest st'
  end.

(** The [for index, row in df.iterrows()] loop over a frame whose indicator
    columns are [sma7] and [sma14]. *)
Definition backtest_loop (recs : list RatePoint) (sma7 sma14 : list Q)
           (initial_usd : Q) : result Sim :=
  run_rows sma7 sma14 (iterrows recs sma7 sma14) (sim_init initial_usd).

(** The loop stopped after its first [n] iterations. *)
Definition backtest_upto (n : nat) (recs : list RatePoint)
           (sma7 sma14 : list Q) (initial_usd : Q) : result Sim :=
  run_rows sma7 sma14 (firstn n (iterrows recs sma7 sma14))
           (sim_init initial_usd).

(** [calculate_trading_profit(df, initial_usd)]: the frame as the call
    leaves it, and what the call returns or raises.  The two divisions
    after the loop are numpy's, which do not raise: the last rate is not
    zero once the loop has divided by it, and the percentage is [None]
    ([inf] or [nan]) for a zero stake. *)
Definition calculate_trading_profit (df : DataFrame) (initial_usd : Q)
  : DataFrame * result (Q * option Q * list Trade * list Q) :=
  match col_Rate df with
  | Raise e => (df, Raise e)
  | Ok rates =>
      let sma7 := rolling_mean 7 rates in
      let sma14 := rolling_mean 14 rates in
      let df' := {| records := records df;
                    SMA_7 := Some sma7;
                    SMA_14 := Some sma14 |} in
      (df',
       st <- backtest_loop (records df) sma7 sma14 initial_usd ;;
       last_rate <- iloc_last rates ;;
       let final_usd := usd_balance st + nis_balance st / last_rate in
       let profit_usd := final_usd - initial_usd in
       let profit_pct :=
         option_map (fun ratio => ratio * 100)
                    (np_div profit_usd initial_usd) in
       Ok (profit_usd, profit_pct, trades st, portfolio_value st))
  end.

(* ------------------------------------------------------------------ *)
(** ** The outside world                                                *)
(* ------------------------------------------------------------------ *)

(** What [json.load] finds in the cache file.  A stored record is a JSON
    object whose fields, when present, have the types the save path writes;
    a field is [None] when its key is missing. *)
Record CacheRecord : Type := mkCache {
  c_timestamp : option string;
  c_data : option (list RatePoint);
  c_current_rate : option Q;
  c_current_date : option string
}.

Inductive CacheFile : Type :=
| NoFile                      (* [os.path.exists] is false *)
| Malformed                   (* the content is not JSON *)
| NotADict                    (* JSON, but not an object *)
| Stored (c : CacheRecord).

(** The date that comes with a provider's rate: the [LAST_UPDATE] element
    of the Bank of Israel, the [date] key of ExchangeRate.host, the first
    word of [time_last_update_utc] for ExchangeRate-API. *)
Inductive ProviderDate : Type :=
| DateMissing                 (* no such element, no such key *)
| DateEmpty                   (* an empty element, a JSON null, no word *)
| DateGiven (d : string).

(** One refresh of the dashboard sees one world: the clock, what each
    provider answers (None: any transport, status or parse failure; else
    the USD/ILS rate and the date that comes with it), the date-sorted
    items of the historical rate map per requested number of days (each
    with its ILS rate when it has one), the cache file, and whether writing
    the cache fails (and what the file holds afterwards). *)
Record World : Type := mkWorld {
  now : datetime;
  boi_response : option (Q * ProviderDate);
  host_response : option (Q * ProviderDate);
  erapi_response : option (Q * ProviderDate);
  history_response : Z -> option (list (string * option Q));
  cache_file : CacheFile;
  write_fault : option CacheFile
}.

(** Truthiness of a rate in [if rate:]. *)
Definition truthy (rate : option Q) : bool :=
  match rate with
  | Some r => negb (Qeq_bool r 0)
  | None => false
  end.

(** [x if x else y] for an optional value. *)
Definition or_else {A : Type} (x : option A) (y : A) : A :=
  match x with
  | Some a => a
  | None => y
  end.

(** [rate if rate else other]: [other] is evaluated only when needed. *)
Definition rate_or (rate : option Q) (other : result Q) : result Q :=
  match rate with
  | Some r => if negb (Qeq_bool r 0) then Ok r else other
  | None => other
  end.

(** [date if date else other], on strings. *)
Definition date_or (d : option string) (other : result string)
  : result string :=
  match d with
  | Some s => if String.eqb s "" then other else Ok s
  | None => other
  end.

(** [{source}] inside an f-string. *)
Definition fmt_opt (s : option string) : string := or_else s "None".

(** The date a provider returns: today's when the answer has none
    ([date.text if date is not None else ...], [data.get('date', ...)]),
    and [None] when the element is empty or the value is null. *)
Definition provider_date (today : string) (d : ProviderDate) : option string :=
  match d with
  | DateMissing => Some today
  | DateEmpty => None
  | DateGiven text => Some text
  end.

Definition provider_result (name : string) (today : string)
           (response : option (Q * ProviderDate))
  : option Q * option string * option string :=
  match response with
  | Some (r, d) => (Some r, provider_date today d, Some name)
  | None => (None, None, None)
  end.

Definition fetch_from_bank_of_israel (w : World) :=
  provider_result "Bank of Israel" (strftime_ymd (now w)) (boi_response w).

Definition fetch_from_exchangerate_host (w : World) :=
  provider_result "ExchangeRate.host" (strftime_ymd (now w)) (host_response w).

(** For ExchangeRate-API the date is [.split()[0]] of the text: on a null
    or a text without a word that expression raises, and the [except]
    answers for the provider. *)
Definition fetch_from_exchangerate_api (w : World) :=
  match erapi_response w with
  | Some (_, DateEmpty) => (None, None, None)
  | response =>
      provider_result "ExchangeRate-API" (strftime_ymd (now w)) response
  end.

Definition get_current_rate (w : World)
  : option Q * option string * string :=
  let '(rate, date, source) := fetch_from_bank_of_israel w in
  if truthy rate
  then (rate, date, ("✅ " ++ fmt_opt source ++ " (Official)")%string)
  else
    let '(rate, date, source) := fetch_from_exchangerate_host w in
    if truthy rate then (rate, date, ("✅ " ++ fmt_opt source)%string)
    else
      let '(rate, date, source) := fetch_from_exchangerate_api w in
      if truthy rate then (rate, date, ("✅ " ++ fmt_opt source)%string)
      else (None, None, "❌ All APIs unavailable").

Definition history_records (items : list (string * option Q))
  : list RatePoint :=
  flat_map (fun '(date_str, ils) =>
              match ils with
              | Some x => [mkPoint date_str (py_round x 4)]
              | None => []
              end) items.

Definition fetch_historical_data (days : Z) (w : World)
  : option DataFrame * option string :=
  match history_response w days with
  | Some items =>
      match history_records items with
      | [] => (None, None)
      | data => (Some (pd_DataFrame data), Some "Historical data (30 days)")
      end
  | None => (None, None)
  end.

(* ------------------------------------------------------------------ *)
(** ** Demo generator, cache loader, acquisition                        *)
(* ------------------------------------------------------------------ *)

Definition demo_rate (i : Z) : Q :=
  let base_rate := 3.09 in
  let trend := 0.0005 * (inject_Z i - 15) in
  let volatility := 0.01 * (inject_Z (i mod 5) - 2) / 2 in
  py_round (base_rate + trend + volatility) 4.

Definition demo_point (start_date : datetime) (i : nat) : RatePoint :=
  {| Date := strftime_ymd (start_date + timedelta_days (Z.of_nat i));
     Rate := demo_rate (Z.of_nat i) |}.

(** [generate_demo_data()]; the clock reading is its only input. *)
Definition generate_demo_data (now_ : datetime) : DataFrame * Q * string :=
  let start_date := (now_ - timedelta_days 30)%Z in
  let data := map (demo_point start_date) (seq 0 30) in
  let df := pd_DataFrame data in
  let current_rate := Rate (last data (mkPoint "" 0)) in
  (df, current_rate, "📊 Demo mode (realistic rates)").

Section Acquisition.

(** [datetime.fromisoformat], the library's parser of timestamps. *)
Variable fromisoformat : string -> result datetime.

Definition json_load (f : CacheFile) : result (option CacheRecord) :=
  match f with
  | NoFile => Raise OSError
  | Malformed => Raise JSONDecodeError
  | NotADict => Ok None
  | Stored c => Ok (Some c)
  end.

(** [cache[key]]. *)
Definition getitem {A : Type} (cache : option CacheRecord)
           (field : CacheRecord -> option A) : result A :=
  match cache with
  | None => Raise TypeError
  | Some c =>
      match field c with
      | Some v => Ok v
      | None => Raise KeyError
      end
  end.

(** The body of the [try] in [load_cached_data]. *)
Definition read_cache (now_ : datetime) (f : CacheFile)
  : result (DataFrame * Q * string) :=
  cache <- json_load f ;;
  data <- getitem cache c_data ;;
  let df := pd_DataFrame data in
  timestamp <- getitem cache c_timestamp ;;
  cache_time <- fromisoformat timestamp ;;
  let age := b64 (total_seconds (now_ - cache_time) / 3600) in
  current_rate <- getitem cache c_current_rate ;;
  Ok (df, current_rate,
      ("⚠️ Using cached data (" ++ format_1f age ++ " hours old)")%string).

(** The [if os.path.exists(...)] block: [Some] when the [try] returns,
    [None] when control leaves the block ([except: pass], or no file). *)
Definition cache_attempt (now_ : datetime) (f : CacheFile)
  : option (DataFrame * Q * string) :=
  match f with
  | NoFile => None
  | _ =>
      match read_cache now_ f with
      | Ok r => Some r
      | Raise _ => None
      end
  end.

Definition load_cached_data (now_ : datetime) (f : CacheFile)
  : DataFrame * Q * string :=
  match cache_attempt now_ f with
  | Some r => r
  | None => generate_demo_data now_
  end.

(** [with open(CACHE_FILE, 'w') as f: json.dump(cache_data, f)]. *)
Definition write_cache (w : World) (cache_data : CacheRecord)
  : CacheFile * result unit :=
  match write_fault w with
  | Some left_behind => (left_behind, Raise OSError)
  | None => (Stored cache_data, Ok tt)
  end.

(** The body of the [try] in [fetch_real_exchange_rates], with the cache
    file it leaves. *)
Definition fetch_live (days : Z) (w : World)
  : CacheFile * result (DataFrame * Q * string) :=
  let '(current_rate, current_date, status_msg) := get_current_rate w in
  let '(df, hist_msg) := fetch_historical_data days w in
  match df with
  | Some df =>
      if negb (df_empty df) then
        match
          (rate_ <- rate_or current_rate
                      (rates <- col_Rate df ;; iloc_last rates) ;;
           date_ <- date_or current_date
                      (dates <- col_Date df ;; iloc_last dates) ;;
           Ok {| c_timestamp := Some (isoformat (now w));
                 c_data := Some (records df);
                 c_current_rate := Some rate_;
                 c_current_date := Some date_ |})
        with
        | Raise e => (cache_file w, Raise e)
        | Ok cache_data =>
            match write_cache w cache_data with
            | (f, Raise e) => (f, Raise e)
            | (f, Ok _) =>
                (f,
                 actual_current <- rate_or current_rate
                                     (rates <- col_Rate df ;;
                                      iloc_last rates) ;;
                 Ok (df, actual_current, status_msg))
            end
        end
      else (cache_file w, Ok (load_cached_data (now w) (cache_file w)))
  | None => (cache_file w, Ok (load_cached_data (now w) (cache_file w)))
  end.

(** [fetch_real_exchange_rates(days)]: what it returns, and the cache file
    afterwards. *)
Definition fetch_real_exchange_rates (days : Z) (w : World)
  : (DataFrame * Q * string) * CacheFile :=
  match fetch_live days w with
  | (f, Ok r) => (r, f)
  | (f, Raise _) => (load_cached_data (now w) f, f)
  end.

(** The head of [refresh_dashboard]: acquisition, backtest, and the
    recommendation read off the frame's indicator columns. *)
Definition refresh_recommendation (w : World) : result string :=
  let '((df, current_rate, status_msg), _) :=
    fetch_real_exchange_rates 30 w in
  let '(df, outcome) := calculate_trading_profit df 1000 in
  _ <- outcome ;;
  rates <- col_Rate df ;;
  latest_rate <- iloc_last rates ;;
  c7 <- col_opt (SMA_7 df) ;;
  sma_7 <- iloc_last c7 ;;
  c14 <- col_opt (SMA_14 df) ;;
  sma_14 <- iloc_last c14 ;;
  if Qlt_bool sma_14 sma_7
  then Ok "🟢 **BUY Signal** - Short-term trend is upward"
  else if Qlt_bool sma_7 sma_14
  then Ok "🔴 **SELL Signal** - Short-term trend is downward"
  else Ok "🟡 **HOLD** - Wait for clearer signal".

End Acquisition.

(* ------------------------------------------------------------------ *)
(** ** Sample inputs                                                    *)
(* ------------------------------------------------------------------ *)

Definition frame_of_rates (rates : list Q) : DataFrame :=
  pd_DataFrame (map (fun r => mkPoint "2026-01-01" r) rates).

(** Seven quiet days, a jump and a drop: one BUY at index 7, one SELL at
    index 8. *)
Definition sample_frame : DataFrame :=
  frame_of_rates [3; 3; 3; 3; 3; 3; 3; 4; 1].

(** The five-point scenario of the specification. *)
Definition short_frame : DataFrame :=
  frame_of_rates [3.00; 3.05; 3.10; 3.02; 2.95].

(** 2026-01-02T03:04:05.000123. *)
Definition sample_now : datetime := 1767323045000123.

(** Every provider down, no history, no cache file. *)
Definition world_down : World :=
  {| now := sample_now;
     boi_response := None;
     host_response := None;
     erapi_response := None;
     history_response := fun _ => None;
     cache_file := NoFile;
     write_fault := None |}.


(** The first provider answers with an empty [LAST_UPDATE] element. *)
Definition world_empty_date : World :=
  {| now := sample_now;
     boi_response := Some (3.09, DateEmpty);
     host_response := Some (3.10, DateGiven "2026-01-02");
     erapi_response := None;
     history_response := fun _ => None;
     cache_file := NoFile;
     write_fault := None |}.

(** The first provider answers and the history arrives. *)
Definition world_live : World :=
  {| now := sample_now;
     boi_response := Some (3.09, DateMissing);
     host_response := Some (3.10, DateGiven "2026-01-02");
     erapi_response := None;
     history_response :=
       fun _ => Some [("2025-12-31", Some 3.08111); ("2026-01-01", None);
                      ("2026-01-02", Some 3.09)];
     cache_file := NoFile;
     write_fault := None |}.

(** Providers down; the cache file is a complete record whose data array
    is empty: [{"timestamp": "2026-01-01T00:00:00", "data": [],
    "current_rate": 3.09, "current_date": "2026-01-01"}]. *)
Definition empty_cache_record : CacheRecord :=
  {| c_timestamp := Some "2026-01-01T00:00:00";
     c_data := Some [];
     c_current_rate := Some 3.09;
     c_current_date := Some "2026-01-01" |}.

Definition world_empty_cache : World :=
  {| now := sample_now;
     boi_response := None;
     host_response := None;
     erapi_response := None;
     history_response := fun _ => None;
     cache_file := Stored empty_cache_record;
     write_fault := None |}.





(* ------------------------------------------------------------------ *)
(** ** Vocabulary of the statements                                     *)
(* ------------------------------------------------------------------ *)

(** Sum of the first [k] values of a column. *)
Definition prefix_sum (values : list Q) (k : nat) : Q :=
  sumQ (firstn k values).

(** Upward crossover at [i]: short above long now, not above before. *)
Definition upward_crossover (sma7 sma14 : list Q) (i : nat) : Prop :=
  nth i sma14 0 < nth i sma7 0 /\ nth (i - 1) sma7 0 <= nth (i - 1) sma14 0.

(** Downward crossover at [i]: short below long now, not below before. *)
Definition downward_crossover (sma7 sma14 : list Q) (i : nat) : Prop :=
  nth i sma7 0 < nth i sma14 0 /\ nth (i - 1) sma14 0 <= nth (i - 1) sma7 0.

(** Iteration [i] appended exactly the trade [t]. *)
Definition records_trade (before after : Sim) (t : Trade) : Prop :=
  trades after = trades before ++ [t].

Definition Action_eqb (a b : Action) : bool :=
  match a, b with
  | BUY, BUY | SELL, SELL => true
  | _, _ => false
  end.

(** No two neighbours of the list carry the same action. *)
Fixpoint alternates (l : list Action) : bool :=
  match l with
  | a :: t =>
      match t with
      | b :: _ => negb (Action_eqb a b) && alternates t
      | [] => true
      end
  | [] => true
  end.

Fixpoint last_action (l : list Action) : option Action :=
  match l with
  | [] => None
  | a :: t =>
      match t with
      | [] => Some a
      | _ :: _ => last_action t
      end
  end.

(** The invariant of the loop: the actions alternate starting with a BUY,
    and the balance the last trade emptied is still zero. *)
Definition holding_invariant (st : Sim) : Prop :=
  let acts := map action (trades st) in
  alternates acts = true
  /\ hd_error acts <> Some SELL
  /\ match last_action acts with
     | None => nis_balance st = 0
     | Some BUY => usd_balance st = 0
     | Some SELL => nis_balance st = 0
     end.





(** The three components of what the acquisition returns. *)
Definition frame_of (r : DataFrame * Q * string) : DataFrame := fst (fst r).
Definition rate_of (r : DataFrame * Q * string) : Q := snd (fst r).
Definition label_of (r : DataFrame * Q * string) : string := snd r.

(** The days a [datetime] can fall on: 0001-01-01 to 9999-12-31. *)
Definition min_day : Z := -719162.
Definition max_day : Z := 2932896.

Definition in_datetime_range (t : datetime) : Prop :=
  (min_day <= t / usec_per_day <= max_day)%Z.

(** Reading [YYYY-MM-DD] back. *)
Definition read_ymd (s : string) : option (Z * Z * Z) :=
  obind (read_digits 4 0 s) (fun '(y, s) =>
  obind (expect "-" s) (fun s =>
  obind (read_digits 2 0 s) (fun '(m, s) =>
  obind (expect "-" s) (fun s =>
  obind (read_digits 2 0 s) (fun '(d, s) =>
  match s with
  | EmptyString => Some (y, m, d)
  | String _ _ => None
  end))))).

(** [%0<width>d] of [n] reads back as [n]. *)
Definition pad_reads_back (width : nat) (n : Z) : bool :=
  match read_digits width 0 (zero_pad width n) with
  | Some (v, EmptyString) => Z.eqb v n
  | _ => false
  end.


(** Age of a cache record in hours, as the float the loader computes:
    the seconds, then their quotient by 3600. *)
Definition age_hours (now_ cache_time : datetime) : Q :=
  b64 (total_seconds (now_ - cache_time) / 3600).






Definition nonzero_rates (recs : list RatePoint) : Prop :=
  Forall (fun p => ~ Rate p == 0) recs.

Definition default_point : RatePoint := mkPoint "" 0.

(* ------------------------------------------------------------------ *)
(** ** The dashboard: [refresh_dashboard] and the chart's trade markers *)
(* ------------------------------------------------------------------ *)

(** [series.iloc[-2]]. *)
Definition iloc_second_last {A : Type} (l : list A) : result A :=
  match rev l with
  | _ :: x :: _ => Ok x
  | _ => Raise IndexError
  end.

(** [series.min()] and [series.max()]; [None] is the [nan] of an empty
    series. *)
Definition series_min (l : list Q) : option Q :=
  match l with
  | [] => None
  | x :: t => Some (fold_left Qmin t x)
  end.

Definition series_max (l : list Q) : option Q :=
  match l with
  | [] => None
  | x :: t => Some (fold_left Qmax t x)
  end.

(** [l[-n:]] and [df.tail(n)]. *)
Definition tail_n {A : Type} (n : nat) (l : list A) : list A :=
  skipn (length l - n) l.

(** [len([t for t in trades if t['action'] == 'SELL']) / max(len(trades), 1)
    * 100], the "Win Rate" of the report. *)
Definition win_rate (ts : list Trade) : Q :=
  inject_Z (Z.of_nat (length (filter (fun t => match action t with
                                               | SELL => true
                                               | BUY => false
                                               end) ts)))
  / inject_Z (Z.of_nat (Nat.max (length ts) 1)) * 100.

(** The values the report's f-string interpolates, in the order it
    evaluates them, and the trades listed under it. *)
Record Report : Type := mkReport {
  r_status : string;
  r_last_updated : string;
  r_live_rate : Q;
  r_previous_close : Q;
  r_daily_change : option Q;
  r_sma_7 : Q;
  r_sma_14 : Q;
  r_range_min : option Q;
  r_range_max : option Q;
  r_recommendation : string;
  r_explanation : string;
  r_final_value : Q;
  r_profit_emoji : string;
  r_profit_usd : Q;
  r_profit_pct : option Q;
  r_total_trades : nat;
  r_win_rate : Q;
  r_recent_trades : list Trade
}.

Section Dashboard.

Variable fromisoformat : string -> result datetime.

(** The chart renderer, [plot_advanced_chart], is matplotlib's business:
    it is taken as it comes, returning a figure or raising. *)
Variable Figure : Type.
Variable plot_advanced_chart :
  DataFrame -> list Trade -> list Q -> result Figure.

(** [refresh_dashboard] from its second statement on, given what the
    acquisition returned. *)
Definition dashboard_after_fetch (acquired : DataFrame * Q * string)
  : result (Report * Figure * list Row) :=
  let '(df, current_rate, status_msg) := acquired in
  let '(df, outcome) := calculate_trading_profit df 1000 in
  returned <- outcome ;;
  let '(profit_usd, profit_pct, trades_, portfolio_value_) := returned in
  rates <- col_Rate df ;;
  latest_rate <- iloc_last rates ;;
  col7 <- col_opt (SMA_7 df) ;;
  sma_7 <- iloc_last col7 ;;
  col14 <- col_opt (SMA_14 df) ;;
  sma_14 <- iloc_last col14 ;;
  change_24h <-
    (if (2 <=? df_len df)%nat
     then
       previous <- iloc_second_last rates ;;
       Ok (option_map (fun ratio => ratio * 100)
                      (np_div (latest_rate - previous) previous))
     else Ok (Some 0)) ;;
  let recommendation :=
    if Qlt_bool sma_14 sma_7
    then "🟢 **BUY Signal** - Short-term trend is upward"
    else if Qlt_bool sma_7 sma_14
    then "🔴 **SELL Signal** - Short-term trend is downward"
    else "🟡 **HOLD** - Wait for clearer signal" in
  let profit_emoji := if Qlt_bool 0 profit_usd then "📈" else "📉" in
  dates <- col_Date df ;;
  last_updated <- iloc_last dates ;;
  previous_close <- iloc_second_last rates ;;
  let explanation :=
    if Qlt_bool sma_14 sma_7
    then "The 7-day moving average is above the 14-day average, indicating upward momentum."
    else if Qlt_bool sma_7 sma_14
    then "The 7-day moving average is below the 14-day average, indicating downward pressure."
    else "Moving averages are converging - waiting for direction." in
  let report :=
    {| r_status := status_msg;
       r_last_updated := last_updated;
       r_live_rate := current_rate;
       r_previous_close := previous_close;
       r_daily_change := change_24h;
       r_sma_7 := sma_7;
       r_sma_14 := sma_14;
       r_range_min := series_min rates;
       r_range_max := series_max rates;
       r_recommendation := recommendation;
       r_explanation := explanation;
       r_final_value := 1000 + profit_usd;
       r_profit_emoji := profit_emoji;
       r_profit_usd := profit_usd;
       r_profit_pct := profit_pct;
       r_total_trades := length trades_;
       r_win_rate := win_rate trades_;
       r_recent_trades := tail_n 5 trades_ |} in
  chart <- plot_advanced_chart df trades_ portfolio_value_ ;;
  let table_data := tail_n 10 (map snd (iterrows (records df) col7 col14)) in
  Ok (report, chart, table_data).

Definition refresh_dashboard (w : World)
  : result (Report * Figure * list Row) :=
  dashboard_after_fetch (fst (fetch_real_exchange_rates fromisoformat 30 w)).

End Dashboard.

Fixpoint first_index_of (d : string) (dates : list string) (i : nat)
  : option nat :=
  match dates with
  | [] => None
  | x :: rest =>
      if String.eqb x d then Some i else first_index_of d rest (S i)
  end.

(** [df[df['Date'] == trade['date']].index[0]], the row
    [plot_advanced_chart] looks up for each trade marker. *)
Definition trade_row_index (df : DataFrame) (t : Trade) : result nat :=
  dates <- col_Date df ;;
  match first_index_of (date t) dates 0 with
  | Some i => Ok i
  | None => Raise IndexError
  end.

(* ------------------------------------------------------------------ *)
(** ** More vocabulary                                                  *)
(* ------------------------------------------------------------------ *)

(** [l1] is [l2] with some entries left out, the order kept. *)
Inductive Subseq {A : Type} : list A -> list A -> Prop :=
| Subseq_nil : Subseq [] []
| Subseq_skip (l1 l2 : list A) (x : A) :
    Subseq l1 l2 -> Subseq l1 (x :: l2)
| Subseq_take (l1 l2 : list A) (x : A) :
    Subseq l1 l2 -> Subseq (x :: l1) (x :: l2).

(** The point of the series a trade was made at. *)
Definition trade_point (t : Trade) : RatePoint := mkPoint (date t) (rate t).

(** A trade converts the whole of what the trade before it left. *)
Definition follows_on (a b : Trade) : Prop :=
  match action b with
  | BUY => amount_usd b = amount_usd a
  | SELL => amount_nis b = amount_nis a
  end.

Fixpoint chained (l : list Trade) : Prop :=
  match l with
  | a :: t =>
      match t with
      | b :: _ => follows_on a b /\ chained t
      | [] => True
      end
  | [] => True
  end.

(** The amounts of a trade agree with its rate. *)
Definition trade_consistent (t : Trade) : Prop :=
  match action t with
  | BUY => amount_nis t = amount_usd t * rate t
  | SELL => amount_usd t = amount_nis t / rate t
  end.

(** Every trade agrees with its rate, each continues the one before it,
    the first one starts from the stake, and the balance the last one
    filled is still what it recorded. *)
Definition amounts_invariant (initial_usd : Q) (st : Sim) : Prop :=
  Forall trade_consistent (trades st) /\ chained (trades st)
  /\ (forall t rest, trades st = t :: rest -> amount_usd t = initial_usd)
  /\ match rev (trades st) with
     | [] => usd_balance st = initial_usd /\ nis_balance st = 0
     | t :: _ =>
         match action t with
         | BUY => usd_balance st = 0 /\ nis_balance st = amount_nis t
         | SELL => nis_balance st = 0 /\ usd_balance st = amount_usd t
         end
     end.

(** What a trade says apart from its date. *)
Definition trade_figures (t : Trade) : Action * Q * Q * Q :=
  (action t, rate t, amount_usd t, amount_nis t).

(** Two states of the loop that differ at most in the dates of their
    trades, and two rows that differ at most in their date. *)
Definition same_figures (a b : Sim) : Prop :=
  usd_balance a = usd_balance b /\ nis_balance a = nis_balance b
  /\ portfolio_value a = portfolio_value b
  /\ map trade_figures (trades a) = map trade_figures (trades b).

Definition same_but_date (a b : nat * Row) : Prop :=
  fst a = fst b /\ row_Rate (snd a) = row_Rate (snd b)
  /\ row_SMA_7 (snd a) = row_SMA_7 (snd b)
  /\ row_SMA_14 (snd a) = row_SMA_14 (snd b).

(** The state of the running mean after the first [n] values. *)
Fixpoint mean_state (fl : Q -> Q) (w : nat) (values : list Q) (n : nat)
  : MeanState :=
  match n with
  | O => mean_setup 0
  | S k => mean_step fl w values k (nth k values 0) (mean_state fl w values k)
  end.

(** The count of equal values in a row is at least the length of any run
    of equal values that ends at [i]. *)
Definition run_counted (values : list Q) (i : nat) (s : MeanState) : Prop :=
  forall k, (k <= S i)%nat ->
    (forall j, (S i - k <= j)%nat -> (j <= i)%nat ->
               nth j values 0 == nth i values 0) ->
    (k <= num_consecutive_same_value s)%nat.

Definition count_neg (l : list Q) : nat :=
  length (filter (fun x => Qlt_bool x 0) l).

(** Negative values among the first [k]. *)
Definition neg_prefix (values : list Q) (k : nat) : nat :=
  count_neg (firstn k values).

(** In exact arithmetic, after [S i] values: the compensations are zero,
    the running sum is the sum of the window, the count of negative values
    is the window's, and the values counted as equal are equal. *)
Definition exact_state (w : nat) (values : list Q) (i : nat) (s : MeanState)
  : Prop :=
  compensation_add s == 0 /\ compensation_remove s == 0
  /\ sum_x s == prefix_sum values (S i) - prefix_sum values (S i - w)
  /\ (neg_ct s + neg_prefix values (S i - w))%nat = neg_prefix values (S i)
  /\ forall j, (j <= i)%nat -> (i - j < num_consecutive_same_value s)%nat ->
               nth j values 0 == nth i values 0.

(** Two outcomes that raise the same exception or return related values. *)
Definition agree {A : Type} (R : A -> A -> Prop) (x y : result A) : Prop :=
  match x, y with
  | Ok a, Ok b => R a b
  | Raise e1, Raise e2 => e1 = e2
  | _, _ => False
  end.

(** The items of a historical answer that carry an ILS rate. *)
Definition with_rate (items : list (string * option Q)) : list (string * Q) :=
  flat_map (fun '(d, ils) => match ils with
                             | Some x => [(d, x)]
                             | None => []
                             end) items.

(** A point of the historical frame against the item it was made from:
    same date, the rate rounded to four decimals. *)
Definition rounded_from (p : RatePoint) (item : string * Q) : Prop :=
  Date p = fst item
  /\ Qabs (Rate p - snd item) <= 1 # 20000
  /\ exists z, Rate p == inject_Z z / 10000.

Definition positive_rates (recs : list RatePoint) : Prop :=
  Forall (fun p => 0 < Rate p) recs.

(* ================================================================== *)
(** * Properties                                                        *)
(* ================================================================== *)

(* ------------------------------------------------------------------ *)
(** ** Numbers and exceptions                                           *)
(* ------------------------------------------------------------------ *)

Lemma Qlt_bool_iff (a b : Q) : Qlt_bool a b = true <-> a < b.
Proof.
  unfold Qlt_bool. rewrite negb_true_iff. split.
  - intros H. apply Qnot_le_lt. intros Hle.
    apply Qle_bool_iff in Hle. congruence.
  - intros H. destruct (Qle_bool b a) eqn:E; auto.
    apply Qle_bool_iff in E. exfalso. exact (Qlt_not_le _ _ H E).
Qed.

Lemma Qlt_bool_spec (a b : Q) : reflect (a < b) (Qlt_bool a b).
Proof. apply iff_reflect. symmetry. apply Qlt_bool_iff. Qed.

Lemma Qle_bool_spec (a b : Q) : reflect (a <= b) (Qle_bool a b).
Proof. apply iff_reflect. symmetry. apply Qle_bool_iff. Qed.

Lemma py_div_ok (x y : Q) : ~ y == 0 -> py_div x y = Ok (x / y).
Proof.
  intros H. unfold py_div. destruct (Qeq_bool y 0) eqn:E; auto.
  apply Qeq_bool_iff in E. contradiction.
Qed.

Lemma bind_ok {A B : Type} (m : result A) (k : A -> result B) (b : B) :
  bind m k = Ok b -> exists a, m = Ok a /\ k a = Ok b.
Proof. destruct m; simpl; intros H; [eauto | discriminate]. Qed.

(* ------------------------------------------------------------------ *)
(** ** Indicators                                                       *)
(* ------------------------------------------------------------------ *)

Section RollingMean.

Variable values : list Q.

Local Abbreviation prefix_sum := (prefix_sum values).

Lemma sumQ_app (a b : list Q) : sumQ (a ++ b) == sumQ a + sumQ b.
Proof.
  induction a as [|x a IH]; simpl.
  - ring.
  - rewrite IH. ring.
Qed.

Lemma firstn_snoc_nth (k : nat) :
  (k < length values)%nat ->
  firstn (S k) values = firstn k values ++ [nth k values 0].
Proof.
  revert k. induction values as [|x l IH]; intros k Hk; simpl in Hk.
  - lia.
  - destruct k as [|k]; simpl.
    + reflexivity.
    + f_equal. apply IH. lia.
Qed.

Lemma prefix_sum_S (k : nat) :
  (k < length values)%nat ->
  prefix_sum (S k) == prefix_sum k + nth k values 0.
Proof.
  intros Hk. unfold prefix_sum.
  rewrite (firstn_snoc_nth k Hk), sumQ_app. simpl. ring.
Qed.

Lemma sum_slice (lo n : nat) :
  sumQ (firstn n (skipn lo values))
  == prefix_sum (lo + n) - prefix_sum lo.
Proof.
  unfold prefix_sum.
  rewrite <- (firstn_skipn lo (firstn (lo + n) values)).
  rewrite sumQ_app, firstn_firstn, skipn_firstn_comm.
  replace (Nat.min lo (lo + n)) with lo by lia.
  replace (lo + n - lo)%nat with n by lia.
  ring.
Qed.

Lemma skipn_cons_nth (i : nat) (v : Q) (rest : list Q) :
  skipn i values = v :: rest ->
  (i < length values)%nat /\ nth i values 0 = v
  /\ skipn (S i) values = rest.
Proof.
  revert i. induction values as [|x l IH]; intros i H.
  - destruct i; discriminate H.
  - destruct i as [|i]; simpl in H.
    + inversion H; subst. simpl. repeat split. lia.
    + destruct (IH i H) as (Hl & Hn & Hs). simpl. repeat split; auto. lia.
Qed.

Variable fl : Q -> Q.
Variable w : nat.

Lemma roll_mean_from_length (todo : list Q) :
  forall i s, length (roll_mean_from fl w values i todo s) = length todo.
Proof.
  induction todo as [|v rest IH]; intros i s; simpl.
  - reflexivity.
  - rewrite IH. reflexivity.
Qed.

Lemma roll_mean_length : length (roll_mean fl w values) = length values.
Proof. apply roll_mean_from_length. Qed.

(** Entry [i] of the column is read off the state after [i + 1] values. *)
Lemma roll_mean_from_nth (todo : list Q) :
  forall i k,
    todo = skipn i values ->
    (k < length todo)%nat ->
    nth k (roll_mean_from fl w values i todo (mean_state fl w values i)) 0
    = calc_mean fl (mean_state fl w values (S (i + k))).
Proof.
  induction todo as [|v rest IH]; intros i k Htodo Hk.
  - simpl in Hk. lia.
  - symmetry in Htodo.
    destruct (skipn_cons_nth i v rest Htodo) as (Hi & Hv & Hrest).
    cbn [roll_mean_from]. destruct k as [|k]; cbn [nth].
    + replace (i + 0)%nat with i by lia. cbn [mean_state].
      rewrite Hv. reflexivity.
    + replace (i + S k)%nat with (S i + k)%nat by lia.
      rewrite <- (IH (S i) k); [|symmetry; exact Hrest|simpl in Hk; lia].
      cbn [mean_state]. rewrite Hv. reflexivity.
Qed.

Lemma roll_mean_nth (i : nat) :
  (i < length values)%nat ->
  nth i (roll_mean fl w values) 0
  = calc_mean fl (mean_state fl w values (S i)).
Proof.
  intros Hi. unfold roll_mean.
  exact (roll_mean_from_nth values 0 i eq_refl Hi).
Qed.

Hypothesis w_pos : (1 <= w)%nat.

Lemma trailing_window_length (i : nat) :
  (i < length values)%nat ->
  length (trailing_window_spec w values i) = Nat.min (S i) w.
Proof.
  intros Hi. unfold trailing_window_spec.
  rewrite length_firstn, length_skipn. lia.
Qed.

Local Abbreviation state := (mean_state fl w values).

(** What the state holds after [S i] values, whatever the arithmetic: the
    size of the window, the last value, and the count of equal values. *)
Lemma state_shape (i : nat) :
  nobs (state (S i)) = Nat.min (S i) w
  /\ prev_value (state (S i)) = nth i values 0
  /\ run_counted values i (state (S i)).
Proof.
  induction i as [|i (IHn & IHp & IHr)].
  - cbn [mean_state]. unfold mean_step.
    cbn [Nat.eqb]. destruct (Nat.leb_spec w 0) as [|_]; [lia|].
    cbn [add_mean mean_setup nobs prev_value num_consecutive_same_value].
    split; [lia|]. split; [reflexivity|].
    intros k Hk _.
    cbn [add_mean mean_setup num_consecutive_same_value prev_value].
    replace (Qeq_bool (nth 0 values 0) (nth 0 values 0)) with true
      by (symmetry; apply Qeq_bool_iff; reflexivity).
    exact Hk.
  - change (state (S (S i)))
      with (mean_step fl w values (S i) (nth (S i) values 0) (state (S i))).
    unfold mean_step. cbn [Nat.eqb].
    set (s := state (S i)) in *.
    assert (E : exists s1,
               (if (w <=? S i)%nat
                then remove_mean fl (nth (S i - w) values 0) s else s) = s1
               /\ nobs s1 = (if (w <=? S i)%nat then pred (nobs s) else nobs s)
               /\ prev_value s1 = prev_value s
               /\ num_consecutive_same_value s1
                  = num_consecutive_same_value s).
    { eexists. split; [reflexivity|].
      destruct (w <=? S i)%nat; repeat split. }
    destruct E as (s1 & Es1 & Hn1 & Hp1 & Hc1). rewrite Es1. clear Es1.
    unfold run_counted.
    cbn [add_mean nobs prev_value num_consecutive_same_value].
    rewrite Hn1, Hp1, Hc1, IHn, IHp.
    split; [destruct (Nat.leb_spec w (S i)); lia|].
    split; [reflexivity|].
    intros k Hk Hrun.
    destruct (Qeq_bool (nth (S i) values 0) (nth i values 0)) eqn:Eq.
    + destruct k as [|k]; [lia|].
      apply le_n_S. apply IHr; [lia|].
      intros j Hj1 Hj2.
      rewrite (Hrun j ltac:(lia) ltac:(lia)).
      apply Qeq_bool_iff. exact Eq.
    + destruct k as [|[|k]]; [lia|lia|].
      exfalso.
      assert (H := Hrun i ltac:(lia) ltac:(lia)).
      symmetry in H. apply Qeq_bool_iff in H. congruence.
Qed.

(** A window that holds one value throughout gives that value, in any
    arithmetic. *)
Lemma roll_mean_constant_window (i : nat) :
  (i < length values)%nat ->
  (forall j, (S i - w <= j)%nat -> (j <= i)%nat ->
             nth j values 0 == nth i values 0) ->
  nth i (roll_mean fl w values) 0 = nth i values 0.
Proof.
  intros Hi Hwin. rewrite (roll_mean_nth i Hi).
  destruct (state_shape i) as (Hn & Hp & Hr).
  unfold calc_mean.
  assert (Hle : (nobs (state (S i)) <= num_consecutive_same_value
                                         (state (S i)))%nat).
  { rewrite Hn. apply Hr; [lia|].
    intros j Hj1 Hj2. apply Hwin; lia. }
  apply Nat.leb_le in Hle. rewrite Hle. exact Hp.
Qed.

End RollingMean.

(** While the index is below both windows nothing has left either of them,
    and the two runs are the same. *)
Lemma mean_state_short (fl : Q -> Q) (w1 w2 : nat) (values : list Q) (n : nat) :
  (n <= w1)%nat -> (n <= w2)%nat ->
  mean_state fl w1 values n = mean_state fl w2 values n.
Proof.
  induction n as [|n IH]; intros H1 H2.
  - reflexivity.
  - cbn [mean_state]. rewrite (IH ltac:(lia) ltac:(lia)).
    unfold mean_step.
    destruct (Nat.leb_spec w1 n) as [|_]; [lia|].
    destruct (Nat.leb_spec w2 n) as [|_]; [lia|].
    reflexivity.
Qed.

Lemma roll_mean_short (fl : Q -> Q) (w1 w2 : nat) (values : list Q) (i : nat) :
  (i < w1)%nat -> (i < w2)%nat -> (i < length values)%nat ->
  nth i (roll_mean fl w1 values) 0 = nth i (roll_mean fl w2 values) 0.
Proof.
  intros H1 H2 Hi.
  rewrite !roll_mean_nth by exact Hi.
  rewrite (mean_state_short fl w1 w2 values (S i)) by lia.
  reflexivity.
Qed.

Lemma count_neg_app (a b : list Q) :
  count_neg (a ++ b) = (count_neg a + count_neg b)%nat.
Proof. unfold count_neg. rewrite filter_app, length_app. reflexivity. Qed.

Lemma sumQ_nonneg (l : list Q) : count_neg l = 0%nat -> 0 <= sumQ l.
Proof.
  induction l as [|x l IH]; intros H.
  - apply Qle_refl.
  - unfold count_neg in *. cbn [filter sumQ] in *.
    destruct (Qlt_bool_spec x 0) as [Hx|Hx]; [discriminate H|].
    specialize (IH H). apply Qnot_lt_le in Hx. lra.
Qed.

Lemma count_neg_le (l : list Q) : (count_neg l <= length l)%nat.
Proof. unfold count_neg. apply filter_length_le. Qed.

Lemma sumQ_neg (l : list Q) :
  l <> [] -> count_neg l = length l -> sumQ l < 0.
Proof.
  induction l as [|x l IH]; intros Hne H; [congruence|].
  unfold count_neg in *. cbn [filter sumQ length] in *.
  pose proof (count_neg_le l) as Hle. unfold count_neg in Hle.
  destruct (Qlt_bool_spec x 0) as [Hx|Hx]; cbn [length] in H; [|lia].
  destruct l as [|y l]; [cbn [sumQ]; lra|].
  assert (sumQ (y :: l) < 0) by (apply IH; [discriminate|lia]).
  lra.
Qed.

Lemma sumQ_constant (c : Q) (l : list Q) :
  Forall (fun x => x == c) l ->
  sumQ l == c * inject_Z (Z.of_nat (length l)).
Proof.
  induction 1 as [|x l Hx _ IH].
  - cbn [sumQ length]. change (inject_Z (Z.of_nat 0)) with 0. ring.
  - cbn [sumQ length]. rewrite Nat2Z.inj_succ. unfold Z.succ.
    rewrite inject_Z_plus, IH, Hx. change (inject_Z 1) with 1. ring.
Qed.

Lemma mean_spec_constant (c : Q) (l : list Q) :
  l <> [] -> Forall (fun x => x == c) l -> mean_spec l == c.
Proof.
  intros Hne H. unfold mean_spec. rewrite (sumQ_constant c l H).
  field. destruct l; [congruence|].
  unfold Qeq. simpl. lia.
Qed.

Lemma In_slice (values : list Q) (lo n : nat) (x : Q) :
  In x (firstn n (skipn lo values)) ->
  exists j, (lo <= j)%nat /\ (j < lo + n)%nat /\ (j < length values)%nat
            /\ x = nth j values 0.
Proof.
  intros H. apply (In_nth _ _ 0) in H. destruct H as (k & Hk & Hx).
  rewrite length_firstn, length_skipn in Hk.
  rewrite nth_firstn in Hx.
  destruct (Nat.ltb_spec k n) as [_|]; [|lia].
  rewrite nth_skipn in Hx.
  exists (lo + k)%nat. repeat split; try lia. symmetry. exact Hx.
Qed.

Lemma firstn_plus {A : Type} (a n : nat) (l : list A) :
  firstn (a + n) l = firstn a l ++ firstn n (skipn a l).
Proof.
  rewrite <- (firstn_skipn a (firstn (a + n) l)) at 1.
  rewrite firstn_firstn, skipn_firstn_comm.
  replace (Nat.min a (a + n)) with a by lia.
  replace (a + n - a)%nat with n by lia.
  reflexivity.
Qed.

Section ExactMean.

Variable w : nat.
Hypothesis w_pos : (1 <= w)%nat.
Variable values : list Q.

Local Abbreviation state := (mean_state exact w values).
Local Abbreviation psum := (prefix_sum values).
Local Abbreviation cnt := (neg_prefix values).

Lemma cnt_S (k : nat) :
  (k < length values)%nat ->
  cnt (S k)
  = (cnt k + (if Qlt_bool (nth k values 0%Q) 0%Q then 1 else 0))%nat.
Proof.
  intros Hk. unfold neg_prefix.
  rewrite (firstn_snoc_nth values k Hk), count_neg_app.
  unfold count_neg at 2. cbn [filter].
  destruct (Qlt_bool (nth k values 0) 0); reflexivity.
Qed.

Lemma cnt_mono (a b : nat) : (a <= b)%nat -> (cnt a <= cnt b)%nat.
Proof.
  intros H. unfold neg_prefix.
  replace b with (a + (b - a))%nat by lia.
  rewrite firstn_plus, count_neg_app. lia.
Qed.

Lemma count_neg_slice (lo n : nat) :
  (count_neg (firstn n (skipn lo values)) + cnt lo)%nat = cnt (lo + n).
Proof.
  unfold neg_prefix. rewrite firstn_plus, count_neg_app. lia.
Qed.

Lemma exact_state_holds (i : nat) :
  (i < length values)%nat -> exact_state w values i (state (S i)).
Proof.
  induction i as [|i IH]; intros Hi.
  - cbn [mean_state]. unfold mean_step. cbn [Nat.eqb].
    destruct (Nat.leb_spec w 0) as [|_]; [lia|].
    unfold exact_state, exact.
    cbn [add_mean mean_setup compensation_add compensation_remove sum_x
         neg_ct num_consecutive_same_value prev_value].
    replace (1 - w)%nat with 0%nat by lia.
    rewrite (prefix_sum_S values 0 Hi), (cnt_S 0 Hi).
    unfold prefix_sum, neg_prefix, count_neg.
    cbn [firstn sumQ filter length].
    repeat split; try ring.
    + destruct (Qlt_bool (nth 0 values 0) 0); reflexivity.
    + intros j Hj _. replace j with 0%nat by lia. reflexivity.
  - specialize (IH ltac:(lia)).
    destruct IH as (Ha & Hr & Hs & Hc & Hrun).
    destruct (state_shape values exact w w_pos i) as (Hn & Hp & _).
    change (state (S (S i)))
      with (mean_step exact w values (S i) (nth (S i) values 0)
                      (state (S i))).
    unfold mean_step. cbn [Nat.eqb].
    set (s := state (S i)) in *.
    set (val := nth (S i) values 0).
    assert (E : exists s1,
               (if (w <=? S i)%nat
                then remove_mean exact (nth (S i - w) values 0) s else s) = s1
               /\ compensation_add s1 == 0 /\ compensation_remove s1 == 0
               /\ sum_x s1 == psum (S i) - psum (S (S i) - w)
               /\ (neg_ct s1 + cnt (S (S i) - w))%nat = cnt (S i)
               /\ prev_value s1 = prev_value s
               /\ num_consecutive_same_value s1
                  = num_consecutive_same_value s).
    { eexists. split; [reflexivity|].
      destruct (Nat.leb_spec w (S i)) as [Hle|Hlt].
      - unfold remove_mean, exact.
        cbn [compensation_add compensation_remove sum_x neg_ct prev_value
             num_consecutive_same_value].
        replace (S (S i) - w)%nat with (S (S i - w)) by lia.
        rewrite (prefix_sum_S values (S i - w)) by lia.
        pose proof (cnt_S (S i - w) ltac:(lia)) as Hcs.
        pose proof (cnt_mono (S (S i - w)) (S i) ltac:(lia)) as Hm.
        
        repeat split; try (rewrite ?Hs, ?Hr; ring).
        + exact Ha.
        + destruct (Qlt_bool (nth (S i - w) values 0) 0); lia.
      - replace (S (S i) - w)%nat with 0%nat by lia.
        replace (S i - w)%nat with 0%nat in Hs, Hc by lia.
        repeat split; auto. }
    destruct E as (s1 & Es1 & Ha1 & Hr1 & Hs1 & Hc1 & Hp1 & Hn1).
    rewrite Es1. clear Es1.
    unfold exact_state, add_mean, exact.
    cbn [compensation_add compensation_remove sum_x neg_ct prev_value
         num_consecutive_same_value].
    rewrite (prefix_sum_S values (S i) Hi).
    pose proof (cnt_S (S i) Hi) as Hcs.
    fold val in Hcs |- *.
    repeat split.
    + rewrite Ha1. ring.
    + exact Hr1.
    + rewrite Ha1, Hs1. ring.
    + destruct (Qlt_bool val 0); lia.
    + intros j Hj Hnum. rewrite Hp1, Hn1, Hp in Hnum.
      destruct (Nat.eq_dec j (S i)) as [->|Hne]; [reflexivity|].
      destruct (Qeq_bool val (nth i values 0)) eqn:Eq; [|lia].
      apply Qeq_bool_iff in Eq. rewrite Eq.
      apply Hrun; lia.
Qed.

(** In exact arithmetic the running mean at [i] is the arithmetic mean of
    the trailing window. *)
Lemma roll_mean_exact (i : nat) :
  (i < length values)%nat ->
  nth i (roll_mean exact w values) 0
  == mean_spec (trailing_window_spec w values i).
Proof.
  intros Hi. rewrite (roll_mean_nth values exact w i Hi).
  destruct (exact_state_holds i Hi) as (_ & _ & Hs & Hc & Hrun).
  destruct (state_shape values exact w w_pos i) as (Hn & Hp & _).
  set (s := state (S i)) in *.
  set (win := trailing_window_spec w values i).
  assert (Hwin : win = firstn (Nat.min (S i) w) (skipn (S i - w) values)).
  { unfold win, trailing_window_spec. f_equal; [lia|f_equal; lia]. }
  assert (Hlen : length win = Nat.min (S i) w).
  { rewrite Hwin, length_firstn, length_skipn. lia. }
  assert (Hne : win <> []).
  { intros E. rewrite E in Hlen. cbn [length] in Hlen. lia. }
  assert (Hsum : sumQ win == sum_x s).
  { rewrite Hwin, sum_slice, Hs.
    replace (S i - w + Nat.min (S i) w)%nat with (S i) by lia.
    reflexivity. }
  assert (Hneg : count_neg win = neg_ct s).
  { pose proof (count_neg_slice (S i - w) (Nat.min (S i) w)) as H.
    replace (S i - w + Nat.min (S i) w)%nat with (S i) in H by lia.
    rewrite <- Hwin in H. lia. }
  assert (Hmean : mean_spec win
                  == sum_x s / inject_Z (Z.of_nat (nobs s))).
  { unfold mean_spec. rewrite Hlen, Hn, Hsum. reflexivity. }
  assert (Hpos : 0 < inject_Z (Z.of_nat (nobs s))).
  { rewrite Hn. unfold Qlt. cbn [Qnum Qden inject_Z]. lia. }
  unfold calc_mean, exact.
  destruct (Nat.leb_spec (nobs s) (num_consecutive_same_value s))
    as [Hsame|_].
  - rewrite Hp. symmetry. apply mean_spec_constant; [exact Hne|].
    apply Forall_forall. intros x Hx. rewrite Hwin in Hx.
    apply In_slice in Hx. destruct Hx as (j & Hj1 & Hj2 & _ & ->).
    apply Hrun; lia.
  - destruct (Nat.eqb_spec (neg_ct s) 0) as [H0|_];
      [destruct (Qlt_bool_spec (sum_x s / inject_Z (Z.of_nat (nobs s))) 0)
         as [Hlt|_]|]; cbn [andb].
    + exfalso. assert (0 <= sumQ win) by (apply sumQ_nonneg; lia).
      rewrite <- Hmean in Hlt. unfold mean_spec in Hlt.
      rewrite Hlen, <- Hn in Hlt.
      apply (Qmult_lt_compat_r _ _ _ Hpos) in Hlt.
      rewrite Qmult_0_l in Hlt. unfold Qdiv in Hlt.
      rewrite <- Qmult_assoc, (Qmult_comm (/ _)), Qmult_inv_r in Hlt; lra.
    + destruct (Nat.eqb_spec (neg_ct s) (nobs s)) as [Hall|_];
        [destruct (Qlt_bool_spec 0 (sum_x s / inject_Z (Z.of_nat (nobs s))))
           as [Hgt|_]|]; cbn [andb]; try (symmetry; exact Hmean).
      exfalso. assert (sumQ win < 0) by (apply sumQ_neg; [exact Hne|lia]).
      rewrite <- Hmean in Hgt. unfold mean_spec in Hgt.
      rewrite Hlen, <- Hn in Hgt.
      apply (Qmult_lt_compat_r _ _ _ Hpos) in Hgt.
      rewrite Qmult_0_l in Hgt. unfold Qdiv in Hgt.
      rewrite <- Qmult_assoc, (Qmult_comm (/ _)), Qmult_inv_r in Hgt; lra.
    + destruct (Nat.eqb_spec (neg_ct s) (nobs s)) as [Hall|_];
        [destruct (Qlt_bool_spec 0 (sum_x s / inject_Z (Z.of_nat (nobs s))))
           as [Hgt|_]|]; cbn [andb]; try (symmetry; exact Hmean).
      exfalso. assert (sumQ win < 0) by (apply sumQ_neg; [exact Hne|lia]).
      rewrite <- Hmean in Hgt. unfold mean_spec in Hgt.
      rewrite Hlen, <- Hn in Hgt.
      apply (Qmult_lt_compat_r _ _ _ Hpos) in Hgt.
      rewrite Qmult_0_l in Hgt. unfold Qdiv in Hgt.
      rewrite <- Qmult_assoc, (Qmult_comm (/ _)), Qmult_inv_r in Hgt; lra.
Qed.

End ExactMean.


(* ------------------------------------------------------------------ *)
(** ** The columns the program computes                                 *)
(* ------------------------------------------------------------------ *)

(** [b64] is a function of the number, not of the fraction that writes
    it. *)
Lemma b64_compat (x y : Q) : x == y -> b64 x = b64 y.
Proof. intros H. unfold b64. rewrite (Qred_complete x y H). reflexivity. Qed.

Lemma nth_map_b64 (values : list Q) (i : nat) :
  nth i (map b64 values) 0 = b64 (nth i values 0).
Proof. change 0 with (b64 0) at 1. apply map_nth. Qed.

Lemma rolling_mean_length (w : nat) (values : list Q) :
  length (rolling_mean w values) = length values.
Proof. unfold rolling_mean. rewrite roll_mean_length. apply length_map. Qed.

Lemma rolling_mean_short (w1 w2 : nat) (values : list Q) (i : nat) :
  (i < w1)%nat -> (i < w2)%nat -> (i < length values)%nat ->
  nth i (rolling_mean w1 values) 0 = nth i (rolling_mean w2 values) 0.
Proof.
  intros H1 H2 Hi. unfold rolling_mean.
  apply roll_mean_short; [exact H1|exact H2|].
  rewrite length_map. exact Hi.
Qed.

(** Where the window holds one value throughout, the column holds that
    value (as a float). *)
Lemma rolling_mean_constant_window (w : nat) (values : list Q) (i : nat) :
  (1 <= w)%nat -> (i < length values)%nat ->
  (forall j, (S i - w <= j)%nat -> (j <= i)%nat ->
             nth j values 0 == nth i values 0) ->
  nth i (rolling_mean w values) 0 = b64 (nth i values 0).
Proof.
  intros Hw Hi Hwin. unfold rolling_mean.
  rewrite (roll_mean_constant_window (map b64 values) b64 w Hw i).
  - apply nth_map_b64.
  - rewrite length_map. exact Hi.
  - intros j Hj1 Hj2. rewrite !nth_map_b64.
    rewrite (b64_compat _ _ (Hwin j Hj1 Hj2)). reflexivity.
Qed.

(* ------------------------------------------------------------------ *)
(** ** The loop, one iteration at a time                                *)
(* ------------------------------------------------------------------ *)

Lemma iterrows_from_nth (recs : list RatePoint) :
  forall k sma7 sma14 i,
    length sma7 = length recs -> length sma14 = length recs ->
    (i < length recs)%nat ->
    nth_error (iterrows_from k recs sma7 sma14) i
    = Some ((k + i)%nat,
            mkRow (Date (nth i recs default_point))
                  (Rate (nth i recs default_point))
                  (nth i sma7 0) (nth i sma14 0)).
Proof.
  induction recs as [|r recs IH]; intros k sma7 sma14 i H7 H14 Hi.
  - simpl in Hi. lia.
  - destruct sma7 as [|a sma7]; [discriminate H7|].
    destruct sma14 as [|b sma14]; [discriminate H14|].
    simpl in *. destruct i as [|i]; simpl.
    + replace (k + 0)%nat with k by lia. reflexivity.
    + rewrite IH by lia. replace (S k + i)%nat with (k + S i)%nat by lia.
      reflexivity.
Qed.

Lemma iterrows_from_length (recs : list RatePoint) :
  forall k sma7 sma14,
    length sma7 = length recs -> length sma14 = length recs ->
    length (iterrows_from k recs sma7 sma14) = length recs.
Proof.
  induction recs as [|r recs IH]; intros k sma7 sma14 H7 H14.
  - reflexivity.
  - destruct sma7 as [|a sma7]; [discriminate H7|].
    destruct sma14 as [|b sma14]; [discriminate H14|].
    simpl in *. rewrite IH; lia.
Qed.

Lemma run_rows_app (sma7 sma14 : list Q) (l1 l2 : list (nat * Row)) :
  forall st,
    run_rows sma7 sma14 (l1 ++ l2) st
    = (st1 <- run_rows sma7 sma14 l1 st ;; run_rows sma7 sma14 l2 st1).
Proof.
  induction l1 as [|ir l1 IH]; intros st; simpl.
  - reflexivity.
  - destruct (loop_body sma7 sma14 ir st); simpl; auto.
Qed.

Lemma firstn_S_nth_error {A : Type} (l : list A) :
  forall i x, nth_error l i = Some x -> firstn (S i) l = firstn i l ++ [x].
Proof.
  induction l as [|y l IH]; intros i x H.
  - destruct i; discriminate H.
  - destruct i as [|i]; simpl in *.
    + inversion H. reflexivity.
    + f_equal. apply IH. exact H.
Qed.

(** The loop after [S i] iterations is the loop after [i] iterations
    followed by the body at row [i]. *)
Lemma backtest_upto_S (recs : list RatePoint) (sma7 sma14 : list Q)
      (initial_usd : Q) (i : nat) :
  length sma7 = length recs -> length sma14 = length recs ->
  (i < length recs)%nat ->
  backtest_upto (S i) recs sma7 sma14 initial_usd
  = (st <- backtest_upto i recs sma7 sma14 initial_usd ;;
     loop_body sma7 sma14
       (i, mkRow (Date (nth i recs default_point))
                 (Rate (nth i recs default_point))
                 (nth i sma7 0) (nth i sma14 0)) st).
Proof.
  intros H7 H14 Hi. unfold backtest_upto, iterrows.
  pose proof (iterrows_from_nth recs 0 sma7 sma14 i H7 H14 Hi) as Hn.
  rewrite (firstn_S_nth_error _ _ _ Hn), run_rows_app.
  destruct (run_rows sma7 sma14 _ (sim_init initial_usd)) as [st|e];
    cbn [bind run_rows]; auto.
  replace (0 + i)%nat with i by lia.
  destruct (loop_body sma7 sma14 _ st); reflexivity.
Qed.

Lemma backtest_upto_all (recs : list RatePoint) (sma7 sma14 : list Q)
      (initial_usd : Q) :
  length sma7 = length recs -> length sma14 = length recs ->
  backtest_upto (length recs) recs sma7 sma14 initial_usd
  = backtest_loop recs sma7 sma14 initial_usd.
Proof.
  intros H7 H14. unfold backtest_upto, backtest_loop, iterrows.
  rewrite <- (iterrows_from_length recs 0 sma7 sma14 H7 H14) at 1.
  rewrite firstn_all. reflexivity.
Qed.

Lemma loc_nth (column : list Q) (k : nat) :
  (k < length column)%nat -> loc column k = Ok (nth k column 0).
Proof.
  intros Hk. unfold loc.
  rewrite (nth_error_nth' column 0 Hk). reflexivity.
Qed.

(** What the crossover branch does, case by case. *)
Lemma crossover_cases (sma7 sma14 : list Q) (i : nat) (row : Row) (st : Sim) :
  (0 < i)%nat -> (i <= length sma7)%nat -> (i <= length sma14)%nat ->
  ~ row_Rate row == 0 ->
  let buy := row_SMA_14 row < row_SMA_7 row
             /\ nth (i - 1) sma7 0 <= nth (i - 1) sma14 0
             /\ 0 < usd_balance st in
  let sell := row_SMA_7 row < row_SMA_14 row
              /\ nth (i - 1) sma14 0 <= nth (i - 1) sma7 0
              /\ 0 < nis_balance st in
  (buy /\ ~ sell /\
   crossover sma7 sma14 i row st
   = Ok {| usd_balance := 0;
           nis_balance := usd_balance st * row_Rate row;
           trades := trades st ++
                     [mkTrade (row_Date row) BUY (row_Rate row)
                              (usd_balance st)
                              (usd_balance st * row_Rate row)];
           portfolio_value := portfolio_value st |})
  \/ (sell /\ ~ buy /\
      crossover sma7 sma14 i row st
      = Ok {| usd_balance := nis_balance st / row_Rate row;
              nis_balance := 0;
              trades := trades st ++
                        [mkTrade (row_Date row) SELL (row_Rate row)
                                 (nis_balance st / row_Rate row)
                                 (nis_balance st)];
              portfolio_value := portfolio_value st |})
  \/ (~ buy /\ ~ sell /\ crossover sma7 sma14 i row st = Ok st).
Proof.
  intros Hi H7 H14 Hr buy sell. unfold crossover.
  destruct (Nat.ltb_spec 0 i) as [_|]; [|lia].
  rewrite (loc_nth sma7 (i - 1)) by lia.
  rewrite (loc_nth sma14 (i - 1)) by lia.
  cbn [bind].
  assert (Hexcl : buy -> sell -> False).
  { intros (Hb & _) (Hs & _). exact (Qlt_irrefl _ (Qlt_trans _ _ _ Hb Hs)). }
  destruct (Qlt_bool_spec (row_SMA_14 row) (row_SMA_7 row)) as [E1|E1];
  destruct (Qle_bool_spec (nth (i - 1) sma7 0) (nth (i - 1) sma14 0))
    as [E2|E2];
  destruct (Qlt_bool_spec 0 (usd_balance st)) as [E3|E3]; cbn [andb].
  1: { left. split; [|split]; [repeat split; auto | | reflexivity].
       intros Hs. apply Hexcl; auto. repeat split; auto. }
  all: assert (Hnb : ~ buy) by (intros (Hb1 & Hb2 & Hb3); contradiction).
  all: destruct (Qlt_bool_spec (row_SMA_7 row) (row_SMA_14 row)) as [E4|E4];
       destruct (Qle_bool_spec (nth (i - 1) sma14 0) (nth (i - 1) sma7 0))
         as [E5|E5];
       destruct (Qlt_bool_spec 0 (nis_balance st)) as [E6|E6]; cbn [andb].
  all: try (right; right; split; [exact Hnb | split; [|reflexivity]];
            intros (Hs1 & Hs2 & Hs3); contradiction).
  all: right; left; rewrite (py_div_ok _ _ Hr); cbn [bind];
       split; [repeat split; auto | split; [exact Hnb | reflexivity]].
Qed.

Lemma snoc_inj {A : Type} (l : list A) (x y : A) :
  l ++ [x] = l ++ [y] -> x = y.
Proof. intros H. apply app_inv_head in H. inversion H. reflexivity. Qed.

Lemma snoc_neq {A : Type} (l : list A) (x : A) : l ++ [x] <> l.
Proof.
  intros H. apply (f_equal (@length A)) in H.
  rewrite length_app in H. simpl in H. lia.
Qed.

Ltac snoc_absurd :=
  match goal with
  | H : ?l = ?l ++ [_] |- _ => exfalso; symmetry in H; exact (snoc_neq _ _ H)
  | H : ?l ++ [_] = ?l |- _ => exfalso; exact (snoc_neq _ _ H)
  end.

Ltac snoc_same :=
  match goal with
  | H : ?l ++ [_] = ?l ++ [?t] |- _ => apply snoc_inj in H; try subst t
  end.

Ltac settle_trade :=
  intros;
  repeat match goal with
         | H : exists _, _ |- _ => destruct H
         | H : _ /\ _ |- _ => destruct H
         end;
  try snoc_absurd;
  try (snoc_same; cbn in *; try discriminate);
  try solve [ tauto | lia | discriminate | reflexivity | contradiction
            | repeat split; auto; lia
            | eexists; split; reflexivity
            | left; reflexivity | right; eexists; reflexivity ].

(** The mark-to-market step keeps balances and trades. *)
Lemma loop_body_after_crossover (sma7 sma14 : list Q) (i : nat) (row : Row)
      (st st1 : Sim) :
  ~ row_Rate row == 0 ->
  crossover sma7 sma14 i row st = Ok st1 ->
  loop_body sma7 sma14 (i, row) st
  = Ok {| usd_balance := usd_balance st1;
          nis_balance := nis_balance st1;
          trades := trades st1;
          portfolio_value :=
            portfolio_value st1
            ++ [usd_balance st1 + nis_balance st1 / row_Rate row] |}.
Proof.
  intros Hr Hc. unfold loop_body. rewrite Hc. cbn [bind].
  rewrite (py_div_ok _ _ Hr). reflexivity.
Qed.

(* ------------------------------------------------------------------ *)
(** ** Alternation of the trades                                        *)
(* ------------------------------------------------------------------ *)

Lemma alternates_snoc (l : list Action) (a : Action) :
  alternates (l ++ [a])
  = alternates l
    && match last_action l with
       | None => true
       | Some b => negb (Action_eqb b a)
       end.
Proof.
  induction l as [|x l IH].
  - reflexivity.
  - destruct l as [|y l].
    + simpl. destruct (Action_eqb x a); reflexivity.
    + change (alternates ((x :: y :: l) ++ [a]))
        with (negb (Action_eqb x y) && alternates ((y :: l) ++ [a])).
      rewrite IH.
      change (alternates (x :: y :: l))
        with (negb (Action_eqb x y) && alternates (y :: l)).
      change (last_action (x :: y :: l)) with (last_action (y :: l)).
      rewrite andb_assoc. reflexivity.
Qed.

Lemma last_action_snoc (l : list Action) (a : Action) :
  last_action (l ++ [a]) = Some a.
Proof.
  induction l as [|x l IH].
  - reflexivity.
  - change (last_action ((x :: l) ++ [a]))
      with (match l ++ [a] with
            | [] => Some x
            | _ :: _ => last_action (l ++ [a])
            end).
    rewrite IH. destruct l; reflexivity.
Qed.

Lemma hd_error_snoc (l : list Action) (a : Action) :
  hd_error (l ++ [a]) = match l with [] => Some a | x :: _ => Some x end.
Proof. destruct l; reflexivity. Qed.

Lemma last_action_none (l : list Action) : last_action l = None -> l = [].
Proof.
  induction l as [|x l IH]; auto.
  destruct l as [|y l]; [discriminate|].
  intros H. specialize (IH H). discriminate IH.
Qed.

Lemma holding_invariant_init (initial_usd : Q) :
  holding_invariant (sim_init initial_usd).
Proof. unfold holding_invariant. simpl. repeat split. discriminate. Qed.

Lemma crossover_keeps_invariant (sma7 sma14 : list Q) (i : nat) (row : Row)
      (st st1 : Sim) :
  holding_invariant st ->
  crossover sma7 sma14 i row st = Ok st1 ->
  holding_invariant st1.
Proof.
  intros (Halt & Hhd & Hlast). unfold crossover.
  destruct (0 <? i)%nat; [|intros H; inversion H; subst; repeat split; auto].
  destruct (loc sma7 (i - 1)) as [p7|]; [|discriminate].
  destruct (loc sma14 (i - 1)) as [p14|]; [|discriminate].
  cbn [bind].
  destruct (Qlt_bool (row_SMA_14 row) (row_SMA_7 row) && Qle_bool p7 p14
            && Qlt_bool 0 (usd_balance st)) eqn:Ebuy.
  - (* BUY: the USD balance is positive, so the last trade is not a BUY *)
    apply andb_true_iff in Ebuy. destruct Ebuy as [_ Eusd].
    intros H. inversion H; subst; clear H.
    unfold holding_invariant. cbn [trades usd_balance nis_balance].
    rewrite map_app. cbn [map action].
    rewrite alternates_snoc, last_action_snoc, hd_error_snoc, Halt.
    destruct (last_action (map action (trades st))) as [[|]|] eqn:El.
    + rewrite Hlast in Eusd. discriminate Eusd.
    + repeat split; auto.
      destruct (map action (trades st)); [discriminate El|exact Hhd].
    + apply last_action_none in El. rewrite El.
      repeat split; auto. discriminate.
  - destruct (Qlt_bool (row_SMA_7 row) (row_SMA_14 row) && Qle_bool p14 p7
              && Qlt_bool 0 (nis_balance st)) eqn:Esell.
    + (* SELL: the local balance is positive, so the last trade is a BUY *)
      apply andb_true_iff in Esell. destruct Esell as [_ Enis].
      destruct (py_div (nis_balance st) (row_Rate row)) as [usd|];
        [|discriminate].
      cbn [bind]. intros H. inversion H; subst; clear H.
      unfold holding_invariant. cbn [trades usd_balance nis_balance].
      rewrite map_app. cbn [map action].
      rewrite alternates_snoc, last_action_snoc, hd_error_snoc, Halt.
      destruct (last_action (map action (trades st))) as [[|]|] eqn:El.
      * repeat split; auto.
        destruct (map action (trades st)); [discriminate El|exact Hhd].
      * rewrite Hlast in Enis. discriminate Enis.
      * rewrite Hlast in Enis. discriminate Enis.
    + intros H. inversion H; subst. repeat split; auto.
Qed.

Lemma loop_body_keeps_invariant (sma7 sma14 : list Q) (ir : nat * Row)
      (st st' : Sim) :
  holding_invariant st ->
  loop_body sma7 sma14 ir st = Ok st' ->
  holding_invariant st'.
Proof.
  intros Hinv. destruct ir as [i row]. unfold loop_body. intros H.
  apply bind_ok in H. destruct H as (st1 & Hc & H).
  apply bind_ok in H. destruct H as (q & _ & H).
  inversion H; subst; clear H.
  exact (crossover_keeps_invariant _ _ _ _ _ _ Hinv Hc).
Qed.

Lemma run_rows_keeps_invariant (sma7 sma14 : list Q)
      (rows : list (nat * Row)) :
  forall st st',
    holding_invariant st ->
    run_rows sma7 sma14 rows st = Ok st' ->
    holding_invariant st'.
Proof.
  induction rows as [|ir rows IH]; intros st st' Hinv H; simpl in H.
  - inversion H; subst. exact Hinv.
  - apply bind_ok in H. destruct H as (st1 & Hb & H).
    apply (IH st1 st'); auto.
    exact (loop_body_keeps_invariant _ _ _ _ _ Hinv Hb).
Qed.

(* ------------------------------------------------------------------ *)
(** ** When the backtest returns                                        *)
(* ------------------------------------------------------------------ *)

Lemma nonzero_rates_nth (recs : list RatePoint) (i : nat) :
  nonzero_rates recs -> (i < length recs)%nat ->
  ~ Rate (nth i recs default_point) == 0.
Proof.
  intros H Hi. unfold nonzero_rates in H. rewrite Forall_forall in H.
  apply H. apply nth_In. exact Hi.
Qed.

Lemma crossover_returns (sma7 sma14 : list Q) (i : nat) (row : Row)
      (st : Sim) :
  (i <= length sma7)%nat -> (i <= length sma14)%nat ->
  ~ row_Rate row == 0 ->
  exists st1, crossover sma7 sma14 i row st = Ok st1.
Proof.
  intros H7 H14 Hr. destruct (Nat.eq_dec i 0) as [->|Hi].
  - exists st. reflexivity.
  - destruct (crossover_cases sma7 sma14 i row st ltac:(lia) H7 H14 Hr)
      as [(_ & _ & Hc) | [(_ & _ & Hc) | (_ & _ & Hc)]];
      rewrite Hc; eauto.
Qed.

Lemma backtest_upto_returns (recs : list RatePoint) (sma7 sma14 : list Q)
      (initial_usd : Q) :
  length sma7 = length recs -> length sma14 = length recs ->
  nonzero_rates recs ->
  forall n, (n <= length recs)%nat ->
            exists st, backtest_upto n recs sma7 sma14 initial_usd = Ok st.
Proof.
  intros H7 H14 Hnz. induction n as [|n IH]; intros Hn.
  - exists (sim_init initial_usd). reflexivity.
  - destruct (IH ltac:(lia)) as (st & Hst).
    rewrite (backtest_upto_S recs sma7 sma14 initial_usd n H7 H14 ltac:(lia)).
    rewrite Hst. cbn [bind].
    set (row := mkRow (Date (nth n recs default_point))
                      (Rate (nth n recs default_point))
                      (nth n sma7 0) (nth n sma14 0)).
    assert (Hr : ~ row_Rate row == 0)
      by exact (nonzero_rates_nth recs n Hnz ltac:(lia)).
    destruct (crossover_returns sma7 sma14 n row st
                ltac:(lia) ltac:(lia) Hr) as (st1 & Hc).
    rewrite (loop_body_after_crossover _ _ _ _ _ _ Hr Hc). eauto.
Qed.

Lemma iloc_last_In {A : Type} (l : list A) (x : A) :
  iloc_last l = Ok x -> In x l.
Proof.
  unfold iloc_last. destruct (rev l) as [|y t] eqn:E; [discriminate|].
  intros H. inversion H; subst. apply in_rev. rewrite E. left. reflexivity.
Qed.

Lemma iloc_last_returns {A : Type} (l : list A) :
  l <> [] -> exists x, iloc_last l = Ok x.
Proof.
  intros Hl. unfold iloc_last. destruct (rev l) as [|y t] eqn:E; eauto.
  exfalso. apply Hl. rewrite <- (rev_involutive l), E. reflexivity.
Qed.

Lemma col_Rate_nonempty (df : DataFrame) :
  records df <> [] -> col_Rate df = Ok (map Rate (records df)).
Proof. unfold col_Rate. destruct (records df); [congruence|reflexivity]. Qed.

(** The backtest returns on every non-empty series of non-zero rates. *)
Lemma calculate_trading_profit_returns (df : DataFrame) (initial_usd : Q) :
  records df <> [] -> nonzero_rates (records df) ->
  exists st profit_usd profit_pct,
    backtest_loop (records df) (rolling_mean 7 (map Rate (records df)))
                  (rolling_mean 14 (map Rate (records df))) initial_usd
    = Ok st
    /\ snd (calculate_trading_profit df initial_usd)
       = Ok (profit_usd, profit_pct, trades st, portfolio_value st).
Proof.
  intros Hne Hnz. unfold calculate_trading_profit.
  rewrite (col_Rate_nonempty df Hne). cbn [snd].
  set (rates := map Rate (records df)).
  assert (H7 : length (rolling_mean 7 rates) = length (records df)).
  { rewrite rolling_mean_length. apply length_map. }
  assert (H14 : length (rolling_mean 14 rates) = length (records df)).
  { rewrite rolling_mean_length. apply length_map. }
  destruct (backtest_upto_returns (records df) _ _ initial_usd H7 H14 Hnz
              (length (records df)) (Nat.le_refl _)) as (st & Hst).
  rewrite (backtest_upto_all _ _ _ _ H7 H14) in Hst.
  rewrite Hst. cbn [bind].
  destruct (iloc_last_returns rates) as (last_rate & Hlast).
  { subst rates. destruct (records df); [congruence|discriminate]. }
  rewrite Hlast. cbn [bind]. eauto.
Qed.

(** C4.  Whenever the backtest returns, no two consecutive recorded trades
    carry the same action and the first recorded trade, if any, is a BUY;
    and the backtest does return on every non-empty series of non-zero
    rates. *)
Theorem trades_alternate_starting_with_buy :
  forall (df : DataFrame) (initial_usd : Q),
    (forall profit_usd profit_pct ts pv,
        snd (calculate_trading_profit df initial_usd)
        = Ok (profit_usd, profit_pct, ts, pv) ->
        alternates (map action ts) = true
        /\ (forall t rest, ts = t :: rest -> action t = BUY))
    /\ (records df <> [] -> nonzero_rates (records df) ->
        exists r, snd (calculate_trading_profit df initial_usd) = Ok r).
Proof.
  intros df initial_usd. split.
  - intros profit_usd profit_pct ts pv. unfold calculate_trading_profit.
    destruct (col_Rate df) as [rates|e]; [|discriminate].
    cbn [snd]. intros H.
    apply bind_ok in H. destruct H as (st & Hloop & H).
    apply bind_ok in H. destruct H as (last_rate & _ & H).
    inversion H; subst; clear H.
    pose proof (run_rows_keeps_invariant _ _ _ _ _
                  (holding_invariant_init initial_usd) Hloop)
      as (Halt & Hhd & _).
    split; [exact Halt|].
    intros t rest Hts. rewrite Hts in Hhd. cbn in Hhd.
    destruct (action t); [reflexivity|congruence].
  - intros Hne Hnz.
    destruct (calculate_trading_profit_returns df initial_usd Hne Hnz)
      as (st & p & pct & _ & H).
    eauto.
Qed.

(* ------------------------------------------------------------------ *)
(** ** Flat market                                                      *)
(* ------------------------------------------------------------------ *)

(** Equal averages at the current row: neither strict comparison holds. *)
Lemma crossover_on_equal_averages (sma7 sma14 : list Q) (i : nat) (row : Row)
      (st : Sim) :
  (i <= length sma7)%nat -> (i <= length sma14)%nat ->
  row_SMA_7 row == row_SMA_14 row ->
  crossover sma7 sma14 i row st = Ok st.
Proof.
  intros H7 H14 Heq. unfold crossover.
  destruct (Nat.ltb_spec 0 i) as [Hi|]; [|reflexivity].
  rewrite (loc_nth sma7 (i - 1)) by lia.
  rewrite (loc_nth sma14 (i - 1)) by lia.
  cbn [bind].
  destruct (Qlt_bool_spec (row_SMA_14 row) (row_SMA_7 row)) as [E|_].
  { rewrite Heq in E. exfalso. exact (Qlt_irrefl _ E). }
  destruct (Qlt_bool_spec (row_SMA_7 row) (row_SMA_14 row)) as [E|_].
  { rewrite Heq in E. exfalso. exact (Qlt_irrefl _ E). }
  reflexivity.
Qed.

(** With equal columns the loop keeps the initial stake in USD. *)
Lemma flat_upto (recs : list RatePoint) (sma7 sma14 : list Q)
      (initial_usd : Q) :
  length sma7 = length recs -> length sma14 = length recs ->
  nonzero_rates recs ->
  (forall i, (i < length recs)%nat -> nth i sma7 0 == nth i sma14 0) ->
  forall n, (n <= length recs)%nat ->
    exists pv,
      backtest_upto n recs sma7 sma14 initial_usd
      = Ok {| usd_balance := initial_usd; nis_balance := 0;
              trades := []; portfolio_value := pv |}
      /\ length pv = n
      /\ Forall (fun v => v == initial_usd) pv.
Proof.
  intros H7 H14 Hnz Hflat. induction n as [|n IH]; intros Hn.
  - exists []. repeat split. constructor.
  - destruct (IH ltac:(lia)) as (pv & Hst & Hlen & Hall).
    rewrite (backtest_upto_S recs sma7 sma14 initial_usd n H7 H14 ltac:(lia)).
    rewrite Hst. cbn [bind].
    set (row := mkRow (Date (nth n recs default_point))
                      (Rate (nth n recs default_point))
                      (nth n sma7 0) (nth n sma14 0)).
    assert (Hr : ~ row_Rate row == 0)
      by exact (nonzero_rates_nth recs n Hnz ltac:(lia)).
    assert (Hc := crossover_on_equal_averages sma7 sma14 n row
                    {| usd_balance := initial_usd; nis_balance := 0;
                       trades := []; portfolio_value := pv |}
                    ltac:(lia) ltac:(lia) (Hflat n ltac:(lia))).
    rewrite (loop_body_after_crossover _ _ _ _ _ _ Hr Hc).
    cbn [usd_balance nis_balance trades portfolio_value].
    eexists. split; [reflexivity|]. split.
    + rewrite length_app. simpl. lia.
    + apply Forall_app. split; [exact Hall|].
      constructor; [|constructor]. unfold Qdiv. ring.
Qed.

(** C7.  (a) An index at which the two averages are equal records no trade
    and moves no balance, whatever the averages were at the index before:
    the comparisons at the current index are strict.  (b) When the two
    indicator columns of the frame are equal at every index, the backtest
    loop ends with no trade and a portfolio trajectory with one entry per
    point, each equal to the initial USD amount, and the call returns
    exactly that, with zero profit. *)
Theorem flat_market_never_trades :
  (forall (recs : list RatePoint) (sma7 sma14 : list Q) (initial_usd : Q)
          (i : nat) (st : Sim),
      length sma7 = length recs -> length sma14 = length recs ->
      (i < length recs)%nat ->
      backtest_upto i recs sma7 sma14 initial_usd = Ok st ->
      ~ Rate (nth i recs default_point) == 0 ->
      nth i sma7 0 == nth i sma14 0 ->
      exists st',
        backtest_upto (S i) recs sma7 sma14 initial_usd = Ok st'
        /\ trades st' = trades st
        /\ usd_balance st' = usd_balance st
        /\ nis_balance st' = nis_balance st)
  /\ (forall (df : DataFrame) (initial_usd : Q),
        records df <> [] -> nonzero_rates (records df) ->
        (forall i, (i < df_len df)%nat ->
                   nth i (rolling_mean 7 (map Rate (records df))) 0
                   == nth i (rolling_mean 14 (map Rate (records df))) 0) ->
        exists st,
          backtest_loop (records df)
                        (rolling_mean 7 (map Rate (records df)))
                        (rolling_mean 14 (map Rate (records df))) initial_usd
          = Ok st
          /\ trades st = []
          /\ length (portfolio_value st) = df_len df
          /\ Forall (fun v => v == initial_usd) (portfolio_value st)
          /\ exists profit_usd profit_pct,
               snd (calculate_trading_profit df initial_usd)
               = Ok (profit_usd, profit_pct, [], portfolio_value st)
               /\ profit_usd == 0
               /\ (forall pct, profit_pct = Some pct -> pct == 0)).
Proof.
  split.
  - intros recs sma7 sma14 initial_usd i st H7 H14 Hi Hst Hr Heq.
    rewrite (backtest_upto_S recs sma7 sma14 initial_usd i H7 H14 Hi), Hst.
    cbn [bind].
    set (row := mkRow (Date (nth i recs default_point))
                      (Rate (nth i recs default_point))
                      (nth i sma7 0) (nth i sma14 0)).
    assert (Hc := crossover_on_equal_averages sma7 sma14 i row st
                    ltac:(lia) ltac:(lia) Heq).
    assert (Hrow : ~ row_Rate row == 0) by exact Hr.
    rewrite (loop_body_after_crossover _ _ _ _ _ _ Hrow Hc).
    eexists. split; [reflexivity|]. repeat split.
  - intros df initial_usd Hne Hnz Hflat.
    set (rates := map Rate (records df)) in *.
    assert (H7 : length (rolling_mean 7 rates) = length (records df)).
    { rewrite rolling_mean_length. apply length_map. }
    assert (H14 : length (rolling_mean 14 rates) = length (records df)).
    { rewrite rolling_mean_length. apply length_map. }
    destruct (flat_upto (records df) _ _ initial_usd H7 H14 Hnz Hflat
                (length (records df)) (Nat.le_refl _))
      as (pv & Hst & Hlen & Hall).
    rewrite (backtest_upto_all _ _ _ _ H7 H14) in Hst.
    eexists. split; [exact Hst|].
    cbn [trades portfolio_value]. repeat split; auto.
    unfold calculate_trading_profit.
    rewrite (col_Rate_nonempty df Hne). cbn [snd]. fold rates.
    rewrite Hst. cbn [bind].
    destruct (iloc_last_returns rates) as (last_rate & Hlast).
    { subst rates. destruct (records df); [congruence|discriminate]. }
    rewrite Hlast. cbn [bind].
    cbn [usd_balance nis_balance trades portfolio_value].
    eexists. eexists. split; [reflexivity|].
    split; [unfold Qdiv; ring|].
    intros pct. unfold np_div.
    destruct (Qeq_bool initial_usd 0); [discriminate|].
    cbn [option_map]. intros H. inversion H. unfold Qdiv. ring.
Qed.

(* ------------------------------------------------------------------ *)
(** ** The indicator columns of the frame                               *)
(* ------------------------------------------------------------------ *)

(** The window of the specification, entry by entry. *)
Lemma trailing_window_entries (W : nat) (rate : list Q) (i k : nat) :
  (i < length rate)%nat ->
  (k < length (trailing_window_spec W rate i))%nat ->
  nth k (trailing_window_spec W rate i) 0
  = nth (Nat.max 0 (i - (W - 1)) + k) rate 0.
Proof.
  intros Hi Hk. unfold trailing_window_spec in *.
  rewrite length_firstn, length_skipn in Hk.
  rewrite nth_firstn.
  destruct (Nat.ltb_spec k (i - Nat.max 0 (i - (W - 1)) + 1)) as [_|]; [|lia].
  apply nth_skipn.
Qed.

(** What the call leaves in the frame. *)
Lemma calculate_trading_profit_frame (df : DataFrame) (initial_usd : Q) :
  records df <> [] ->
  fst (calculate_trading_profit df initial_usd)
  = {| records := records df;
       SMA_7 := Some (rolling_mean 7 (map Rate (records df)));
       SMA_14 := Some (rolling_mean 14 (map Rate (records df))) |}.
Proof.
  intros Hne. unfold calculate_trading_profit.
  rewrite (col_Rate_nonempty df Hne). reflexivity.
Qed.

(** The rates of a window, read off the series. *)
Lemma window_constant (W : nat) (rate : list Q) (i : nat) (c : Q) :
  (1 <= W)%nat -> (i < length rate)%nat ->
  Forall (fun x => x == c) (trailing_window_spec W rate i) ->
  forall j, (S i - W <= j)%nat -> (j <= i)%nat -> nth j rate 0 == c.
Proof.
  intros HW Hi Hall j Hj1 Hj2.
  pose proof (trailing_window_length rate W HW i Hi) as Hlen.
  rewrite Forall_forall in Hall. apply Hall.
  replace j with (Nat.max 0 (i - (W - 1)) + (j - (S i - W)))%nat by lia.
  rewrite <- (trailing_window_entries W rate i (j - (S i - W)) Hi)
    by (rewrite Hlen; lia).
  apply nth_In. rewrite Hlen. lia.
Qed.

(** C2, as stated, fails.  On eight rates of four decimals, the last seven
    having the first one as their mean, the two windows at index 7 have the
    same arithmetic mean, 3.0312, and yet the two columns differ there: the
    short one holds 3.0312000000000006, above the long one.  And on a
    series that repeats one float four times and then the float just below
    it, the short column at index 16 lies above every rate of the series. *)
Lemma indicator_is_not_the_window_mean :
  (let df := frame_of_rates [3.0312; 3.0012; 3.0112; 3.0212; 3.0312; 3.0412;
                             3.0512; 3.0612] in
   let rate_ := map Rate (records df) in
   exists shortMA longMA,
     SMA_7 (fst (calculate_trading_profit df 1000)) = Some shortMA
     /\ SMA_14 (fst (calculate_trading_profit df 1000)) = Some longMA
     /\ mean_spec (trailing_window_spec 7 rate_ 7) == 3.0312
     /\ mean_spec (trailing_window_spec 14 rate_ 7) == 3.0312
     /\ nth 7 longMA 0 == b64 3.0312
     /\ nth 7 shortMA 0 == 6825655595242725 # 2251799813685248
     /\ nth 7 longMA 0 < nth 7 shortMA 0)
  /\ (let hi := 6940497385740671 # 2251799813685248 in
      let lo := 6940497385740670 # 2251799813685248 in
      let df := frame_of_rates [hi; hi; hi; hi; lo; hi; hi; hi; hi; lo;
                                hi; hi; hi; hi; lo; hi; hi] in
      exists shortMA,
        SMA_7 (fst (calculate_trading_profit df 1000)) = Some shortMA
        /\ b64 hi == hi /\ b64 lo == lo
        /\ Forall (fun p => Rate p < nth 16 shortMA 0) (records df)).
Proof.
  split.
  - do 2 eexists. split; [reflexivity|]. split; [reflexivity|].
    vm_compute. repeat split.
  - eexists. split; [reflexivity|].
    split; [vm_compute; reflexivity|]. split; [vm_compute; reflexivity|].
    vm_compute. repeat constructor.
Qed.

(** C2, amended.  On a non-empty series the backtest leaves two indicator
    columns in the frame, each as long as the series: the running means of
    pandas over the trailing windows [rate[max(0,i-6) .. i]] and
    [rate[max(0,i-13) .. i]], of [min(i+1, 7)] and [min(i+1, 14)] values,
    cut at the start of the series, computed in binary64 by compensated
    additions and removals.  Carried out in exact arithmetic the same
    computation gives the arithmetic mean of the window at every index; in
    binary64 it gives the window's value wherever the window holds one value
    throughout, as at index 0. *)
Theorem indicator_columns_are_trailing_means :
  forall (df : DataFrame) (initial_usd : Q),
    records df <> [] ->
    let rate_ := map Rate (records df) in
    exists shortMA longMA,
      SMA_7 (fst (calculate_trading_profit df initial_usd)) = Some shortMA
      /\ SMA_14 (fst (calculate_trading_profit df initial_usd)) = Some longMA
      /\ length shortMA = df_len df
      /\ length longMA = df_len df
      /\ shortMA = roll_mean b64 7 (map b64 rate_)
      /\ longMA = roll_mean b64 14 (map b64 rate_)
      /\ forall i, (i < df_len df)%nat ->
           length (trailing_window_spec 7 rate_ i) = Nat.min (S i) 7
           /\ length (trailing_window_spec 14 rate_ i) = Nat.min (S i) 14
           /\ (forall k, (k < Nat.min (S i) 7)%nat ->
                 nth k (trailing_window_spec 7 rate_ i) 0
                 = nth (Nat.max 0 (i - 6) + k) rate_ 0)
           /\ (forall k, (k < Nat.min (S i) 14)%nat ->
                 nth k (trailing_window_spec 14 rate_ i) 0
                 = nth (Nat.max 0 (i - 13) + k) rate_ 0)
           /\ nth i (roll_mean exact 7 rate_) 0
              == mean_spec (trailing_window_spec 7 rate_ i)
           /\ nth i (roll_mean exact 14 rate_) 0
              == mean_spec (trailing_window_spec 14 rate_ i)
           /\ (forall c,
                 Forall (fun x => x == c) (trailing_window_spec 7 rate_ i) ->
                 nth i shortMA 0 = b64 c)
           /\ (forall c,
                 Forall (fun x => x == c) (trailing_window_spec 14 rate_ i) ->
                 nth i longMA 0 = b64 c).
Proof.
  intros df initial_usd Hne rate_.
  rewrite (calculate_trading_profit_frame df initial_usd Hne).
  cbn [SMA_7 SMA_14]. fold rate_.
  assert (Hlen : length rate_ = df_len df) by apply length_map.
  exists (rolling_mean 7 rate_), (rolling_mean 14 rate_).
  split; [reflexivity|]. split; [reflexivity|].
  split; [rewrite rolling_mean_length; exact Hlen|].
  split; [rewrite rolling_mean_length; exact Hlen|].
  split; [reflexivity|]. split; [reflexivity|].
  intros i Hi. rewrite <- Hlen in Hi.
  pose proof (trailing_window_length rate_ 7 ltac:(lia) i Hi) as L7.
  pose proof (trailing_window_length rate_ 14 ltac:(lia) i Hi) as L14.
  split; [exact L7|]. split; [exact L14|].
  split; [|split; [|split; [|split; [|split]]]].
  - intros k Hk. rewrite <- L7 in Hk.
    exact (trailing_window_entries 7 rate_ i k Hi Hk).
  - intros k Hk. rewrite <- L14 in Hk.
    exact (trailing_window_entries 14 rate_ i k Hi Hk).
  - apply roll_mean_exact; [lia|exact Hi].
  - apply roll_mean_exact; [lia|exact Hi].
  - intros c Hc.
    pose proof (window_constant 7 rate_ i c ltac:(lia) Hi Hc) as Hw.
    rewrite (rolling_mean_constant_window 7 rate_ i ltac:(lia) Hi).
    + apply b64_compat. apply Hw; lia.
    + intros j Hj1 Hj2. rewrite (Hw j Hj1 Hj2), (Hw i ltac:(lia) ltac:(lia)).
      reflexivity.
  - intros c Hc.
    pose proof (window_constant 14 rate_ i c ltac:(lia) Hi Hc) as Hw.
    rewrite (rolling_mean_constant_window 14 rate_ i ltac:(lia) Hi).
    + apply b64_compat. apply Hw; lia.
    + intros j Hj1 Hj2. rewrite (Hw j Hj1 Hj2), (Hw i ltac:(lia) ltac:(lia)).
      reflexivity.
Qed.

(** On the sample frame: the first seven rates are 3, so the short column
    holds 3 at index 6; at index 8 the exact computation gives 20/7 and
    26/9. *)
Lemma indicator_columns_are_trailing_means_witness :
  exists shortMA longMA,
    SMA_7 (fst (calculate_trading_profit sample_frame 1000)) = Some shortMA
    /\ SMA_14 (fst (calculate_trading_profit sample_frame 1000)) = Some longMA
    /\ nth 6 shortMA 0 = 3
    /\ nth 8 (roll_mean exact 7 (map Rate (records sample_frame))) 0
       == 20 # 7
    /\ nth 8 (roll_mean exact 14 (map Rate (records sample_frame))) 0
       == 26 # 9.
Proof.
  destruct (indicator_columns_are_trailing_means sample_frame 1000)
    as (s & l & Hs & Hl & _ & _ & _ & _ & H).
  - discriminate.
  - exists s, l. split; [exact Hs|]. split; [exact Hl|].
    destruct (H 6%nat) as (_ & _ & _ & _ & _ & _ & Hc & _).
    { cbn. lia. }
    destruct (H 8%nat) as (_ & _ & _ & _ & H7 & H14 & _).
    { cbn. lia. }
    split; [|split].
    + rewrite (Hc 3); [reflexivity|]. repeat constructor.
    + rewrite H7. vm_compute. reflexivity.
    + rewrite H14. vm_compute. reflexivity.
Defined.

(** On the demo series every entry of both columns is within [2^-50] of
    the mean of its window. *)
Example demo_indicators_near_window_means :
  let rate_ := map Rate (records (frame_of (generate_demo_data sample_now))) in
  forallb (fun i =>
             Qle_bool (Qabs (nth i (rolling_mean 7 rate_) 0
                             - mean_spec (trailing_window_spec 7 rate_ i)))
                      (pow2 (-50))
             && Qle_bool (Qabs (nth i (rolling_mean 14 rate_) 0
                                - mean_spec (trailing_window_spec 14 rate_ i)))
                         (pow2 (-50)))
          (seq 0 30)
  = true.
Proof. vm_compute. reflexivity. Qed.

Lemma rolling_lengths (recs : list RatePoint) (w : nat) :
  length (rolling_mean w (map Rate recs)) = length recs.
Proof. rewrite rolling_mean_length. apply length_map. Qed.

(** The call's result in terms of the loop's. *)
Lemma calculate_trading_profit_result (df : DataFrame) (initial_usd : Q) :
  records df <> [] ->
  snd (calculate_trading_profit df initial_usd)
  = (st <- backtest_loop (records df)
             (rolling_mean 7 (map Rate (records df)))
             (rolling_mean 14 (map Rate (records df))) initial_usd ;;
     last_rate <- iloc_last (map Rate (records df)) ;;
     Ok (usd_balance st + nis_balance st / last_rate - initial_usd,
         option_map (fun ratio => ratio * 100)
           (np_div (usd_balance st + nis_balance st / last_rate
                    - initial_usd) initial_usd),
         trades st, portfolio_value st)).
Proof.
  intros Hne. unfold calculate_trading_profit.
  rewrite (col_Rate_nonempty df Hne). reflexivity.
Qed.

(** C1.  The loop of the backtest is its iterations one after the other,
    from the initial state to the state whose trades and trajectory
    [calculate_trading_profit] returns.  At every index [i] of a frame with
    indicator columns, reached in state [st]: iteration [i] records a BUY
    exactly when [i > 0], the short average is above the long one at [i]
    and was not above it at [i-1], and the USD balance is positive, and
    then the whole USD balance becomes local currency at [rate[i]]; it
    records a SELL exactly when [i > 0], the short average is below the
    long one at [i] and was not below it at [i-1], and the local balance is
    positive, and then the whole local balance becomes USD at [rate[i]]; it
    records at most one trade, none at index 0, and without a trade the
    balances stay as they were. *)
Theorem trade_recorded_exactly_on_crossover_edge :
  forall (recs : list RatePoint) (sma7 sma14 : list Q) (initial_usd : Q),
    length sma7 = length recs -> length sma14 = length recs ->
    backtest_upto 0 recs sma7 sma14 initial_usd = Ok (sim_init initial_usd)
    /\ backtest_loop recs sma7 sma14 initial_usd
       = backtest_upto (length recs) recs sma7 sma14 initial_usd
    /\ (forall i st',
          (i < length recs)%nat ->
          backtest_upto (S i) recs sma7 sma14 initial_usd = Ok st' ->
          exists st, backtest_upto i recs sma7 sma14 initial_usd = Ok st)
    /\ (forall df,
          records df = recs -> recs <> [] ->
          sma7 = rolling_mean 7 (map Rate recs) ->
          sma14 = rolling_mean 14 (map Rate recs) ->
          fst (calculate_trading_profit df initial_usd)
          = {| records := recs; SMA_7 := Some sma7; SMA_14 := Some sma14 |}
          /\ (forall profit_usd profit_pct ts pv,
                snd (calculate_trading_profit df initial_usd)
                = Ok (profit_usd, profit_pct, ts, pv) ->
                exists st,
                  backtest_loop recs sma7 sma14 initial_usd = Ok st
                  /\ ts = trades st /\ pv = portfolio_value st)
          /\ forall st,
               backtest_loop recs sma7 sma14 initial_usd = Ok st ->
               exists profit_usd profit_pct,
                 snd (calculate_trading_profit df initial_usd)
                 = Ok (profit_usd, profit_pct, trades st,
                       portfolio_value st))
    /\ forall (i : nat) (st : Sim),
         (i < length recs)%nat ->
         backtest_upto i recs sma7 sma14 initial_usd = Ok st ->
         ~ Rate (nth i recs default_point) == 0 ->
         exists st',
           backtest_upto (S i) recs sma7 sma14 initial_usd = Ok st' /\
           let r := Rate (nth i recs default_point) in
           let d := Date (nth i recs default_point) in
           ((exists t, records_trade st st' t /\ action t = BUY)
            <-> (0 < i)%nat /\ upward_crossover sma7 sma14 i
                /\ 0 < usd_balance st) /\
           ((exists t, records_trade st st' t /\ action t = SELL)
            <-> (0 < i)%nat /\ downward_crossover sma7 sma14 i
                /\ 0 < nis_balance st) /\
           (forall t, records_trade st st' t -> action t = BUY ->
              t = mkTrade d BUY r (usd_balance st) (usd_balance st * r)
              /\ usd_balance st' = 0
              /\ nis_balance st' = usd_balance st * r) /\
           (forall t, records_trade st st' t -> action t = SELL ->
              t = mkTrade d SELL r (nis_balance st / r) (nis_balance st)
              /\ usd_balance st' = nis_balance st / r
              /\ nis_balance st' = 0) /\
           (trades st' = trades st \/ exists t, records_trade st st' t) /\
           (trades st' = trades st ->
              usd_balance st' = usd_balance st
              /\ nis_balance st' = nis_balance st) /\
           (i = 0%nat -> trades st' = trades st).
Proof.
  intros recs sma7 sma14 initial_usd H7 H14.
  split; [reflexivity|].
  split; [symmetry; apply backtest_upto_all; assumption|].
  split.
  { intros i st' Hi Hst'.
    rewrite (backtest_upto_S recs sma7 sma14 initial_usd i H7 H14 Hi) in Hst'.
    destruct (backtest_upto i recs sma7 sma14 initial_usd) as [st|e];
      [eauto|discriminate Hst']. }
  split.
  { intros df Hrec Hne -> ->. subst recs.
    split; [apply calculate_trading_profit_frame; exact Hne|].
    rewrite (calculate_trading_profit_result df initial_usd Hne).
    split.
    - intros profit_usd profit_pct ts pv H.
      apply bind_ok in H. destruct H as (st & Hst & H).
      apply bind_ok in H. destruct H as (x & _ & H).
      inversion H; subst. exists st. auto.
    - intros st Hst. rewrite Hst. cbn [bind].
      destruct (iloc_last_returns (map Rate (records df))) as (x & Hx).
      { destruct (records df); [congruence|discriminate]. }
      rewrite Hx. cbn [bind]. eauto. }
  intros i st Hi Hst Hr.
  rewrite (backtest_upto_S recs sma7 sma14 initial_usd i H7 H14 Hi), Hst.
  cbn [bind].
  remember (mkRow (Date (nth i recs default_point))
                  (Rate (nth i recs default_point))
                  (nth i sma7 0) (nth i sma14 0)) as row eqn:Erow.
  assert (Hrow : ~ row_Rate row == 0) by (subst row; exact Hr).
  unfold records_trade, upward_crossover, downward_crossover.
  destruct (Nat.eq_dec i 0) as [Hi0|Hi0].
  - (* index 0: the crossover branch is skipped *)
    assert (Hc : crossover sma7 sma14 i row st = Ok st).
    { unfold crossover. subst i. reflexivity. }
    rewrite (loop_body_after_crossover _ _ _ _ _ _ Hrow Hc).
    eexists; split; [reflexivity|]. cbn.
    repeat apply conj; try split; settle_trade.
  - assert (Hpos : (0 < i)%nat) by lia.
    destruct (crossover_cases sma7 sma14 i row st Hpos
                ltac:(lia) ltac:(lia) Hrow)
      as [(Hb & Hns & Hc) | [(Hs & Hnb & Hc) | (Hnb & Hns & Hc)]];
      rewrite (loop_body_after_crossover _ _ _ _ _ _ Hrow Hc);
      (eexists; split; [reflexivity|]);
      subst row; cbn in *;
      repeat apply conj; try split; settle_trade.
Qed.

(* ------------------------------------------------------------------ *)
(** ** The statements at work on the sample frames                      *)
(* ------------------------------------------------------------------ *)

Ltac nonzero_list :=
  repeat constructor; cbn; unfold Qeq; cbn; discriminate.

(** On the sample frame the jump at index 7 is an upward crossover reached
    with USD in hand: a BUY is recorded there, and it is the first of the
    two trades the call returns. *)
Lemma trade_recorded_exactly_on_crossover_edge_witness :
  let recs := records sample_frame in
  let sma7 := rolling_mean 7 (map Rate recs) in
  let sma14 := rolling_mean 14 (map Rate recs) in
  (exists st st' t,
     backtest_upto 7 recs sma7 sma14 1000 = Ok st
     /\ backtest_upto 8 recs sma7 sma14 1000 = Ok st'
     /\ records_trade st st' t /\ action t = BUY)
  /\ exists profit_usd profit_pct ts pv st,
       snd (calculate_trading_profit sample_frame 1000)
       = Ok (profit_usd, profit_pct, ts, pv)
       /\ backtest_upto 9 recs sma7 sma14 1000 = Ok st
       /\ ts = trades st
       /\ map action ts = [BUY; SELL].
Proof.
  intros recs sma7 sma14.
  destruct (trade_recorded_exactly_on_crossover_edge
              recs sma7 sma14 1000 (rolling_lengths _ 7) (rolling_lengths _ 14))
    as (_ & Hall & _ & Hcall & Hstep).
  split.
  - assert (Hst : exists st, backtest_upto 7 recs sma7 sma14 1000 = Ok st
                             /\ usd_balance st = 1000).
    { eexists. split; vm_compute; reflexivity. }
    destruct Hst as (st & Hst & Husd).
    destruct (Hstep 7%nat st) as (st' & Hst' & Hbuy & _).
    + cbn. lia.
    + exact Hst.
    + cbn. unfold Qeq. cbn. discriminate.
    + destruct (proj2 Hbuy) as (t & Ht & Ha).
      * split; [lia|]. split.
        -- unfold upward_crossover.
           split; vm_compute; [reflexivity|discriminate].
        -- rewrite Husd. reflexivity.
      * exists st, st', t. auto.
  - destruct (Hcall sample_frame eq_refl ltac:(discriminate) eq_refl eq_refl)
      as (_ & Hret & _).
    destruct (snd (calculate_trading_profit sample_frame 1000))
      as [[[[p pct] ts] pv]|e] eqn:E; [|vm_compute in E; discriminate E].
    destruct (Hret p pct ts pv eq_refl) as (st & Hst & Hts & _).
    exists p, pct, ts, pv, st. split; [reflexivity|].
    split; [rewrite <- Hst; symmetry; exact Hall|]. split; [exact Hts|].
    vm_compute in E. inversion E. reflexivity.
Defined.

Lemma trades_alternate_starting_with_buy_witness :
  exists profit_usd profit_pct ts pv,
    snd (calculate_trading_profit sample_frame 1000)
    = Ok (profit_usd, profit_pct, ts, pv)
    /\ map action ts = [BUY; SELL]
    /\ alternates (map action ts) = true.
Proof.
  destruct (trades_alternate_starting_with_buy sample_frame 1000)
    as [Halt Hret].
  destruct Hret as ([[[p pct] ts] pv] & Hr).
  - discriminate.
  - unfold nonzero_rates. nonzero_list.
  - exists p, pct, ts, pv. split; [exact Hr|].
    split; [|exact (proj1 (Halt p pct ts pv Hr))].
    vm_compute in Hr. inversion Hr. reflexivity.
Defined.

(** The five-point scenario: both windows are cut to the same points, the
    averages coincide, index 4 records nothing and nothing is traded. *)
Lemma flat_market_never_trades_witness :
  let recs := records short_frame in
  let sma7 := rolling_mean 7 (map Rate recs) in
  let sma14 := rolling_mean 14 (map Rate recs) in
  (exists st4 st5,
      backtest_upto 4 recs sma7 sma14 1000 = Ok st4
      /\ backtest_upto 5 recs sma7 sma14 1000 = Ok st5
      /\ trades st5 = trades st4)
  /\ exists st,
      backtest_loop recs sma7 sma14 1000 = Ok st
      /\ trades st = []
      /\ length (portfolio_value st) = 5%nat
      /\ Forall (fun v => v == 1000) (portfolio_value st).
Proof.
  intros recs sma7 sma14. split.
  - assert (Hst : exists st, backtest_upto 4 recs sma7 sma14 1000 = Ok st).
    { eexists. lazy. reflexivity. }
    destruct Hst as (st4 & Hst4).
    destruct (proj1 flat_market_never_trades recs sma7 sma14 1000 4%nat st4)
      as (st5 & Hst5 & Ht & _).
    + reflexivity.
    + reflexivity.
    + cbn. lia.
    + exact Hst4.
    + cbn. unfold Qeq. cbn. discriminate.
    + vm_compute. reflexivity.
    + exists st4, st5. auto.
  - destruct (proj2 flat_market_never_trades short_frame 1000)
      as (st & Hst & Ht & Hl & Hall & _).
    + discriminate.
    + unfold nonzero_rates. nonzero_list.
    + intros i Hi. cbn in Hi.
      do 5 (destruct i as [|i]; [vm_compute; reflexivity|]). lia.
    + exists st. auto.
Defined.

(* ------------------------------------------------------------------ *)
(** ** What the backtest does to its input frame                        *)
(* ------------------------------------------------------------------ *)

(** C9, as stated, fails: the sample frame comes back with two columns it
    did not have. *)
Lemma backtest_changes_its_input :
  SMA_7 sample_frame = None
  /\ SMA_14 sample_frame = None
  /\ SMA_7 (fst (calculate_trading_profit sample_frame 1000)) <> None
  /\ SMA_14 (fst (calculate_trading_profit sample_frame 1000)) <> None
  /\ fst (calculate_trading_profit sample_frame 1000) <> sample_frame.
Proof.
  split; [reflexivity|]. split; [reflexivity|].
  rewrite (calculate_trading_profit_frame sample_frame 1000) by discriminate.
  split; [discriminate|]. split; [discriminate|].
  intros H. apply (f_equal SMA_7) in H. discriminate H.
Qed.

(** C9, amended.  The backtest keeps the rows of its input frame with their
    dates and rates; on a non-empty frame it assigns the two indicator
    columns, the 7- and 14-point rolling means of the rates, whatever the
    frame held there before and whether or not the loop then raises; an
    empty frame is left as it was. *)
Theorem backtest_only_assigns_indicator_columns :
  forall (df : DataFrame) (initial_usd : Q),
    let df' := fst (calculate_trading_profit df initial_usd) in
    records df' = records df
    /\ (records df <> [] ->
        SMA_7 df' = Some (rolling_mean 7 (map Rate (records df)))
        /\ SMA_14 df' = Some (rolling_mean 14 (map Rate (records df))))
    /\ (records df = [] -> df' = df).
Proof.
  intros df initial_usd df'. subst df'.
  destruct (records df) as [|p recs] eqn:E.
  - assert (H : fst (calculate_trading_profit df initial_usd) = df).
    { unfold calculate_trading_profit, col_Rate. rewrite E. reflexivity. }
    rewrite H. split; [exact E|].
    split; [intros Hne; congruence | reflexivity].
  - rewrite (calculate_trading_profit_frame df initial_usd) by congruence.
    cbn [records SMA_7 SMA_14]. rewrite E.
    split; [reflexivity|]. split; [intros _; split; reflexivity|].
    discriminate.
Qed.

Lemma backtest_only_assigns_indicator_columns_witness :
  records (fst (calculate_trading_profit sample_frame 1000))
  = records sample_frame
  /\ SMA_7 (fst (calculate_trading_profit sample_frame 1000))
     = Some (rolling_mean 7 (map Rate (records sample_frame)))
  /\ fst (calculate_trading_profit (pd_DataFrame []) 1000) = pd_DataFrame [].
Proof.
  destruct (backtest_only_assigns_indicator_columns sample_frame 1000)
    as (Hrec & Hcols & _).
  destruct (backtest_only_assigns_indicator_columns (pd_DataFrame []) 1000)
    as (_ & _ & Hempty).
  split; [exact Hrec|]. split.
  - exact (proj1 (Hcols ltac:(discriminate))).
  - apply Hempty. reflexivity.
Defined.

(* ------------------------------------------------------------------ *)
(** ** Source chain                                                     *)
(* ------------------------------------------------------------------ *)





(** A rate without a date: the first source answers with an empty
    [LAST_UPDATE] element. *)
Example rate_without_date :
  get_current_rate world_empty_date
  = (Some 3.09, None, "✅ Bank of Israel (Official)").
Proof. reflexivity. Qed.

(* ------------------------------------------------------------------ *)
(** ** Rounding                                                         *)
(* ------------------------------------------------------------------ *)

(** The rounded value is a nearest integer. *)
Lemma round_half_even_nearest (q : Q) :
  Qabs (inject_Z (round_half_even q) - q) <= 1 # 2.
Proof.
  unfold round_half_even.
  pose proof (Qfloor_le q) as Hlo.
  pose proof (Qlt_floor q) as Hhi.
  rewrite inject_Z_plus in Hhi. change (inject_Z 1) with 1 in Hhi.
  set (f := Qfloor q) in *.
  apply Qabs_Qle_condition.
  destruct (Qlt_bool_spec (q - inject_Z f) (1 # 2)) as [H1|H1].
  - split; lra.
  - destruct (Qlt_bool_spec (1 # 2) (q - inject_Z f)) as [H2|H2].
    + rewrite inject_Z_plus. change (inject_Z 1) with 1. split; lra.
    + destruct (Z.even f).
      * split; lra.
      * rewrite inject_Z_plus. change (inject_Z 1) with 1. split; lra.
Qed.


(* ------------------------------------------------------------------ *)
(** ** binary64 rounding                                                *)
(* ------------------------------------------------------------------ *)









(* ------------------------------------------------------------------ *)
(** ** Reading back what the formats print                              *)
(* ------------------------------------------------------------------ *)












(* ------------------------------------------------------------------ *)
(** ** Demo generator                                                   *)
(* ------------------------------------------------------------------ *)

Lemma civil_round_trip (z : Z) :
  let '(y, m, d) := civil_from_days z in days_from_civil y m d = z.
Proof.
  unfold civil_from_days, days_from_civil.
  cbv zeta.
  set (era := ((z + 719468) / 146097)%Z).
  set (doe := (z + 719468 - era * 146097)%Z).
  assert (Hdoe : (0 <= doe < 146097)%Z).
  { unfold doe, era.
    pose proof (Z.mod_pos_bound (z + 719468) 146097 ltac:(lia)) as H.
    rewrite Z.mod_eq in H by lia. lia. }
  assert (Edoe : doe = (z + 719468 - era * 146097)%Z) by reflexivity.
  clearbody doe.
  set (yoe := ((doe - doe / 1460 + doe / 36524 - doe / 146096) / 365)%Z).
  assert (Hyoe : (0 <= yoe <= 399)%Z)
    by (unfold yoe; Z.to_euclidean_division_equations; lia).
  set (doy := (doe - (365 * yoe + yoe / 4 - yoe / 100))%Z).
  assert (Hdoy : (0 <= doy <= 365)%Z)
    by (unfold doy, yoe; Z.to_euclidean_division_equations; lia).
  assert (Hera : forall k, (0 <= k < 400)%Z -> ((k + era * 400) / 400 = era)%Z)
    by (intros; Z.to_euclidean_division_equations; lia).
  set (mp := ((5 * doy + 2) / 153)%Z).
  assert (Hmp : (0 <= mp <= 11)%Z)
    by (unfold mp; Z.to_euclidean_division_equations; lia).
  destruct (Z.ltb_spec mp 10).
  - destruct (Z.leb_spec (mp + 3) 2); [lia|].
    destruct (Z.ltb_spec 2 (mp + 3)); [|lia].
    rewrite Hera by lia.
    replace (mp + 3 - 3)%Z with mp by lia.
    replace (yoe + era * 400 - era * 400)%Z with yoe by lia.
    unfold doy. lia.
  - destruct (Z.leb_spec (mp - 9) 2); [|lia].
    destruct (Z.ltb_spec 2 (mp - 9)); [lia|].
    replace (mp - 9 + 9)%Z with mp by lia.
    replace (yoe + era * 400 + 1 - 1)%Z with (yoe + era * 400)%Z by lia.
    rewrite Hera by lia.
    replace (yoe + era * 400 - era * 400)%Z with yoe by lia.
    unfold doy. lia.
Qed.

Lemma civil_from_days_inj (z1 z2 : Z) :
  civil_from_days z1 = civil_from_days z2 -> z1 = z2.
Proof.
  intros H. pose proof (civil_round_trip z1) as H1.
  pose proof (civil_round_trip z2) as H2. rewrite H in H1.
  destruct (civil_from_days z2) as [[y m] d]. congruence.
Qed.

Lemma civil_range (z : Z) :
  (min_day <= z <= max_day)%Z ->
  let '(y, m, d) := civil_from_days z in
  (1 <= y <= 9999 /\ 1 <= m <= 12 /\ 1 <= d <= 31)%Z.
Proof.
  unfold min_day, max_day. intros Hz.
  unfold civil_from_days. cbv zeta.
  set (era := ((z + 719468) / 146097)%Z).
  set (doe := (z + 719468 - era * 146097)%Z).
  assert (Hera : (0 <= era <= 24)%Z)
    by (unfold era; Z.to_euclidean_division_equations; lia).
  assert (Hdoe : (0 <= doe < 146097)%Z).
  { unfold doe, era.
    pose proof (Z.mod_pos_bound (z + 719468) 146097 ltac:(lia)) as H.
    rewrite Z.mod_eq in H by lia. lia. }
  assert (Hlo : (era = 0 -> 306 <= doe)%Z) by (unfold doe; lia).
  assert (Hhi : (era = 24 -> doe <= 146036)%Z) by (unfold doe; lia).
  clearbody doe era.
  set (yoe := ((doe - doe / 1460 + doe / 36524 - doe / 146096) / 365)%Z).
  assert (Hyoe : (0 <= yoe <= 399)%Z)
    by (unfold yoe; Z.to_euclidean_division_equations; lia).
  set (doy := (doe - (365 * yoe + yoe / 4 - yoe / 100))%Z).
  assert (Hdoy : (0 <= doy <= 365)%Z)
    by (unfold doy, yoe; Z.to_euclidean_division_equations; lia).
  set (mp := ((5 * doy + 2) / 153)%Z).
  assert (Hmp : (0 <= mp <= 11)%Z)
    by (unfold mp; Z.to_euclidean_division_equations; lia).
  assert (Hd : (1 <= doy - (153 * mp + 2) / 5 + 1 <= 31)%Z)
    by (unfold mp; Z.to_euclidean_division_equations; lia).
  assert (Hy0 : (era = 0 -> yoe = 0 -> 10 <= mp)%Z).
  { intros E0 Ey. specialize (Hlo E0). unfold mp, doy. rewrite Ey.
    Z.to_euclidean_division_equations. lia. }
  assert (Hy1 : (era = 24 -> yoe = 399 -> mp < 10)%Z).
  { intros E0 Ey. specialize (Hhi E0). unfold mp, doy. rewrite Ey.
    assert (Hd0 : (145731 <= doe)%Z).
    { unfold yoe in Ey. Z.to_euclidean_division_equations. lia. }
    Z.to_euclidean_division_equations. lia. }
  destruct (Z.ltb_spec mp 10).
  - destruct (Z.leb_spec (mp + 3) 2); [lia|]. repeat split; lia.
  - destruct (Z.leb_spec (mp - 9) 2); [|lia]. repeat split; lia.
Qed.

Lemma read_digits_app (k : nat) :
  forall acc s v rest,
    read_digits k acc s = Some (v, EmptyString) ->
    read_digits k acc (s ++ rest) = Some (v, rest).
Proof.
  induction k as [|k IH]; intros acc s v rest H.
  - cbn [read_digits] in *. inversion H; subst. reflexivity.
  - destruct s as [|c s]; [discriminate H|].
    cbn [read_digits String.append] in *.
    destruct (digit_of c); [|discriminate H].
    apply IH. exact H.
Qed.

Lemma pad_reads_back_2 :
  forallb (pad_reads_back 2) (map Z.of_nat (seq 0 (Z.to_nat 100))) = true.
Proof. vm_compute. reflexivity. Qed.

Lemma pad_reads_back_4 :
  forallb (pad_reads_back 4) (map Z.of_nat (seq 0 (Z.to_nat 10000))) = true.
Proof. vm_compute. reflexivity. Qed.

Lemma read_zero_pad (width : nat) (bound : Z) (n : Z) (rest : string) :
  forallb (pad_reads_back width) (map Z.of_nat (seq 0 (Z.to_nat bound))) = true ->
  (0 <= n < bound)%Z ->
  read_digits width 0 (zero_pad width n ++ rest) = Some (n, rest).
Proof.
  intros Hall Hn. rewrite forallb_forall in Hall.
  assert (Hin : In n (map Z.of_nat (seq 0 (Z.to_nat bound)))).
  { replace n with (Z.of_nat (Z.to_nat n)) by lia.
    apply in_map. apply in_seq. lia. }
  specialize (Hall n Hin). unfold pad_reads_back in Hall.
  destruct (read_digits width 0 (zero_pad width n)) as [[v [|c s]]|] eqn:E;
    try discriminate Hall.
  apply Z.eqb_eq in Hall. subst v.
  apply read_digits_app. exact E.
Qed.

Lemma append_nil_r (a : string) : (a ++ "")%string = a.
Proof. induction a as [|x a IH]; simpl; [reflexivity|]. rewrite IH. reflexivity. Qed.

(** Within the range of [datetime], the date printed reads back as the
    date. *)
Lemma read_strftime_ymd (t : datetime) :
  in_datetime_range t ->
  read_ymd (strftime_ymd t) = Some (civil_from_days (t / usec_per_day)).
Proof.
  intros Hr. unfold strftime_ymd.
  pose proof (civil_range (t / usec_per_day) Hr) as Hc.
  destruct (civil_from_days (t / usec_per_day)) as [[y m] d].
  destruct Hc as (Hy & Hm & Hd).
  unfold read_ymd.
  rewrite (read_zero_pad 4 10000 y _ pad_reads_back_4) by lia.
  cbn [obind expect String.append Ascii.eqb Bool.eqb].
  rewrite (read_zero_pad 2 100 m _ pad_reads_back_2) by lia.
  cbn [obind expect String.append Ascii.eqb Bool.eqb].
  rewrite <- (append_nil_r (zero_pad 2 d)) at 1.
  rewrite (read_zero_pad 2 100 d _ pad_reads_back_2) by lia.
  reflexivity.
Qed.

Lemma strftime_ymd_inj (t1 t2 : datetime) :
  in_datetime_range t1 -> in_datetime_range t2 ->
  strftime_ymd t1 = strftime_ymd t2 ->
  (t1 / usec_per_day = t2 / usec_per_day)%Z.
Proof.
  intros H1 H2 E.
  pose proof (read_strftime_ymd t1 H1) as R1.
  pose proof (read_strftime_ymd t2 H2) as R2.
  rewrite E in R1. rewrite R1 in R2.
  apply civil_from_days_inj. congruence.
Qed.

Lemma strftime_by_day (t1 t2 : datetime) :
  (t1 / usec_per_day = t2 / usec_per_day)%Z ->
  strftime_ymd t1 = strftime_ymd t2.
Proof. intros H. unfold strftime_ymd. rewrite H. reflexivity. Qed.

Lemma demo_point_by_day (now1 now2 : datetime) (i : nat) :
  (now1 / usec_per_day = now2 / usec_per_day)%Z ->
  demo_point (now1 - timedelta_days 30) i
  = demo_point (now2 - timedelta_days 30) i.
Proof.
  intros H. unfold demo_point. f_equal.
  apply strftime_by_day. unfold timedelta_days.
  replace (now1 - 30 * usec_per_day + Z.of_nat i * usec_per_day)%Z
    with (now1 + (Z.of_nat i - 30) * usec_per_day)%Z by ring.
  replace (now2 - 30 * usec_per_day + Z.of_nat i * usec_per_day)%Z
    with (now2 + (Z.of_nat i - 30) * usec_per_day)%Z by ring.
  rewrite !Z.div_add by discriminate. rewrite H. reflexivity.
Qed.

Lemma demo_records (now_ : datetime) :
  records (frame_of (generate_demo_data now_))
  = map (demo_point (now_ - timedelta_days 30)) (seq 0 30).
Proof. reflexivity. Qed.

(** C5, as stated, fails: the generator reads the clock, and a day later
    it produces another series. *)
Lemma demo_series_changes_with_the_clock :
  frame_of (generate_demo_data sample_now)
  <> frame_of (generate_demo_data (sample_now + usec_per_day)%Z).
Proof.
  intros H.
  apply (f_equal (fun df => map Date (firstn 1 (records df)))) in H.
  vm_compute in H. discriminate H.
Qed.

(** C5, amended.  The generator takes no argument and draws no random
    number; its only input is the clock, and only the clock's calendar day:
    two invocations return the same result when made on the same day, and
    (for clocks whose start date [datetime] can hold) only then; the rates
    are the same whatever the clock reads, and point [i] of the 30 carries
    the date of day [now - 30 + i] and the rate
    [round(3.09 + 0.0005*(i-15) + 0.01*((i mod 5)-2)/2, 4)]. *)
Theorem demo_series_depends_on_clock_day_only :
  forall now1 now2 : datetime,
    map Rate (records (frame_of (generate_demo_data now1)))
    = map Rate (records (frame_of (generate_demo_data now2)))
    /\ ((now1 / usec_per_day = now2 / usec_per_day)%Z ->
        generate_demo_data now1 = generate_demo_data now2)
    /\ (in_datetime_range (now1 - timedelta_days 30) ->
        in_datetime_range (now2 - timedelta_days 30) ->
        generate_demo_data now1 = generate_demo_data now2 ->
        (now1 / usec_per_day = now2 / usec_per_day)%Z)
    /\ df_len (frame_of (generate_demo_data now1)) = 30%nat
    /\ forall i, (i < 30)%nat ->
         exists p,
           nth_error (records (frame_of (generate_demo_data now1))) i = Some p
           /\ Rate p
              = py_round (3.09 + 0.0005 * (inject_Z (Z.of_nat i) - 15)
                          + 0.01 * (inject_Z (Z.of_nat i mod 5) - 2) / 2) 4
           /\ Date p
              = strftime_ymd (now1 - timedelta_days 30
                              + timedelta_days (Z.of_nat i)).
Proof.
  intros now1 now2. split; [|split; [|split; [|split]]].
  - rewrite !demo_records, !map_map. reflexivity.
  - intros Hday. unfold generate_demo_data.
    assert (E : map (demo_point (now1 - timedelta_days 30)) (seq 0 30)
                = map (demo_point (now2 - timedelta_days 30)) (seq 0 30)).
    { apply map_ext. intros i. apply demo_point_by_day. exact Hday. }
    rewrite E. reflexivity.
  - intros H1 H2 E.
    apply (f_equal (fun r => map Date (firstn 1 (records (frame_of r)))))
      in E.
    rewrite !demo_records in E. cbn [seq firstn map demo_point Date] in E.
    injection E as E.
    cbn [Z.of_nat timedelta_days] in E. rewrite !Z.add_0_r in E.
    apply (strftime_ymd_inj _ _ H1 H2) in E.
    unfold timedelta_days in E.
    replace (now1 - 30 * usec_per_day)%Z
      with (now1 + (-30) * usec_per_day)%Z in E by ring.
    replace (now2 - 30 * usec_per_day)%Z
      with (now2 + (-30) * usec_per_day)%Z in E by ring.
    rewrite !Z.div_add in E by discriminate. lia.
  - unfold df_len. rewrite demo_records, length_map, length_seq. reflexivity.
  - intros i Hi. rewrite demo_records.
    exists (demo_point (now1 - timedelta_days 30) i). split.
    + rewrite nth_error_map, nth_error_seq.
      destruct (Nat.ltb_spec i 30) as [_|]; [reflexivity|lia].
    + split; reflexivity.
Qed.

(** A microsecond later on the same day the result is the same; and two
    clocks of the years 2026 that give the same result read the same
    day. *)
Lemma demo_series_depends_on_clock_day_only_witness :
  generate_demo_data sample_now = generate_demo_data (sample_now + 1)%Z
  /\ (generate_demo_data sample_now
      = generate_demo_data (sample_now + 1)%Z ->
      (sample_now / usec_per_day = (sample_now + 1) / usec_per_day)%Z).
Proof.
  destruct (demo_series_depends_on_clock_day_only
              sample_now (sample_now + 1)%Z) as (_ & Hsame & Honly & _).
  split.
  - apply Hsame. reflexivity.
  - apply Honly; unfold in_datetime_range; vm_compute; split; discriminate.
Defined.

(* ------------------------------------------------------------------ *)
(** ** Cache loader and acquisition                                     *)
(* ------------------------------------------------------------------ *)

Section CacheAndAcquisition.

Variable fromisoformat : string -> result datetime.


Lemma cache_attempt_valid (now_ : datetime) (c : CacheRecord)
      (data : list RatePoint) (ts : string) (t : datetime) (cr : Q) :
  c_data c = Some data -> c_timestamp c = Some ts ->
  fromisoformat ts = Ok t -> c_current_rate c = Some cr ->
  cache_attempt fromisoformat now_ (Stored c)
  = Some (pd_DataFrame data, cr,
          ("⚠️ Using cached data (" ++ format_1f (age_hours now_ t)
           ++ " hours old)")%string).
Proof.
  intros Hd Hts Ht Hcr.
  unfold cache_attempt, read_cache, json_load, getitem. cbn [bind].
  rewrite Hd. cbn [bind]. rewrite Hts. cbn [bind]. rewrite Ht. cbn [bind].
  rewrite Hcr. reflexivity.
Qed.




(** When the history fetch fails, the acquisition is the cache loader. *)
Lemma fetch_without_history (days : Z) (w : World) :
  fst (fetch_historical_data days w) = None ->
  fetch_real_exchange_rates fromisoformat days w
  = (load_cached_data fromisoformat (now w) (cache_file w), cache_file w).
Proof.
  intros H. unfold fetch_real_exchange_rates, fetch_live.
  destruct (get_current_rate w) as [[cr cd] msg].
  destruct (fetch_historical_data days w) as [df hist_msg].
  cbn [fst] in H. subst df. reflexivity.
Qed.

Lemma demo_current_rate_is_last (now_ : datetime) :
  iloc_last (map Rate (records (frame_of (generate_demo_data now_))))
  = Ok (rate_of (generate_demo_data now_)).
Proof. reflexivity. Qed.

(** C10.  The demo generator returns 30 points whatever is asked of the
    acquisition, and reports the rate of its last point; and for every
    number of days, when the history fetch fails and the cache yields
    nothing, the acquisition returns exactly the generator's result. *)
Theorem demo_fallback_has_thirty_points :
  forall (days : Z) (w : World),
    fst (fetch_historical_data days w) = None ->
    cache_attempt fromisoformat (now w) (cache_file w) = None ->
    let r := fst (fetch_real_exchange_rates fromisoformat days w) in
    r = generate_demo_data (now w)
    /\ df_len (frame_of r) = 30%nat
    /\ iloc_last (map Rate (records (frame_of r))) = Ok (rate_of r)
    /\ label_of r = "📊 Demo mode (realistic rates)".
Proof.
  intros days w Hhist Hcache r. subst r.
  rewrite (fetch_without_history days w Hhist). cbn [fst].
  unfold load_cached_data. rewrite Hcache.
  split; [reflexivity|]. split; [|split].
  - unfold df_len. rewrite demo_records, length_map, length_seq. reflexivity.
  - apply demo_current_rate_is_last.
  - reflexivity.
Qed.

Lemma demo_frame_nonempty (now_ : datetime) :
  df_empty (frame_of (generate_demo_data now_)) = false.
Proof. reflexivity. Qed.

Lemma load_cached_data_nonempty (now_ : datetime) (f : CacheFile) :
  (forall c, f = Stored c -> c_data c <> Some []) ->
  df_empty (frame_of (load_cached_data fromisoformat now_ f)) = false.
Proof.
  intros Hf. unfold load_cached_data.
  destruct (cache_attempt fromisoformat now_ f) as [r|] eqn:E;
    [|apply demo_frame_nonempty].
  destruct f as [| | |c]; try discriminate E.
  specialize (Hf c eq_refl).
  unfold cache_attempt, read_cache, json_load, getitem in E.
  cbn [bind] in E.
  destruct (c_data c) as [data|]; [|discriminate E]. cbn [bind] in E.
  destruct (c_timestamp c) as [ts|]; [|discriminate E]. cbn [bind] in E.
  destruct (fromisoformat ts) as [t|]; [|discriminate E]. cbn [bind] in E.
  destruct (c_current_rate c) as [cr|]; [|discriminate E].
  cbn [bind] in E. inversion E; subst r.
  destruct data; [congruence|reflexivity].
Qed.

(** Where the guarantee of a non-empty series does hold: everywhere except
    on a cache record whose data array is empty. *)
Lemma acquisition_nonempty_unless_cache_is_empty (days : Z) (w : World) :
  (forall c, cache_file w = Stored c -> c_data c <> Some []) ->
  (forall c, write_fault w = Some (Stored c) -> c_data c <> Some []) ->
  df_empty (frame_of (fst (fetch_real_exchange_rates fromisoformat days w)))
  = false.
Proof.
  intros Hc Hw.
  pose proof (load_cached_data_nonempty (now w) (cache_file w) Hc) as Hload.
  unfold fetch_real_exchange_rates, fetch_live.
  destruct (get_current_rate w) as [[cr cd] msg].
  destruct (fetch_historical_data days w) as [[df|] hist_msg];
    [|exact Hload].
  destruct (df_empty df) eqn:Ee; cbn [negb]; [exact Hload|].
  destruct (rate_or cr _) as [rate_|e]; cbn [bind]; [|exact Hload].
  destruct (date_or cd _) as [date_|e]; cbn [bind]; [|exact Hload].
  unfold write_cache.
  destruct (write_fault w) as [left_behind|] eqn:Ew; cbn [fst].
  - apply load_cached_data_nonempty. intros c ->. apply Hw. reflexivity.
  - exact Ee.
Qed.

End CacheAndAcquisition.


Lemma demo_fallback_has_thirty_points_witness :
  fst (fetch_real_exchange_rates fromisoformat_basic 7 world_down)
  = generate_demo_data sample_now
  /\ df_len (frame_of (fst (fetch_real_exchange_rates fromisoformat_basic 7
                                                     world_down)))
     = 30%nat.
Proof.
  destruct (demo_fallback_has_thirty_points fromisoformat_basic 7 world_down)
    as (H & Hlen & _).
  - reflexivity.
  - reflexivity.
  - split; [exact H | exact Hlen].
Defined.

(** C3, on the failing input.  With the providers down and a cache file
    holding a complete record whose data array is empty, the acquisition
    returns the empty series of the cache (the live path does check
    [df.empty]; the cache path does not), and the dashboard's next step
    raises on it. *)
Theorem acquisition_returns_empty_series_from_cache :
  let r := fst (fetch_real_exchange_rates fromisoformat_basic 30
                                          world_empty_cache) in
  df_empty (frame_of r) = true
  /\ df_len (frame_of r) = 0%nat
  /\ label_of r = "⚠️ Using cached data (27.1 hours old)"
  /\ refresh_recommendation fromisoformat_basic world_empty_cache
     = Raise KeyError.
Proof. vm_compute. repeat split. Qed.

(* ------------------------------------------------------------------ *)
(** ** The model at work                                                *)
(* ------------------------------------------------------------------ *)

(** A failed cache write sends the acquisition to the cache loader, on the
    file the write left behind. *)
Lemma fetch_with_write_fault (fromisoformat : string -> result datetime)
      (days : Z) (w : World) (left_behind : CacheFile) :
  write_fault w = Some left_behind ->
  fst (fetch_historical_data days w) <> None ->
  fetch_real_exchange_rates fromisoformat days w
  = (load_cached_data fromisoformat (now w) left_behind, left_behind).
Proof.
  intros Hw Hh. unfold fetch_real_exchange_rates, fetch_live.
  destruct (get_current_rate w) as [[cr cd] msg].
  unfold fetch_historical_data in *.
  destruct (history_response w days) as [items|]; [|contradiction].
  destruct (history_records items) as [|p data] eqn:E; [contradiction|].
  cbn [fst df_empty pd_DataFrame records negb].
  unfold col_Rate, col_Date. cbn [records].
  destruct (iloc_last_returns (map Rate (p :: data))) as (x & Hx);
    [discriminate|].
  destruct (iloc_last_returns (map Date (p :: data))) as (y & Hy);
    [discriminate|].
  change (records (pd_DataFrame (p :: data))) with (p :: data).
  cbn [bind]. rewrite Hx, Hy.
  destruct (rate_or cr (Ok x)) as [rate_|e] eqn:Er.
  - destruct (date_or cd (Ok y)) as [date_|e] eqn:Ed.
    + cbn [bind]. unfold write_cache. rewrite Hw. reflexivity.
    + unfold date_or in Ed. destruct cd as [s|]; [|discriminate Ed].
      destruct (String.eqb s ""); discriminate Ed.
  - unfold rate_or in Er. destruct cr as [r|]; [|discriminate Er].
    destruct (negb (Qeq_bool r 0)); discriminate Er.
Qed.

Example isoformat_sample_now :
  isoformat sample_now = "2026-01-02T03:04:05.000123"
  /\ fromisoformat_basic (isoformat sample_now) = Ok sample_now
  /\ fromisoformat_basic "not-a-date" = Raise ValueError.
Proof. vm_compute. repeat split. Qed.

Example format_1f_samples :
  format_1f 0.25 = "0.2" /\ format_1f 0.75 = "0.8"
  /\ format_1f (- 0.04) = "-0.0" /\ format_1f 27.068 = "27.1".
Proof. vm_compute. repeat split. Qed.

(** A live refresh: the first provider's rate wins, the history keeps the
    days that carry an ILS rate, rounded to four decimals, and the cache
    file is overwritten with the new record. *)
Example live_refresh_sample :
  fetch_real_exchange_rates fromisoformat_basic 30 world_live
  = ((pd_DataFrame [mkPoint "2025-12-31" 3.0811; mkPoint "2026-01-02" 3.0900],
      3.09, "✅ Bank of Israel (Official)"),
     Stored {| c_timestamp := Some "2026-01-02T03:04:05.000123";
               c_data := Some [mkPoint "2025-12-31" 3.0811;
                               mkPoint "2026-01-02" 3.0900];
               c_current_rate := Some 3.09;
               c_current_date := Some "2026-01-02" |}).
Proof. vm_compute. reflexivity. Qed.

(** The backtest on the sample frame: 1000 USD become 4000 ILS at rate 4
    and 4000 USD at rate 1. *)
Example sample_backtest :
  exists profit_usd profit_pct ts pv,
    snd (calculate_trading_profit sample_frame 1000)
    = Ok (profit_usd, Some profit_pct, ts, pv)
    /\ profit_usd == 3000 /\ profit_pct == 300
    /\ map action ts = [BUY; SELL]
    /\ map rate ts = [4; 1]
    /\ length pv = 9%nat.
Proof.
  do 4 eexists. split; [vm_compute; reflexivity|].
  repeat split.
Qed.

(** Without the indicator columns the dashboard could not go on: the frame
    the acquisition returns never has them. *)
Lemma acquired_frame_has_no_indicators
      (fromisoformat : string -> result datetime) (days : Z) (w : World) :
  SMA_7 (frame_of (fst (fetch_real_exchange_rates fromisoformat days w)))
  = None.
Proof.
  assert (Hload : forall f,
             SMA_7 (frame_of (load_cached_data fromisoformat (now w) f))
             = None).
  { intros f. unfold load_cached_data, cache_attempt, read_cache, json_load,
      getitem.
    destruct f as [| | |c]; try reflexivity. cbn [bind].
    destruct (c_data c); cbn [bind]; [|reflexivity].
    destruct (c_timestamp c); cbn [bind]; [|reflexivity].
    destruct (fromisoformat s); cbn [bind]; [|reflexivity].
    destruct (c_current_rate c); reflexivity. }
  unfold fetch_real_exchange_rates, fetch_live.
  destruct (get_current_rate w) as [[cr cd] msg].
  unfold fetch_historical_data.
  destruct (history_response w days) as [items|]; [|apply Hload].
  destruct (history_records items) as [|p data]; [apply Hload|].
  cbn [df_empty pd_DataFrame records negb].
  destruct (rate_or cr _) as [rate_|e]; cbn [bind]; [|apply Hload].
  destruct (date_or cd _) as [date_|e]; cbn [bind]; [|apply Hload].
  unfold write_cache.
  destruct (write_fault w); cbn [fst]; [apply Hload|reflexivity].
Qed.

(* ================================================================== *)
(** * Further properties of the backtest                                *)
(* ================================================================== *)

(** What a returning crossover branch has done. *)
Lemma crossover_inv (sma7 sma14 : list Q) (i : nat) (row : Row)
      (st st1 : Sim) :
  crossover sma7 sma14 i row st = Ok st1 ->
  st1 = st
  \/ ((0 < i)%nat /\ row_SMA_14 row < row_SMA_7 row /\ 0 < usd_balance st
      /\ st1 = {| usd_balance := 0;
                  nis_balance := usd_balance st * row_Rate row;
                  trades := trades st ++
                            [mkTrade (row_Date row) BUY (row_Rate row)
                                     (usd_balance st)
                                     (usd_balance st * row_Rate row)];
                  portfolio_value := portfolio_value st |})
  \/ ((0 < i)%nat /\ row_SMA_7 row < row_SMA_14 row /\ 0 < nis_balance st
      /\ ~ row_Rate row == 0
      /\ st1 = {| usd_balance := nis_balance st / row_Rate row;
                  nis_balance := 0;
                  trades := trades st ++
                            [mkTrade (row_Date row) SELL (row_Rate row)
                                     (nis_balance st / row_Rate row)
                                     (nis_balance st)];
                  portfolio_value := portfolio_value st |}).
Proof.
  unfold crossover.
  destruct (Nat.ltb_spec 0 i) as [Hi|_];
    [|intros H; inversion H; left; reflexivity].
  destruct (loc sma7 (i - 1)) as [p7|]; [|discriminate].
  destruct (loc sma14 (i - 1)) as [p14|]; [|discriminate].
  cbn [bind].
  destruct (Qlt_bool_spec (row_SMA_14 row) (row_SMA_7 row)) as [E1|E1];
    destruct (Qle_bool p7 p14);
    destruct (Qlt_bool_spec 0 (usd_balance st)) as [E3|E3]; cbn [andb].
  1: { intros H; inversion H. right. left. repeat split; auto. }
  all: destruct (Qlt_bool_spec (row_SMA_7 row) (row_SMA_14 row)) as [E4|E4];
       destruct (Qle_bool p14 p7);
       destruct (Qlt_bool_spec 0 (nis_balance st)) as [E6|E6]; cbn [andb].
  all: try (intros H; inversion H; left; reflexivity).
  all: unfold py_div;
       destruct (Qeq_bool (row_Rate row) 0) eqn:Er; [discriminate|];
       cbn [bind]; intros H; inversion H; right; right;
       repeat split; auto;
       intros Hz; apply Qeq_bool_iff in Hz; congruence.
Qed.

(** What a returning iteration has done. *)
Lemma loop_body_inv (sma7 sma14 : list Q) (i : nat) (row : Row)
      (st st' : Sim) :
  loop_body sma7 sma14 (i, row) st = Ok st' ->
  ~ row_Rate row == 0
  /\ exists st1,
       crossover sma7 sma14 i row st = Ok st1
       /\ st' = {| usd_balance := usd_balance st1;
                   nis_balance := nis_balance st1;
                   trades := trades st1;
                   portfolio_value :=
                     portfolio_value st1
                     ++ [usd_balance st1 + nis_balance st1 / row_Rate row] |}.
Proof.
  unfold loop_body. intros H.
  apply bind_ok in H. destruct H as (st1 & Hc & H).
  unfold py_div in H.
  destruct (Qeq_bool (row_Rate row) 0) eqn:Er; [discriminate H|].
  cbn [bind] in H. inversion H. split.
  - intros Hz. apply Qeq_bool_iff in Hz. congruence.
  - exists st1. split; [exact Hc|reflexivity].
Qed.

(** The only exception an iteration raises on a well-formed frame. *)
Lemma loop_body_raises (sma7 sma14 : list Q) (i : nat) (row : Row)
      (st : Sim) (e : exn) :
  (i <= length sma7)%nat -> (i <= length sma14)%nat ->
  loop_body sma7 sma14 (i, row) st = Raise e ->
  e = ZeroDivisionError /\ row_Rate row == 0.
Proof.
  intros H7 H14. unfold loop_body.
  destruct (Qeq_bool (row_Rate row) 0) eqn:Er.
  - intros H. assert (Hz : row_Rate row == 0) by (apply Qeq_bool_iff; exact Er).
    split; [|exact Hz].
    destruct (crossover sma7 sma14 i row st) as [st1|e1] eqn:Ec.
    + cbn [bind] in H. unfold py_div in H. rewrite Er in H.
      cbn [bind] in H. congruence.
    + cbn [bind] in H. inversion H; subst e1. clear H.
      unfold crossover in Ec.
      destruct (0 <? i)%nat eqn:Ei; [|discriminate Ec].
      apply Nat.ltb_lt in Ei.
      rewrite (loc_nth sma7 (i - 1)) in Ec by lia.
      rewrite (loc_nth sma14 (i - 1)) in Ec by lia.
      cbn [bind] in Ec.
      destruct (_ && _ && _) in Ec; [discriminate Ec|].
      destruct (_ && _ && _) in Ec; [|discriminate Ec].
      unfold py_div in Ec. rewrite Er in Ec. cbn [bind] in Ec. congruence.
  - assert (Hr : ~ row_Rate row == 0).
    { intros Hz. apply Qeq_bool_iff in Hz. congruence. }
    destruct (crossover_returns sma7 sma14 i row st H7 H14 Hr) as (st1 & Hc).
    rewrite Hc. cbn [bind]. rewrite (py_div_ok _ _ Hr). discriminate.
Qed.

(** A property kept by every iteration is kept by the run. *)
Lemma run_rows_invariant (P : Sim -> Prop) (R : nat * Row -> Prop)
      (sma7 sma14 : list Q) :
  (forall ir st st', R ir -> P st ->
                     loop_body sma7 sma14 ir st = Ok st' -> P st') ->
  forall rows st st',
    Forall R rows -> P st -> run_rows sma7 sma14 rows st = Ok st' -> P st'.
Proof.
  intros Hstep. induction rows as [|ir rows IH]; intros st st' HR HP H.
  - inversion H; subst. exact HP.
  - simpl in H. apply bind_ok in H. destruct H as (st1 & Hb & H).
    inversion HR; subst.
    apply (IH st1 st'); auto. eapply Hstep; eauto.
Qed.

Lemma iterrows_from_In (recs : list RatePoint) :
  forall k sma7 sma14 ir,
    In ir (iterrows_from k recs sma7 sma14) ->
    exists p, In p recs /\ row_Date (snd ir) = Date p
              /\ row_Rate (snd ir) = Rate p.
Proof.
  induction recs as [|r recs IH]; intros k sma7 sma14 ir H.
  - destruct H.
  - destruct sma7 as [|a sma7]; [destruct H|].
    destruct sma14 as [|b sma14]; [destruct H|].
    destruct H as [<-|H].
    + exists r. repeat split. left. reflexivity.
    + destruct (IH _ _ _ _ H) as (p & Hp & Hd & Hr).
      exists p. repeat split; auto. right. exact Hp.
Qed.

Lemma In_firstn {A : Type} (n : nat) (l : list A) (x : A) :
  In x (firstn n l) -> In x l.
Proof.
  intros H. rewrite <- (firstn_skipn n l). apply in_or_app. left. exact H.
Qed.

(** The rows of a prefix of the run satisfy what the records satisfy. *)
Lemma prefix_rows_Forall (Q0 : RatePoint -> Prop) (recs : list RatePoint)
      (sma7 sma14 : list Q) (n : nat) :
  Forall Q0 recs ->
  Forall (fun ir => exists p, Q0 p /\ row_Date (snd ir) = Date p
                              /\ row_Rate (snd ir) = Rate p)
         (firstn n (iterrows recs sma7 sma14)).
Proof.
  intros H. rewrite Forall_forall in *. intros ir Hin.
  apply In_firstn in Hin.
  destruct (iterrows_from_In recs 0 sma7 sma14 ir Hin) as (p & Hp & Hd & Hr).
  exists p. auto.
Qed.

(** Induction along the prefixes of the run. *)
Lemma backtest_upto_ind (recs : list RatePoint) (sma7 sma14 : list Q)
      (initial_usd : Q) (P : nat -> Sim -> Prop) :
  length sma7 = length recs -> length sma14 = length recs ->
  P 0%nat (sim_init initial_usd) ->
  (forall i st st',
      (i < length recs)%nat -> P i st ->
      backtest_upto i recs sma7 sma14 initial_usd = Ok st ->
      loop_body sma7 sma14
        (i, mkRow (Date (nth i recs default_point))
                  (Rate (nth i recs default_point))
                  (nth i sma7 0) (nth i sma14 0)) st = Ok st' ->
      P (S i) st') ->
  forall n st,
    (n <= length recs)%nat ->
    backtest_upto n recs sma7 sma14 initial_usd = Ok st -> P n st.
Proof.
  intros H7 H14 H0 Hstep. induction n as [|n IH]; intros st Hn Hst.
  - inversion Hst; subst. exact H0.
  - rewrite (backtest_upto_S recs sma7 sma14 initial_usd n H7 H14) in Hst
      by lia.
    apply bind_ok in Hst. destruct Hst as (st0 & Hst0 & Hb).
    apply (Hstep n st0 st); auto. apply IH; auto. lia.
Qed.

(* ------------------------------------------------------------------ *)
(** ** When the backtest raises, and what it returns                    *)
(* ------------------------------------------------------------------ *)

Lemma firstn_S_nth (recs : list RatePoint) (i : nat) :
  (i < length recs)%nat ->
  firstn (S i) recs = firstn i recs ++ [nth i recs default_point].
Proof.
  intros Hi. apply firstn_S_nth_error.
  apply nth_error_nth'. exact Hi.
Qed.

Lemma backtest_ok_nonzero (recs : list RatePoint) (sma7 sma14 : list Q)
      (initial_usd : Q) (st : Sim) :
  length sma7 = length recs -> length sma14 = length recs ->
  backtest_loop recs sma7 sma14 initial_usd = Ok st ->
  nonzero_rates recs.
Proof.
  intros H7 H14 H. rewrite <- (backtest_upto_all _ _ _ _ H7 H14) in H.
  unfold nonzero_rates. rewrite <- (firstn_all recs).
  revert H.
  apply (backtest_upto_ind recs sma7 sma14 initial_usd
           (fun n _ => Forall (fun p => ~ Rate p == 0) (firstn n recs))
           H7 H14); [constructor | | lia].
  intros i s s' Hi IH _ Hb.
  apply loop_body_inv in Hb. destruct Hb as [Hr _].
  rewrite (firstn_S_nth recs i Hi). apply Forall_app. split; [exact IH|].
  constructor; [exact Hr|constructor].
Qed.

Lemma backtest_upto_raises (recs : list RatePoint) (sma7 sma14 : list Q)
      (initial_usd : Q) :
  length sma7 = length recs -> length sma14 = length recs ->
  forall n e,
    (n <= length recs)%nat ->
    backtest_upto n recs sma7 sma14 initial_usd = Raise e ->
    e = ZeroDivisionError /\ exists p, In p recs /\ Rate p == 0.
Proof.
  intros H7 H14. induction n as [|n IH]; intros e Hn H.
  - discriminate H.
  - rewrite (backtest_upto_S recs sma7 sma14 initial_usd n H7 H14) in H
      by lia.
    destruct (backtest_upto n recs sma7 sma14 initial_usd) as [st|e0].
    + cbn [bind] in H.
      apply loop_body_raises in H; [|lia|lia].
      destruct H as [-> Hz]. split; [reflexivity|].
      exists (nth n recs default_point). split; [|exact Hz].
      apply nth_In. lia.
    + cbn [bind] in H. inversion H; subst e0.
      apply IH; [lia|reflexivity].
Qed.

(** X1.  What the backtest does with its input: an empty frame raises
    [KeyError] and is left as it was; a non-empty frame makes the call
    return exactly when none of its rates is zero, and the only exception
    it can raise otherwise is [ZeroDivisionError]. *)
Theorem backtest_outcome_by_input :
  forall (df : DataFrame) (initial_usd : Q),
    (records df = [] ->
     calculate_trading_profit df initial_usd = (df, Raise KeyError))
    /\ (records df <> [] ->
        ((exists r, snd (calculate_trading_profit df initial_usd) = Ok r)
         <-> nonzero_rates (records df))
        /\ (forall e, snd (calculate_trading_profit df initial_usd) = Raise e
                      -> e = ZeroDivisionError
                         /\ exists p, In p (records df) /\ Rate p == 0)).
Proof.
  intros df initial_usd. split.
  - intros E. unfold calculate_trading_profit, col_Rate. rewrite E.
    reflexivity.
  - intros Hne.
    pose proof (rolling_lengths (records df) 7) as H7.
    pose proof (rolling_lengths (records df) 14) as H14.
    rewrite (calculate_trading_profit_result df initial_usd Hne).
    split; [split|].
    + intros (r & Hr). apply bind_ok in Hr. destruct Hr as (st & Hst & _).
      exact (backtest_ok_nonzero _ _ _ _ _ H7 H14 Hst).
    + intros Hnz.
      destruct (calculate_trading_profit_returns df initial_usd Hne Hnz)
        as (st & p & pct & _ & H).
      rewrite (calculate_trading_profit_result df initial_usd Hne) in H.
      eauto.
    + intros e H.
      destruct (backtest_loop (records df) _ _ initial_usd) as [st|e0] eqn:El.
      * cbn [bind] in H.
        destruct (iloc_last_returns (map Rate (records df))) as (x & Hx).
        { destruct (records df); [congruence|discriminate]. }
        rewrite Hx in H. discriminate H.
      * cbn [bind] in H. inversion H; subst e0.
        rewrite <- (backtest_upto_all _ _ _ _ H7 H14) in El.
        exact (backtest_upto_raises _ _ _ _ H7 H14 _ _ (Nat.le_refl _) El).
Qed.

Lemma backtest_outcome_by_input_witness :
  calculate_trading_profit (pd_DataFrame []) 1000
  = (pd_DataFrame [], Raise KeyError)
  /\ snd (calculate_trading_profit (frame_of_rates [3; 0; 3]) 1000)
     = Raise ZeroDivisionError
  /\ exists r, snd (calculate_trading_profit sample_frame 1000) = Ok r.
Proof.
  split; [|split].
  - apply (proj1 (backtest_outcome_by_input (pd_DataFrame []) 1000)).
    reflexivity.
  - destruct (snd (calculate_trading_profit (frame_of_rates [3; 0; 3]) 1000))
      as [r|e] eqn:E.
    + vm_compute in E. discriminate E.
    + f_equal.
      apply (proj2 (proj2 (backtest_outcome_by_input
                             (frame_of_rates [3; 0; 3]) 1000)
                          ltac:(discriminate)) e E).
  - apply (proj1 (proj2 (backtest_outcome_by_input sample_frame 1000)
                        ltac:(discriminate))).
    unfold nonzero_rates. nonzero_list.
Defined.

Lemma crossover_keeps_trajectory (sma7 sma14 : list Q) (i : nat) (row : Row)
      (st st1 : Sim) :
  crossover sma7 sma14 i row st = Ok st1 ->
  portfolio_value st1 = portfolio_value st.
Proof.
  intros H. apply crossover_inv in H.
  destruct H as [-> | [(_ & _ & _ & ->) | (_ & _ & _ & _ & ->)]];
    reflexivity.
Qed.

Lemma iloc_last_snoc {A : Type} (l : list A) (x : A) :
  iloc_last (l ++ [x]) = Ok x.
Proof. unfold iloc_last. rewrite rev_unit. reflexivity. Qed.

Lemma iloc_last_nth (recs : list RatePoint) :
  recs <> [] ->
  iloc_last (map Rate recs)
  = Ok (Rate (nth (length recs - 1) recs default_point)).
Proof.
  intros Hne. destruct (exists_last Hne) as (l & x & ->).
  rewrite map_app, length_app. simpl.
  rewrite iloc_last_snoc.
  replace (length l + 1 - 1)%nat with (length l) by lia.
  rewrite app_nth2 by lia. rewrite Nat.sub_diag. reflexivity.
Qed.

(** After [n] iterations the trajectory has [n] entries, the last of them
    the holdings valued at the rate of row [n-1]. *)
Lemma trajectory_upto (recs : list RatePoint) (sma7 sma14 : list Q)
      (initial_usd : Q) :
  length sma7 = length recs -> length sma14 = length recs ->
  forall n st,
    (n <= length recs)%nat ->
    backtest_upto n recs sma7 sma14 initial_usd = Ok st ->
    length (portfolio_value st) = n
    /\ ((0 < n)%nat ->
        last (portfolio_value st) 0
        = usd_balance st
          + nis_balance st / Rate (nth (n - 1) recs default_point)).
Proof.
  intros H7 H14.
  apply (backtest_upto_ind recs sma7 sma14 initial_usd
           (fun n st =>
              length (portfolio_value st) = n
              /\ ((0 < n)%nat ->
                  last (portfolio_value st) 0
                  = usd_balance st
                    + nis_balance st
                      / Rate (nth (n - 1) recs default_point)))
           H7 H14).
  - split; [reflexivity|lia].
  - intros i st st' Hi [IHl _] _ Hb.
    apply loop_body_inv in Hb. destruct Hb as (_ & st1 & Hc & ->).
    cbn [portfolio_value usd_balance nis_balance row_Rate].
    rewrite (crossover_keeps_trajectory _ _ _ _ _ _ Hc).
    split.
    + rewrite length_app. simpl. lia.
    + intros _. rewrite last_last.
      replace (S i - 1)%nat with i by lia. reflexivity.
Qed.

(** X2.  Whenever the backtest returns, its outputs fit together: the
    trajectory has one entry per row, the profit is the last entry minus
    the stake, and the percentage is the profit over the stake times 100,
    or not a number when the stake is zero. *)
Theorem backtest_outputs_fit_together :
  forall (df : DataFrame) (initial_usd profit_usd : Q)
         (profit_pct : option Q) (ts : list Trade) (pv : list Q),
    snd (calculate_trading_profit df initial_usd)
    = Ok (profit_usd, profit_pct, ts, pv) ->
    length pv = df_len df
    /\ profit_usd = last pv 0 - initial_usd
    /\ (~ initial_usd == 0 ->
        profit_pct = Some (profit_usd / initial_usd * 100))
    /\ (initial_usd == 0 -> profit_pct = None).
Proof.
  intros df initial_usd profit_usd profit_pct ts pv H.
  assert (Hne : records df <> []).
  { intros E. unfold calculate_trading_profit, col_Rate in H.
    rewrite E in H. discriminate H. }
  pose proof (rolling_lengths (records df) 7) as H7.
  pose proof (rolling_lengths (records df) 14) as H14.
  rewrite (calculate_trading_profit_result df initial_usd Hne) in H.
  apply bind_ok in H. destruct H as (st & Hst & H).
  rewrite (iloc_last_nth (records df) Hne) in H. cbn [bind] in H.
  inversion H; subst; clear H.
  rewrite <- (backtest_upto_all _ _ _ _ H7 H14) in Hst.
  destruct (trajectory_upto _ _ _ initial_usd H7 H14 _ _
              (Nat.le_refl _) Hst) as [Hlen Hlast].
  assert (Hpos : (0 < length (records df))%nat).
  { destruct (records df); [congruence|simpl; lia]. }
  rewrite (Hlast Hpos).
  split; [exact Hlen|]. split; [reflexivity|].
  unfold np_div. split.
  - intros Hnz. destruct (Qeq_bool initial_usd 0) eqn:Eq.
    + apply Qeq_bool_iff in Eq. contradiction.
    + reflexivity.
  - intros Hz. apply Qeq_bool_iff in Hz. rewrite Hz. reflexivity.
Qed.

Lemma backtest_outputs_fit_together_witness :
  exists profit_usd profit_pct ts pv,
    snd (calculate_trading_profit sample_frame 1000)
    = Ok (profit_usd, profit_pct, ts, pv)
    /\ length pv = 9%nat
    /\ profit_usd = last pv 0 - 1000
    /\ profit_pct = Some (profit_usd / 1000 * 100).
Proof.
  destruct (snd (calculate_trading_profit sample_frame 1000))
    as [[[[p pct] ts] pv]|e] eqn:E; [|vm_compute in E; discriminate E].
  destruct (backtest_outputs_fit_together sample_frame 1000 p pct ts pv E)
    as (Hl & Hp & Hpct & _).
  exists p, pct, ts, pv. repeat split; auto.
  apply Hpct. unfold Qeq. cbn. discriminate.
Defined.

(* ------------------------------------------------------------------ *)
(** ** Holdings                                                         *)
(* ------------------------------------------------------------------ *)

Lemma one_currency_step (sma7 sma14 : list Q) (ir : nat * Row)
      (st st' : Sim) :
  usd_balance st = 0 \/ nis_balance st = 0 ->
  loop_body sma7 sma14 ir st = Ok st' ->
  usd_balance st' = 0 \/ nis_balance st' = 0.
Proof.
  intros HP Hb. destruct ir as [i row].
  apply loop_body_inv in Hb. destruct Hb as (_ & st1 & Hc & ->).
  cbn [usd_balance nis_balance].
  apply crossover_inv in Hc.
  destruct Hc as [-> | [(_ & _ & _ & ->) | (_ & _ & _ & _ & ->)]];
    cbn [usd_balance nis_balance]; auto.
Qed.

Lemma one_currency_upto (recs : list RatePoint) (sma7 sma14 : list Q)
      (initial_usd : Q) (n : nat) (st : Sim) :
  backtest_upto n recs sma7 sma14 initial_usd = Ok st ->
  usd_balance st = 0 \/ nis_balance st = 0.
Proof.
  unfold backtest_upto.
  apply (run_rows_invariant
           (fun s => usd_balance s = 0 \/ nis_balance s = 0)
           (fun _ => True) sma7 sma14).
  - intros ir s s' _. apply one_currency_step.
  - apply Forall_forall. auto.
  - right. reflexivity.
Qed.

Lemma Qdiv_pos (a b : Q) : 0 < a -> 0 < b -> 0 < a / b.
Proof.
  intros Ha Hb. apply Qlt_shift_div_l; [exact Hb|]. lra.
Qed.

Lemma invested_step (sma7 sma14 : list Q) (ir : nat * Row) (st st' : Sim) :
  0 < row_Rate (snd ir) ->
  ((0 < usd_balance st /\ nis_balance st = 0)
   \/ (usd_balance st = 0 /\ 0 < nis_balance st))
  /\ Forall (fun v => 0 < v) (portfolio_value st) ->
  loop_body sma7 sma14 ir st = Ok st' ->
  ((0 < usd_balance st' /\ nis_balance st' = 0)
   \/ (usd_balance st' = 0 /\ 0 < nis_balance st'))
  /\ Forall (fun v => 0 < v) (portfolio_value st').
Proof.
  destruct ir as [i row]. cbn [snd]. intros Hr [Hhold Hpv] Hb.
  apply loop_body_inv in Hb. destruct Hb as (_ & st1 & Hc & ->).
  cbn [usd_balance nis_balance portfolio_value].
  assert (H1 : ((0 < usd_balance st1 /\ nis_balance st1 = 0)
                \/ (usd_balance st1 = 0 /\ 0 < nis_balance st1))
               /\ portfolio_value st1 = portfolio_value st).
  { apply crossover_inv in Hc.
    destruct Hc as [-> | [(_ & _ & Hu & ->) | (_ & _ & Hn & _ & ->)]];
      cbn [usd_balance nis_balance portfolio_value].
    - auto.
    - split; [|reflexivity]. right. split; [reflexivity|].
      apply Qmult_lt_0_compat; assumption.
    - split; [|reflexivity]. left. split; [|reflexivity].
      apply Qdiv_pos; assumption. }
  destruct H1 as [Hhold1 Epv]. split; [exact Hhold1|].
  rewrite Epv. apply Forall_app. split; [exact Hpv|].
  constructor; [|constructor].
  destruct Hhold1 as [[Hu ->] | [-> Hn]].
  - setoid_replace (usd_balance st1 + 0 / row_Rate row)
      with (usd_balance st1) by (unfold Qdiv; ring).
    exact Hu.
  - pose proof (Qdiv_pos _ _ Hn Hr). lra.
Qed.

(** X3.  At every point of the run the portfolio is wholly in one
    currency: one of the two balances is zero.  With positive rates and a
    positive stake exactly one balance is positive, and every entry of the
    trajectory so far is positive. *)
Theorem portfolio_wholly_in_one_currency :
  forall (recs : list RatePoint) (sma7 sma14 : list Q) (initial_usd : Q)
         (n : nat) (st : Sim),
    backtest_upto n recs sma7 sma14 initial_usd = Ok st ->
    (usd_balance st = 0 \/ nis_balance st = 0)
    /\ (positive_rates recs -> 0 < initial_usd ->
        ((0 < usd_balance st /\ nis_balance st = 0)
         \/ (usd_balance st = 0 /\ 0 < nis_balance st))
        /\ Forall (fun v => 0 < v) (portfolio_value st)).
Proof.
  intros recs sma7 sma14 initial_usd n st H. split.
  - exact (one_currency_upto _ _ _ _ _ _ H).
  - intros Hpos Hinit. revert H. unfold backtest_upto.
    apply (run_rows_invariant
             (fun s => ((0 < usd_balance s /\ nis_balance s = 0)
                        \/ (usd_balance s = 0 /\ 0 < nis_balance s))
                       /\ Forall (fun v => 0 < v) (portfolio_value s))
             (fun ir => 0 < row_Rate (snd ir)) sma7 sma14).
    + intros ir s s'. apply invested_step.
    + eapply Forall_impl;
        [|exact (prefix_rows_Forall (fun p => 0 < Rate p) recs sma7 sma14 n
                   Hpos)].
      intros ir (p & Hp & _ & Hr). rewrite Hr. exact Hp.
    + split; [|constructor]. left. split; [exact Hinit|reflexivity].
Qed.

Lemma portfolio_wholly_in_one_currency_witness :
  exists st,
    backtest_upto 8 (records sample_frame)
                  (rolling_mean 7 (map Rate (records sample_frame)))
                  (rolling_mean 14 (map Rate (records sample_frame))) 1000
    = Ok st
    /\ usd_balance st = 0 /\ 0 < nis_balance st
    /\ Forall (fun v => 0 < v) (portfolio_value st).
Proof.
  assert (H : exists st,
             backtest_upto 8 (records sample_frame)
               (rolling_mean 7 (map Rate (records sample_frame)))
               (rolling_mean 14 (map Rate (records sample_frame))) 1000
             = Ok st /\ usd_balance st = 0).
  { eexists. split; lazy; reflexivity. }
  destruct H as (st & Hst & Hu).
  destruct (portfolio_wholly_in_one_currency _ _ _ _ _ _ Hst)
    as [_ Hpos].
  destruct Hpos as [[[Hu' _] | [_ Hn]] Hpv].
  - unfold positive_rates. repeat constructor.
  - reflexivity.
  - rewrite Hu in Hu'. discriminate Hu'.
  - exists st. auto.
Defined.

(* ------------------------------------------------------------------ *)
(** ** Where trades can happen                                          *)
(* ------------------------------------------------------------------ *)

(** Up to index 6 both windows hold the same points. *)
Lemma short_windows_agree (values : list Q) (i : nat) :
  (i < 7)%nat -> (i < length values)%nat ->
  nth i (rolling_mean 7 values) 0 == nth i (rolling_mean 14 values) 0.
Proof.
  intros Hi Hl.
  rewrite (rolling_mean_short 7 14 values i Hi ltac:(lia) Hl).
  reflexivity.
Qed.

(** While the two columns agree, the stake stays in USD. *)
Lemma flat_prefix_upto (recs : list RatePoint) (sma7 sma14 : list Q)
      (initial_usd : Q) :
  length sma7 = length recs -> length sma14 = length recs ->
  nonzero_rates recs ->
  forall n,
    (n <= length recs)%nat ->
    (forall i, (i < n)%nat -> nth i sma7 0 == nth i sma14 0) ->
    exists pv,
      backtest_upto n recs sma7 sma14 initial_usd
      = Ok {| usd_balance := initial_usd; nis_balance := 0;
              trades := []; portfolio_value := pv |}
      /\ length pv = n
      /\ Forall (fun v => v == initial_usd) pv.
Proof.
  intros H7 H14 Hnz. induction n as [|n IH]; intros Hn Hflat.
  - exists []. repeat split. constructor.
  - destruct (IH ltac:(lia) ltac:(intros i Hi; apply Hflat; lia))
      as (pv & Hst & Hlen & Hall).
    rewrite (backtest_upto_S recs sma7 sma14 initial_usd n H7 H14 ltac:(lia)).
    rewrite Hst. cbn [bind].
    set (row := mkRow (Date (nth n recs default_point))
                      (Rate (nth n recs default_point))
                      (nth n sma7 0) (nth n sma14 0)).
    assert (Hr : ~ row_Rate row == 0)
      by exact (nonzero_rates_nth recs n Hnz ltac:(lia)).
    assert (Hc := crossover_on_equal_averages sma7 sma14 n row
                    {| usd_balance := initial_usd; nis_balance := 0;
                       trades := []; portfolio_value := pv |}
                    ltac:(lia) ltac:(lia) (Hflat n ltac:(lia))).
    rewrite (loop_body_after_crossover _ _ _ _ _ _ Hr Hc).
    cbn [usd_balance nis_balance trades portfolio_value].
    eexists. split; [reflexivity|]. split.
    + rewrite length_app. simpl. lia.
    + apply Forall_app. split; [exact Hall|].
      constructor; [|constructor]. unfold Qdiv. ring.
Qed.

(** X5.  Nothing is traded during the first seven rows, whatever the
    rates: after [n <= 7] iterations the stake is still in USD and the
    trajectory so far repeats it; a series of at most seven points
    therefore comes back with no trade and no profit. *)
Theorem no_trade_in_first_seven_rows :
  forall (df : DataFrame) (initial_usd : Q),
    nonzero_rates (records df) ->
    (forall n, (n <= 7)%nat -> (n <= df_len df)%nat ->
       exists pv,
         backtest_upto n (records df)
                       (rolling_mean 7 (map Rate (records df)))
                       (rolling_mean 14 (map Rate (records df))) initial_usd
         = Ok {| usd_balance := initial_usd; nis_balance := 0;
                 trades := []; portfolio_value := pv |}
         /\ length pv = n
         /\ Forall (fun v => v == initial_usd) pv)
    /\ (records df <> [] -> (df_len df <= 7)%nat ->
        exists profit_usd profit_pct pv,
          snd (calculate_trading_profit df initial_usd)
          = Ok (profit_usd, profit_pct, [], pv)
          /\ profit_usd == 0
          /\ Forall (fun v => v == initial_usd) pv).
Proof.
  intros df initial_usd Hnz.
  pose proof (rolling_lengths (records df) 7) as H7.
  pose proof (rolling_lengths (records df) 14) as H14.
  assert (Hprefix : forall n, (n <= 7)%nat -> (n <= df_len df)%nat ->
             exists pv,
               backtest_upto n (records df)
                 (rolling_mean 7 (map Rate (records df)))
                 (rolling_mean 14 (map Rate (records df))) initial_usd
               = Ok {| usd_balance := initial_usd; nis_balance := 0;
                       trades := []; portfolio_value := pv |}
               /\ length pv = n
               /\ Forall (fun v => v == initial_usd) pv).
  { intros n Hn Hl.
    apply (flat_prefix_upto _ _ _ initial_usd H7 H14 Hnz n Hl).
    intros i Hi. apply short_windows_agree; [lia|].
    rewrite length_map. unfold df_len in Hl. lia. }
  split; [exact Hprefix|].
  intros Hne Hshort.
  destruct (Hprefix (df_len df) Hshort (Nat.le_refl _))
    as (pv & Hst & _ & Hall).
  unfold df_len in Hst. rewrite (backtest_upto_all _ _ _ _ H7 H14) in Hst.
  rewrite (calculate_trading_profit_result df initial_usd Hne), Hst.
  cbn [bind].
  destruct (iloc_last_returns (map Rate (records df))) as (x & Hx).
  { destruct (records df); [congruence|discriminate]. }
  rewrite Hx. cbn [bind usd_balance nis_balance trades portfolio_value].
  do 3 eexists. split; [reflexivity|]. split; [|exact Hall].
  unfold Qdiv. ring.
Qed.

Lemma no_trade_in_first_seven_rows_witness :
  (exists pv,
      backtest_upto 7 (records sample_frame)
                    (rolling_mean 7 (map Rate (records sample_frame)))
                    (rolling_mean 14 (map Rate (records sample_frame))) 1000
      = Ok {| usd_balance := 1000; nis_balance := 0;
              trades := []; portfolio_value := pv |})
  /\ exists profit_usd profit_pct pv,
       snd (calculate_trading_profit short_frame 1000)
       = Ok (profit_usd, profit_pct, [], pv)
       /\ profit_usd == 0.
Proof.
  split.
  - destruct (proj1 (no_trade_in_first_seven_rows sample_frame 1000
                       ltac:(unfold nonzero_rates; nonzero_list)) 7%nat)
      as (pv & H & _).
    + lia.
    + cbn. lia.
    + exists pv. exact H.
  - destruct (proj2 (no_trade_in_first_seven_rows short_frame 1000
                       ltac:(unfold nonzero_rates; nonzero_list)))
      as (p & pct & pv & H & Hp & _).
    + discriminate.
    + cbn. lia.
    + exists p, pct, pv. auto.
Defined.

Lemma crossover_trades_length (sma7 sma14 : list Q) (i : nat) (row : Row)
      (st st1 : Sim) :
  crossover sma7 sma14 i row st = Ok st1 ->
  (length (trades st1) <= S (length (trades st)))%nat.
Proof.
  intros H. apply crossover_inv in H.
  destruct H as [-> | [(_ & _ & _ & ->) | (_ & _ & _ & _ & ->)]];
    cbn [trades]; rewrite ?length_app; simpl; lia.
Qed.

(** X6.  A series of [n] points yields at most [n - 7] trades. *)
Theorem at_most_one_trade_per_row_after_the_seventh :
  forall (df : DataFrame) (initial_usd profit_usd : Q)
         (profit_pct : option Q) (ts : list Trade) (pv : list Q),
    snd (calculate_trading_profit df initial_usd)
    = Ok (profit_usd, profit_pct, ts, pv) ->
    (length ts <= df_len df - 7)%nat.
Proof.
  intros df initial_usd profit_usd profit_pct ts pv H.
  assert (Hne : records df <> []).
  { intros E. unfold calculate_trading_profit, col_Rate in H.
    rewrite E in H. discriminate H. }
  pose proof (rolling_lengths (records df) 7) as H7.
  pose proof (rolling_lengths (records df) 14) as H14.
  rewrite (calculate_trading_profit_result df initial_usd Hne) in H.
  apply bind_ok in H. destruct H as (st & Hst & H).
  apply bind_ok in H. destruct H as (x & _ & H).
  inversion H; subst; clear H.
  rewrite <- (backtest_upto_all _ _ _ _ H7 H14) in Hst.
  unfold df_len. revert Hst.
  apply (backtest_upto_ind (records df) _ _ initial_usd
           (fun n s => (length (trades s) <= n - 7)%nat) H7 H14);
    [simpl; lia| |lia].
  intros i s s' Hi IH _ Hb.
  apply loop_body_inv in Hb. destruct Hb as (_ & s1 & Hc & ->).
  cbn [trades].
  destruct (Nat.lt_ge_cases i 7) as [Hlt|Hge].
  - rewrite (crossover_on_equal_averages _ _ i _ s) in Hc.
    + inversion Hc; subst. lia.
    + lia.
    + lia.
    + cbn [row_SMA_7 row_SMA_14]. apply short_windows_agree; [exact Hlt|].
      rewrite length_map. exact Hi.
  - pose proof (crossover_trades_length _ _ _ _ _ _ Hc). lia.
Qed.

Lemma at_most_one_trade_per_row_after_the_seventh_witness :
  exists profit_usd profit_pct ts pv,
    snd (calculate_trading_profit sample_frame 1000)
    = Ok (profit_usd, profit_pct, ts, pv)
    /\ (length ts <= 2)%nat.
Proof.
  destruct (snd (calculate_trading_profit sample_frame 1000))
    as [[[[p pct] ts] pv]|e] eqn:E; [|vm_compute in E; discriminate E].
  exists p, pct, ts, pv. split; [reflexivity|].
  exact (at_most_one_trade_per_row_after_the_seventh
           sample_frame 1000 p pct ts pv E).
Defined.

Lemma idle_step (initial_usd : Q) (sma7 sma14 : list Q) (ir : nat * Row)
      (st st' : Sim) :
  initial_usd <= 0 ->
  usd_balance st = initial_usd /\ nis_balance st = 0 /\ trades st = []
  /\ Forall (fun v => v == initial_usd) (portfolio_value st) ->
  loop_body sma7 sma14 ir st = Ok st' ->
  usd_balance st' = initial_usd /\ nis_balance st' = 0 /\ trades st' = []
  /\ Forall (fun v => v == initial_usd) (portfolio_value st').
Proof.
  intros Hinit (Hu & Hn & Ht & Hpv) Hb. destruct ir as [i row].
  apply loop_body_inv in Hb. destruct Hb as (_ & st1 & Hc & ->).
  apply crossover_inv in Hc.
  destruct Hc as [-> | [(_ & _ & Hpos & _) | (_ & _ & Hpos & _)]].
  - cbn [usd_balance nis_balance trades portfolio_value].
    repeat split; auto.
    apply Forall_app. split; [exact Hpv|].
    constructor; [|constructor]. rewrite Hu, Hn. unfold Qdiv. ring.
  - rewrite Hu in Hpos. exfalso. exact (Qlt_not_le _ _ Hpos Hinit).
  - rewrite Hn in Hpos. discriminate Hpos.
Qed.

(** X7.  A stake that is not positive is never traded: whenever the
    backtest returns for it, there is no trade, no profit, and the
    trajectory repeats the stake. *)
Theorem nonpositive_stake_never_trades :
  forall (df : DataFrame) (initial_usd profit_usd : Q)
         (profit_pct : option Q) (ts : list Trade) (pv : list Q),
    initial_usd <= 0 ->
    snd (calculate_trading_profit df initial_usd)
    = Ok (profit_usd, profit_pct, ts, pv) ->
    ts = [] /\ profit_usd == 0 /\ Forall (fun v => v == initial_usd) pv.
Proof.
  intros df initial_usd profit_usd profit_pct ts pv Hinit H.
  assert (Hne : records df <> []).
  { intros E. unfold calculate_trading_profit, col_Rate in H.
    rewrite E in H. discriminate H. }
  rewrite (calculate_trading_profit_result df initial_usd Hne) in H.
  apply bind_ok in H. destruct H as (st & Hst & H).
  apply bind_ok in H. destruct H as (x & _ & H).
  inversion H; subst; clear H.
  assert (Hinv : usd_balance st = initial_usd /\ nis_balance st = 0
                 /\ trades st = []
                 /\ Forall (fun v => v == initial_usd) (portfolio_value st)).
  { revert Hst. unfold backtest_loop.
    apply (run_rows_invariant
             (fun s => usd_balance s = initial_usd /\ nis_balance s = 0
                       /\ trades s = []
                       /\ Forall (fun v => v == initial_usd)
                                 (portfolio_value s))
             (fun _ => True)).
    - intros ir s s' _. apply idle_step. exact Hinit.
    - apply Forall_forall. auto.
    - repeat split. constructor. }
  destruct Hinv as (Hu & Hn & Ht & Hpv).
  split; [exact Ht|]. split; [|exact Hpv].
  rewrite Hu, Hn. unfold Qdiv. ring.
Qed.

Lemma nonpositive_stake_never_trades_witness :
  exists profit_usd profit_pct pv,
    snd (calculate_trading_profit sample_frame (-5))
    = Ok (profit_usd, profit_pct, [], pv)
    /\ profit_usd == 0.
Proof.
  destruct (snd (calculate_trading_profit sample_frame (-5)))
    as [[[[p pct] ts] pv]|e] eqn:E; [|vm_compute in E; discriminate E].
  destruct (nonpositive_stake_never_trades sample_frame (-5) p pct ts pv)
    as (Ht & Hp & _).
  - unfold Qle. cbn. lia.
  - exact E.
  - subst ts. exists p, pct, pv. auto.
Defined.

(* ------------------------------------------------------------------ *)
(** ** The recorded trades                                              *)
(* ------------------------------------------------------------------ *)

Lemma run_rows_trades_subseq (sma7 sma14 : list Q)
      (rows : list (nat * Row)) :
  forall st st',
    run_rows sma7 sma14 rows st = Ok st' ->
    exists new,
      trades st' = trades st ++ new
      /\ Subseq (map trade_point new)
                (map (fun ir => mkPoint (row_Date (snd ir))
                                        (row_Rate (snd ir))) rows).
Proof.
  induction rows as [|[i row] rows IH]; intros st st' H.
  - inversion H; subst. exists []. split; [symmetry; apply app_nil_r|].
    constructor.
  - simpl in H. apply bind_ok in H. destruct H as (st0 & Hb & H).
    destruct (IH _ _ H) as (new & Hnew & Hsub).
    apply loop_body_inv in Hb. destruct Hb as (_ & st1 & Hc & ->).
    cbn [trades] in Hnew. apply crossover_inv in Hc.
    destruct Hc as [-> | [(_ & _ & _ & ->) | (_ & _ & _ & _ & ->)]];
      cbn [trades] in Hnew.
    + exists new. split; [exact Hnew|]. simpl. constructor. exact Hsub.
    + eexists (_ :: new). rewrite <- app_assoc in Hnew.
      split; [exact Hnew|]. simpl. apply Subseq_take. exact Hsub.
    + eexists (_ :: new). rewrite <- app_assoc in Hnew.
      split; [exact Hnew|]. simpl. apply Subseq_take. exact Hsub.
Qed.

Lemma iterrows_from_points (recs : list RatePoint) :
  forall k sma7 sma14,
    length sma7 = length recs -> length sma14 = length recs ->
    map (fun ir => mkPoint (row_Date (snd ir)) (row_Rate (snd ir)))
        (iterrows_from k recs sma7 sma14)
    = recs.
Proof.
  induction recs as [|[d r] recs IH]; intros k sma7 sma14 H7 H14.
  - reflexivity.
  - destruct sma7 as [|a sma7]; [discriminate H7|].
    destruct sma14 as [|b sma14]; [discriminate H14|].
    simpl in *. f_equal. apply IH; lia.
Qed.

Lemma backtest_loop_trades_subseq :
  forall (recs : list RatePoint) (initial_usd : Q) (st : Sim),
    backtest_loop recs (rolling_mean 7 (map Rate recs))
                  (rolling_mean 14 (map Rate recs)) initial_usd = Ok st ->
    Subseq (map trade_point (trades st)) recs.
Proof.
  intros recs initial_usd st Hst.
  unfold backtest_loop in Hst.
  destruct (run_rows_trades_subseq _ _ _ _ _ Hst) as (new & Hnew & Hsub).
  cbn [trades sim_init app] in Hnew. rewrite Hnew.
  unfold iterrows in Hsub.
  rewrite iterrows_from_points in Hsub by apply rolling_lengths.
  exact Hsub.
Qed.

(** X8.  The trades come out in the order of the series: read as points
    (date, rate), the trade list is the frame's list of points with some
    points left out. *)
Theorem trades_follow_the_series :
  forall (df : DataFrame) (initial_usd profit_usd : Q)
         (profit_pct : option Q) (ts : list Trade) (pv : list Q),
    snd (calculate_trading_profit df initial_usd)
    = Ok (profit_usd, profit_pct, ts, pv) ->
    Subseq (map trade_point ts) (records df).
Proof.
  intros df initial_usd profit_usd profit_pct ts pv H.
  assert (Hne : records df <> []).
  { intros E. unfold calculate_trading_profit, col_Rate in H.
    rewrite E in H. discriminate H. }
  rewrite (calculate_trading_profit_result df initial_usd Hne) in H.
  apply bind_ok in H. destruct H as (st & Hst & H).
  apply bind_ok in H. destruct H as (x & _ & H).
  inversion H; subst; clear H.
  exact (backtest_loop_trades_subseq _ _ _ Hst).
Qed.

Lemma trades_follow_the_series_witness :
  exists profit_usd profit_pct ts pv,
    snd (calculate_trading_profit sample_frame 1000)
    = Ok (profit_usd, profit_pct, ts, pv)
    /\ length ts = 2%nat
    /\ Subseq (map trade_point ts) (records sample_frame).
Proof.
  destruct (snd (calculate_trading_profit sample_frame 1000))
    as [[[[p pct] ts] pv]|e] eqn:E; [|vm_compute in E; discriminate E].
  exists p, pct, ts, pv. split; [reflexivity|]. split.
  - vm_compute in E. inversion E. reflexivity.
  - exact (trades_follow_the_series sample_frame 1000 p pct ts pv E).
Defined.

Lemma chained_snoc (l : list Trade) (b : Trade) :
  chained (l ++ [b])
  <-> chained l /\ match rev l with
                   | [] => True
                   | a :: _ => follows_on a b
                   end.
Proof.
  induction l as [|x t IH].
  - simpl. tauto.
  - destruct t as [|y t'].
    + simpl. tauto.
    + change (chained ((x :: y :: t') ++ [b]))
        with (follows_on x y /\ chained ((y :: t') ++ [b])).
      change (chained (x :: y :: t'))
        with (follows_on x y /\ chained (y :: t')).
      rewrite IH.
      change (rev (x :: y :: t')) with (rev (y :: t') ++ [x]).
      destruct (rev (y :: t')) as [|a r] eqn:E.
      * apply (f_equal (@length Trade)) in E.
        rewrite length_rev in E. discriminate E.
      * simpl. tauto.
Qed.

Lemma amounts_step (initial_usd : Q) (sma7 sma14 : list Q) (ir : nat * Row)
      (st st' : Sim) :
  amounts_invariant initial_usd st ->
  loop_body sma7 sma14 ir st = Ok st' ->
  amounts_invariant initial_usd st'.
Proof.
  intros (Hcons & Hch & Hhd & Hlast) Hb. destruct ir as [i row].
  apply loop_body_inv in Hb. destruct Hb as (_ & st1 & Hc & ->).
  unfold amounts_invariant. cbn [trades usd_balance nis_balance].
  apply crossover_inv in Hc.
  destruct Hc as [-> | [(_ & _ & Hu & ->) | (_ & _ & Hn & _ & ->)]];
    cbn [trades usd_balance nis_balance].
  - auto.
  - (* BUY *)
    rewrite rev_unit. cbn [action amount_nis].
    split; [|split; [|split; [|split; reflexivity]]].
    + apply Forall_app. split; [exact Hcons|].
      constructor; [reflexivity|constructor].
    + apply chained_snoc. split; [exact Hch|].
      destruct (rev (trades st)) as [|a r]; [exact I|].
      unfold follows_on. cbn [action amount_usd].
      destruct (action a).
      * destruct Hlast as [E _]. rewrite E in Hu. discriminate Hu.
      * destruct Hlast as [_ E]. exact E.
    + intros t rest E. destruct (trades st) as [|t0 rest0] eqn:Et.
      * simpl in E. inversion E. cbn [amount_usd].
        simpl in Hlast. exact (proj1 Hlast).
      * simpl in E. inversion E; subst t. exact (Hhd t0 rest0 eq_refl).
  - (* SELL *)
    rewrite rev_unit. cbn [action amount_usd].
    split; [|split; [|split; [|split; reflexivity]]].
    + apply Forall_app. split; [exact Hcons|].
      constructor; [reflexivity|constructor].
    + apply chained_snoc. split; [exact Hch|].
      destruct (rev (trades st)) as [|a r]; [exact I|].
      unfold follows_on. cbn [action amount_nis].
      destruct (action a).
      * destruct Hlast as [_ E]. exact E.
      * destruct Hlast as [E _]. rewrite E in Hn. discriminate Hn.
    + intros t rest E. destruct (trades st) as [|t0 rest0] eqn:Et.
      * simpl in Hlast. destruct Hlast as [_ E0].
        rewrite E0 in Hn. discriminate Hn.
      * simpl in E. inversion E; subst t. exact (Hhd t0 rest0 eq_refl).
Qed.

(** X9.  No partial conversions: in every recorded trade the two amounts
    agree with the trade's rate, the first trade converts exactly the
    stake, and every later trade converts exactly what the trade before it
    produced. *)
Theorem trades_convert_whole_balances :
  forall (df : DataFrame) (initial_usd profit_usd : Q)
         (profit_pct : option Q) (ts : list Trade) (pv : list Q),
    snd (calculate_trading_profit df initial_usd)
    = Ok (profit_usd, profit_pct, ts, pv) ->
    Forall trade_consistent ts
    /\ chained ts
    /\ (forall t rest, ts = t :: rest -> amount_usd t = initial_usd).
Proof.
  intros df initial_usd profit_usd profit_pct ts pv H.
  assert (Hne : records df <> []).
  { intros E. unfold calculate_trading_profit, col_Rate in H.
    rewrite E in H. discriminate H. }
  rewrite (calculate_trading_profit_result df initial_usd Hne) in H.
  apply bind_ok in H. destruct H as (st & Hst & H).
  apply bind_ok in H. destruct H as (x & _ & H).
  inversion H; subst; clear H.
  assert (Hinv : amounts_invariant initial_usd st).
  { revert Hst. unfold backtest_loop.
    apply (run_rows_invariant (amounts_invariant initial_usd)
                              (fun _ => True)).
    - intros ir s s' _. apply amounts_step.
    - apply Forall_forall. auto.
    - unfold amounts_invariant. cbn [trades sim_init rev].
      repeat split; try constructor. intros t rest E. discriminate E. }
  destruct Hinv as (Hc & Hch & Hhd & _). auto.
Qed.

Lemma trades_convert_whole_balances_witness :
  exists profit_usd profit_pct b s pv,
    snd (calculate_trading_profit sample_frame 1000)
    = Ok (profit_usd, profit_pct, [b; s], pv)
    /\ amount_usd b = 1000
    /\ amount_nis b = amount_usd b * rate b
    /\ amount_nis s = amount_nis b.
Proof.
  destruct (snd (calculate_trading_profit sample_frame 1000))
    as [[[[p pct] ts] pv]|e] eqn:E; [|vm_compute in E; discriminate E].
  destruct (trades_convert_whole_balances sample_frame 1000 p pct ts pv E)
    as (Hc & Hch & Hhd).
  assert (Hts : exists b s, ts = [b; s] /\ action b = BUY /\ action s = SELL).
  { vm_compute in E. inversion E. do 2 eexists. repeat split. }
  destruct Hts as (b & s & -> & Hb & Hs).
  exists p, pct, b, s, pv. split; [reflexivity|].
  split; [exact (Hhd b [s] eq_refl)|]. split.
  - inversion Hc as [|? ? Hcb _]. unfold trade_consistent in Hcb.
    rewrite Hb in Hcb. exact Hcb.
  - destruct Hch as [Hf _]. unfold follows_on in Hf.
    rewrite Hs in Hf. exact Hf.
Defined.

(* ------------------------------------------------------------------ *)
(** ** The report's "Win Rate"                                          *)
(* ------------------------------------------------------------------ *)

Lemma sells_at_most_half (l : list Trade) :
  alternates (map action l) = true ->
  (2 * length (filter (fun t => match action t with
                                | SELL => true
                                | BUY => false
                                end) l)
   <= length l + match l with
                 | t :: _ => match action t with SELL => 1 | BUY => 0 end
                 | [] => 0
                 end)%nat.
Proof.
  induction l as [|a t IH]; intros Halt.
  - simpl. lia.
  - assert (Ht : alternates (map action t) = true
                 /\ match t with
                    | b :: _ => action b <> action a
                    | [] => True
                    end).
    { destruct t as [|b t']; [split; [reflexivity|exact I]|].
      cbn [map alternates] in Halt. apply andb_true_iff in Halt.
      destruct Halt as [Hne Hrest]. split; [exact Hrest|].
      intros E. rewrite E in Hne. destruct (action a); discriminate Hne. }
    destruct Ht as [Halt' Hnext]. specialize (IH Halt').
    cbn [filter length]. destruct (action a) eqn:Ea; cbn [length].
    + destruct t as [|b t']; [simpl in *; lia|].
      destruct (action b); simpl in *; lia.
    + destruct t as [|b t']; [simpl in *; lia|].
      destruct (action b); [simpl in *; lia|congruence].
Qed.

(** X10.  The "Win Rate" of the report counts SELL trades over all trades;
    as the trades alternate from a BUY on, it lies between 0 and 50. *)
Theorem win_rate_is_at_most_fifty :
  forall (df : DataFrame) (initial_usd profit_usd : Q)
         (profit_pct : option Q) (ts : list Trade) (pv : list Q),
    snd (calculate_trading_profit df initial_usd)
    = Ok (profit_usd, profit_pct, ts, pv) ->
    0 <= win_rate ts /\ win_rate ts <= 50.
Proof.
  intros df initial_usd profit_usd profit_pct ts pv H.
  assert (Hne : records df <> []).
  { intros E. unfold calculate_trading_profit, col_Rate in H.
    rewrite E in H. discriminate H. }
  rewrite (calculate_trading_profit_result df initial_usd Hne) in H.
  apply bind_ok in H. destruct H as (st & Hst & H).
  apply bind_ok in H. destruct H as (x & _ & H).
  inversion H; subst; clear H.
  pose proof (run_rows_keeps_invariant _ _ _ _ _
                (holding_invariant_init initial_usd) Hst)
    as (Halt & Hhd & _).
  pose proof (sells_at_most_half (trades st) Halt) as Hhalf.
  assert (Hcount :
    (2 * length (filter (fun t => match action t with
                                  | SELL => true
                                  | BUY => false
                                  end) (trades st))
     <= length (trades st))%nat).
  { destruct (trades st) as [|t rest]; [simpl in *; lia|].
    cbn [map hd_error] in Hhd.
    destruct (action t); [lia|congruence]. }
  clear Hhalf Halt Hhd. unfold win_rate.
  set (c := length (filter _ (trades st))) in *.
  set (m := Nat.max (length (trades st)) 1).
  assert (Hcm : (2 * c <= m)%nat /\ (1 <= m)%nat) by (subst m; lia).
  clearbody c m. destruct Hcm as [Hcm H1m].
  assert (Hm : 0 < inject_Z (Z.of_nat m)).
  { unfold Qlt. simpl. lia. }
  assert (Hlo : 0 <= inject_Z (Z.of_nat c) / inject_Z (Z.of_nat m)).
  { apply Qle_shift_div_l; [exact Hm|].
    unfold Qle. simpl. lia. }
  assert (Hhi : inject_Z (Z.of_nat c) / inject_Z (Z.of_nat m) <= 1 # 2).
  { apply Qle_shift_div_r; [exact Hm|].
    unfold Qle. cbn [Qnum Qden Qmult inject_Z]. lia. }
  split; lra.
Qed.

Lemma win_rate_is_at_most_fifty_witness :
  exists profit_usd profit_pct ts pv,
    snd (calculate_trading_profit sample_frame 1000)
    = Ok (profit_usd, profit_pct, ts, pv)
    /\ win_rate ts == 50.
Proof.
  destruct (snd (calculate_trading_profit sample_frame 1000))
    as [[[[p pct] ts] pv]|e] eqn:E; [|vm_compute in E; discriminate E].
  pose proof (win_rate_is_at_most_fifty sample_frame 1000 p pct ts pv E)
    as [_ Hhi].
  exists p, pct, ts, pv. split; [reflexivity|].
  apply Qle_antisym; [exact Hhi|].
  vm_compute in E. inversion E. vm_compute. discriminate.
Defined.

(* ------------------------------------------------------------------ *)
(** ** No look-ahead                                                    *)
(* ------------------------------------------------------------------ *)

Lemma roll_mean_from_firstn (fl : Q -> Q) (w : nat) (values : list Q)
      (n : nat) (todo : list Q) :
  forall i k s,
    (i + k <= n)%nat ->
    roll_mean_from fl w (firstn n values) i (firstn k todo) s
    = firstn k (roll_mean_from fl w values i todo s).
Proof.
  induction todo as [|val rest IH]; intros i k s Hk.
  - rewrite !firstn_nil. reflexivity.
  - destruct k as [|k]; [reflexivity|].
    cbn [firstn roll_mean_from].
    assert (E : mean_step fl w (firstn n values) i val s
                = mean_step fl w values i val s).
    { unfold mean_step. rewrite nth_firstn.
      destruct (Nat.ltb_spec (i - w) n) as [_|H]; [reflexivity|lia]. }
    rewrite E. f_equal. apply IH. lia.
Qed.

(** The running mean of the first [n] values is the first [n] entries of
    the running mean. *)
Lemma roll_mean_firstn (fl : Q -> Q) (w : nat) (values : list Q) (n : nat) :
  roll_mean fl w (firstn n values) = firstn n (roll_mean fl w values).
Proof.
  unfold roll_mean. apply roll_mean_from_firstn. lia.
Qed.

Lemma rolling_mean_firstn (w : nat) (values : list Q) (n : nat) :
  rolling_mean w (firstn n values) = firstn n (rolling_mean w values).
Proof.
  unfold rolling_mean. rewrite <- firstn_map. apply roll_mean_firstn.
Qed.

Lemma iterrows_from_firstn (n : nat) :
  forall index recs sma7 sma14,
    iterrows_from index (firstn n recs) (firstn n sma7) (firstn n sma14)
    = firstn n (iterrows_from index recs sma7 sma14).
Proof.
  induction n as [|n IH]; intros index recs sma7 sma14; [reflexivity|].
  destruct recs as [|r recs]; [reflexivity|].
  destruct sma7 as [|a sma7]; [reflexivity|].
  destruct sma14 as [|b sma14]; [reflexivity|].
  cbn [firstn iterrows_from]. f_equal. apply IH.
Qed.

Lemma iterrows_from_index (recs : list RatePoint) :
  forall index sma7 sma14 ir,
    In ir (iterrows_from index recs sma7 sma14) ->
    (index <= fst ir < index + length recs)%nat.
Proof.
  induction recs as [|r recs IH]; intros index sma7 sma14 ir H.
  - destruct H.
  - destruct sma7 as [|a sma7]; [destruct H|].
    destruct sma14 as [|b sma14]; [destruct H|].
    destruct H as [<-|H].
    + cbn. lia.
    + apply IH in H. cbn [length]. lia.
Qed.

(** An iteration reads the indicator columns of its own row and of the row
    before it, no later one. *)
Lemma loop_body_firstn (sma7 sma14 : list Q) (n : nat) (ir : nat * Row)
      (st : Sim) :
  (fst ir <= n)%nat ->
  loop_body (firstn n sma7) (firstn n sma14) ir st
  = loop_body sma7 sma14 ir st.
Proof.
  destruct ir as [index row]. cbn [fst]. intros Hn.
  unfold loop_body, crossover, loc.
  destruct (Nat.ltb_spec 0 index) as [Hpos|_]; [|reflexivity].
  rewrite !nth_error_firstn.
  destruct (Nat.ltb_spec (index - 1) n) as [_|H]; [reflexivity|lia].
Qed.

Lemma run_rows_firstn (sma7 sma14 : list Q) (n : nat)
      (rows : list (nat * Row)) :
  Forall (fun ir => (fst ir <= n)%nat) rows ->
  forall st,
    run_rows (firstn n sma7) (firstn n sma14) rows st
    = run_rows sma7 sma14 rows st.
Proof.
  induction 1 as [|ir rows Hir _ IH]; intros st; [reflexivity|].
  cbn [run_rows]. rewrite (loop_body_firstn sma7 sma14 n ir st Hir).
  destruct (loop_body sma7 sma14 ir st); [apply IH|reflexivity].
Qed.

(** The loop on the first [n] rows of a frame, with the columns computed
    from those rows alone, is the loop on the whole frame stopped after
    [n] iterations. *)
Lemma backtest_loop_firstn (recs : list RatePoint) (n : nat)
      (initial_usd : Q) :
  backtest_loop (firstn n recs)
                (rolling_mean 7 (map Rate (firstn n recs)))
                (rolling_mean 14 (map Rate (firstn n recs))) initial_usd
  = backtest_upto n recs (rolling_mean 7 (map Rate recs))
                  (rolling_mean 14 (map Rate recs)) initial_usd.
Proof.
  unfold backtest_loop, backtest_upto, iterrows.
  rewrite <- !firstn_map, !rolling_mean_firstn, iterrows_from_firstn.
  apply run_rows_firstn. apply Forall_forall. intros ir Hin.
  rewrite <- iterrows_from_firstn in Hin.
  apply iterrows_from_index in Hin.
  pose proof (firstn_le_length n recs) as Hlen.
  rewrite length_firstn in Hin. lia.
Qed.

(** The loop only appends to the trade list and to the trajectory. *)
Lemma run_rows_appends (sma7 sma14 : list Q) (rows : list (nat * Row)) :
  forall st st',
    run_rows sma7 sma14 rows st = Ok st' ->
    exists later later_pv,
      trades st' = trades st ++ later
      /\ portfolio_value st' = portfolio_value st ++ later_pv.
Proof.
  induction rows as [|[i row] rows IH]; intros st st' H.
  - inversion H; subst. exists [], []. rewrite !app_nil_r. auto.
  - cbn [run_rows] in H. apply bind_ok in H. destruct H as (st1 & Hb & H).
    destruct (IH st1 st' H) as (later & later_pv & Ht & Hp).
    apply loop_body_inv in Hb. destruct Hb as (_ & st0 & Hc & ->).
    cbn [trades portfolio_value] in Ht, Hp.
    apply crossover_inv in Hc.
    destruct Hc as [-> | [(_ & _ & _ & ->) | (_ & _ & _ & _ & ->)]];
      cbn [trades portfolio_value] in Ht, Hp;
      rewrite Ht, Hp, <- ?app_assoc; eauto.
Qed.

(** X11.  The backtest never looks ahead.  Entry [i] of an indicator
    column hangs on the rates up to [i] alone: the columns of the first [n]
    rows of a frame are the first [n] entries of the columns of the whole
    frame.  So the loop run on the first [n] rows is the loop on the whole
    frame stopped after [n] iterations; and where the call returns on the
    whole frame it returns on its first [n >= 1] rows, with trades and a
    trajectory that the run on the whole frame only extends. *)
Theorem backtest_never_looks_ahead :
  forall (df : DataFrame) (n : nat) (initial_usd : Q),
    let rates := map Rate (records df) in
    let first_rows := pd_DataFrame (firstn n (records df)) in
    rolling_mean 7 (firstn n rates) = firstn n (rolling_mean 7 rates)
    /\ rolling_mean 14 (firstn n rates) = firstn n (rolling_mean 14 rates)
    /\ backtest_loop (records first_rows)
                     (rolling_mean 7 (map Rate (records first_rows)))
                     (rolling_mean 14 (map Rate (records first_rows)))
                     initial_usd
       = backtest_upto n (records df) (rolling_mean 7 rates)
                       (rolling_mean 14 rates) initial_usd
    /\ forall profit_usd profit_pct ts pv,
         (0 < n)%nat ->
         snd (calculate_trading_profit df initial_usd)
         = Ok (profit_usd, profit_pct, ts, pv) ->
         exists profit_usd' profit_pct' ts' pv' later later_pv,
           snd (calculate_trading_profit first_rows initial_usd)
           = Ok (profit_usd', profit_pct', ts', pv')
           /\ ts = ts' ++ later /\ pv = pv' ++ later_pv.
Proof.
  intros df n initial_usd rates first_rows.
  split; [apply rolling_mean_firstn|].
  split; [apply rolling_mean_firstn|].
  split; [apply backtest_loop_firstn|].
  intros profit_usd profit_pct ts pv Hn H.
  assert (Hne : records df <> []).
  { intros E. unfold calculate_trading_profit, col_Rate in H.
    rewrite E in H. discriminate H. }
  assert (Hne' : records first_rows <> []).
  { cbn [first_rows pd_DataFrame records].
    destruct n; [lia|]. destruct (records df); [congruence|discriminate]. }
  rewrite (calculate_trading_profit_result df initial_usd Hne) in H.
  apply bind_ok in H. destruct H as (st & Hst & H).
  apply bind_ok in H. destruct H as (x & _ & H). inversion H; subst. clear H.
  unfold backtest_loop in Hst.
  rewrite <- (firstn_skipn n (iterrows _ _ _)), run_rows_app in Hst.
  apply bind_ok in Hst. destruct Hst as (st_n & Hn_ & Hrest).
  destruct (run_rows_appends _ _ _ _ _ Hrest) as (later & later_pv & Ht & Hp).
  rewrite (calculate_trading_profit_result first_rows initial_usd Hne').
  subst first_rows. cbn [pd_DataFrame records] in *.
  rewrite backtest_loop_firstn. unfold backtest_upto. rewrite Hn_.
  cbn [bind].
  destruct (iloc_last_returns (map Rate (firstn n (records df))))
    as (y & Hy).
  { destruct (firstn n (records df)); [congruence|discriminate]. }
  rewrite Hy. cbn [bind].
  do 4 eexists. exists later, later_pv. split; [reflexivity|]. auto.
Qed.

(** On the sample frame the call returns two trades; on its first eight
    rows it returns the first of them. *)
Lemma backtest_never_looks_ahead_witness :
  exists (p p' : Q) (pct pct' : option Q) (ts' later : list Trade)
         (pv' later_pv : list Q),
    snd (calculate_trading_profit sample_frame 1000)
    = Ok (p, pct, ts' ++ later, pv' ++ later_pv)
    /\ snd (calculate_trading_profit
              (pd_DataFrame (firstn 8 (records sample_frame))) 1000)
       = Ok (p', pct', ts', pv')
    /\ map action ts' = [BUY] /\ map action later = [SELL].
Proof.
  destruct (backtest_never_looks_ahead sample_frame 8 1000)
    as (_ & _ & _ & H).
  destruct (snd (calculate_trading_profit sample_frame 1000))
    as [[[[p pct] ts] pv]|e] eqn:E; [|vm_compute in E; discriminate E].
  destruct (H p pct ts pv ltac:(lia) eq_refl)
    as (p' & pct' & ts' & pv' & later & later_pv & E' & Ht & Hp).
  subst ts pv.
  exists p, p', pct, pct', ts', later, pv', later_pv.
  split; [reflexivity|]. split; [exact E'|].
  vm_compute in E'. inversion E'; subst p' pct' ts' pv'.
  vm_compute in E. split; [reflexivity|].
  inversion E. reflexivity.
Defined.

(* ------------------------------------------------------------------ *)
(** ** A series that never moves                                        *)
(* ------------------------------------------------------------------ *)

(** X12.  A series whose rate never moves is never traded: the backtest
    returns no trade, no profit and a trajectory that repeats the stake. *)
Theorem constant_series_never_trades :
  forall (df : DataFrame) (initial_usd c : Q),
    records df <> [] -> ~ c == 0 ->
    Forall (fun p => Rate p == c) (records df) ->
    exists profit_usd profit_pct pv,
      snd (calculate_trading_profit df initial_usd)
      = Ok (profit_usd, profit_pct, [], pv)
      /\ profit_usd == 0
      /\ length pv = df_len df
      /\ Forall (fun v => v == initial_usd) pv.
Proof.
  intros df initial_usd c Hne Hc Hall.
  pose proof (rolling_lengths (records df) 7) as H7.
  pose proof (rolling_lengths (records df) 14) as H14.
  assert (Hnz : nonzero_rates (records df)).
  { unfold nonzero_rates. eapply Forall_impl; [|exact Hall].
    intros p Hp Hz. apply Hc. rewrite <- Hp. exact Hz. }
  assert (Hr : forall j, (j < length (records df))%nat ->
                         nth j (map Rate (records df)) 0 == c).
  { intros j Hj. rewrite Forall_forall in Hall.
    change 0 with (Rate default_point) at 1. rewrite map_nth.
    apply Hall. apply nth_In. exact Hj. }
  assert (Hflat : forall i, (i < length (records df))%nat ->
            nth i (rolling_mean 7 (map Rate (records df))) 0
            == nth i (rolling_mean 14 (map Rate (records df))) 0).
  { intros i Hi.
    assert (Hw : forall j, (j <= i)%nat ->
                           nth j (map Rate (records df)) 0
                           == nth i (map Rate (records df)) 0).
    { intros j Hj. rewrite (Hr j), (Hr i) by lia. reflexivity. }
    rewrite <- (length_map Rate) in Hi.
    rewrite (rolling_mean_constant_window 7 _ i ltac:(lia) Hi)
      by (intros j _ Hj; exact (Hw j Hj)).
    rewrite (rolling_mean_constant_window 14 _ i ltac:(lia) Hi)
      by (intros j _ Hj; exact (Hw j Hj)).
    reflexivity. }
  destruct (flat_upto (records df) _ _ initial_usd H7 H14 Hnz Hflat
              (length (records df)) (Nat.le_refl _))
    as (pv & Hst & Hlen & Hpv).
  rewrite (backtest_upto_all _ _ _ _ H7 H14) in Hst.
  rewrite (calculate_trading_profit_result df initial_usd Hne), Hst.
  cbn [bind].
  destruct (iloc_last_returns (map Rate (records df))) as (x & Hx).
  { destruct (records df); [congruence|discriminate]. }
  rewrite Hx. cbn [bind usd_balance nis_balance trades portfolio_value].
  do 3 eexists. split; [reflexivity|].
  split; [unfold Qdiv; ring|]. split; [exact Hlen|exact Hpv].
Qed.

Lemma constant_series_never_trades_witness :
  exists profit_usd profit_pct pv,
    snd (calculate_trading_profit
           (frame_of_rates [3; 3; 3; 3; 3; 3; 3; 3; 3; 3]) 1000)
    = Ok (profit_usd, profit_pct, [], pv)
    /\ profit_usd == 0 /\ length pv = 10%nat.
Proof.
  destruct (constant_series_never_trades
              (frame_of_rates [3; 3; 3; 3; 3; 3; 3; 3; 3; 3]) 1000 3)
    as (p & pct & pv & H & Hp & Hl & _).
  - discriminate.
  - unfold Qeq. cbn. discriminate.
  - repeat constructor.
  - exists p, pct, pv. auto.
Defined.

(* ------------------------------------------------------------------ *)
(** ** Dates have no say in the simulation                              *)
(* ------------------------------------------------------------------ *)

Lemma loop_body_redated (sma7 sma14 : list Q) (a b : nat * Row)
      (st1 st2 : Sim) :
  same_but_date a b -> same_figures st1 st2 ->
  agree same_figures (loop_body sma7 sma14 a st1)
        (loop_body sma7 sma14 b st2).
Proof.
  destruct a as [i [d1 r1 a1 b1]], b as [j [d2 r2 a2 b2]].
  intros (Hi & Hr & H7 & H14). cbn in Hi, Hr, H7, H14. subst.
  destruct st1 as [u1 n1 t1 p1], st2 as [u2 n2 t2 p2].
  intros (Hu & Hn & Hp & Ht). cbn in Hu, Hn, Hp, Ht. subst.
  unfold loop_body, crossover, py_div, bind.
  cbn [row_Rate row_Date row_SMA_7 row_SMA_14 usd_balance nis_balance
       trades portfolio_value].
  repeat match goal with
         | |- context [match loc ?c ?k with _ => _ end] => destruct (loc c k)
         | |- context [if ?c then _ else _] => destruct c
         end;
    cbn [agree usd_balance nis_balance trades portfolio_value];
    try reflexivity;
    unfold same_figures;
    cbn [usd_balance nis_balance trades portfolio_value];
    rewrite ?map_app, ?Ht; repeat split; auto.
Qed.

Lemma run_rows_redated (sma7 sma14 : list Q) (rows1 rows2 : list (nat * Row)) :
  Forall2 same_but_date rows1 rows2 ->
  forall st1 st2,
    same_figures st1 st2 ->
    agree same_figures (run_rows sma7 sma14 rows1 st1)
          (run_rows sma7 sma14 rows2 st2).
Proof.
  induction 1 as [|a b rows1 rows2 Hab _ IH]; intros st1 st2 Hst.
  - exact Hst.
  - cbn [run_rows].
    pose proof (loop_body_redated sma7 sma14 a b st1 st2 Hab Hst) as Hb.
    destruct (loop_body sma7 sma14 a st1) as [s1|e1];
      destruct (loop_body sma7 sma14 b st2) as [s2|e2];
      cbn [agree bind] in *; try contradiction; auto.
Qed.

Lemma iterrows_from_redated (recs1 : list RatePoint) :
  forall recs2 k sma7 sma14,
    map Rate recs1 = map Rate recs2 ->
    Forall2 same_but_date (iterrows_from k recs1 sma7 sma14)
            (iterrows_from k recs2 sma7 sma14).
Proof.
  induction recs1 as [|r1 recs1 IH]; intros recs2 k sma7 sma14 H;
    destruct recs2 as [|r2 recs2]; try discriminate H.
  - constructor.
  - simpl in H. inversion H as [[Hr Hrest]].
    destruct sma7 as [|a sma7]; [constructor|].
    destruct sma14 as [|b sma14]; [constructor|].
    simpl. constructor.
    + unfold same_but_date. cbn. auto.
    + apply IH. exact Hrest.
Qed.

Lemma backtest_loop_redated :
  forall (recs1 recs2 : list RatePoint) (initial_usd : Q),
    map Rate recs1 = map Rate recs2 ->
    agree same_figures
          (backtest_loop recs1 (rolling_mean 7 (map Rate recs1))
                         (rolling_mean 14 (map Rate recs1)) initial_usd)
          (backtest_loop recs2 (rolling_mean 7 (map Rate recs2))
                         (rolling_mean 14 (map Rate recs2)) initial_usd).
Proof.
  intros recs1 recs2 initial_usd H.
  rewrite <- H. unfold backtest_loop, iterrows.
  set (s7 := rolling_mean 7 (map Rate recs1)).
  set (s14 := rolling_mean 14 (map Rate recs1)).
  assert (Hinit : same_figures (sim_init initial_usd) (sim_init initial_usd))
    by (repeat split).
  exact (run_rows_redated s7 s14 _ _
           (iterrows_from_redated recs1 recs2 0 s7 s14 H) _ _ Hinit).
Qed.

(** X13.  The dates have no say in the simulation: two frames with the
    same rates raise the same exception or return the same profit, the same
    percentage, the same trajectory and, apart from their dates, the same
    trades. *)
Theorem backtest_depends_on_rates_only :
  forall (df1 df2 : DataFrame) (initial_usd : Q),
    map Rate (records df1) = map Rate (records df2) ->
    agree (fun r1 r2 =>
             let '(p1, pct1, ts1, pv1) := r1 in
             let '(p2, pct2, ts2, pv2) := r2 in
             p1 = p2 /\ pct1 = pct2 /\ pv1 = pv2
             /\ map trade_figures ts1 = map trade_figures ts2)
          (snd (calculate_trading_profit df1 initial_usd))
          (snd (calculate_trading_profit df2 initial_usd)).
Proof.
  intros df1 df2 initial_usd H.
  destruct (records df1) as [|r1 l1] eqn:E1;
    destruct (records df2) as [|r2 l2] eqn:E2; try discriminate H.
  - unfold calculate_trading_profit, col_Rate. rewrite E1, E2. reflexivity.
  - rewrite (calculate_trading_profit_result df1 initial_usd) by congruence.
    rewrite (calculate_trading_profit_result df2 initial_usd) by congruence.
    rewrite E1, E2.
    pose proof (backtest_loop_redated _ _ initial_usd H) as Hrun.
    destruct (backtest_loop (r1 :: l1) _ _ initial_usd) as [s1|e1];
      destruct (backtest_loop (r2 :: l2) _ _ initial_usd) as [s2|e2];
      cbn [agree bind] in *; try contradiction; auto.
    destruct Hrun as (Hu & Hn & Hp & Ht). rewrite <- H.
    destruct (iloc_last (map Rate (r1 :: l1))) as [x|e]; cbn [agree bind];
      [|reflexivity].
    rewrite Hu, Hn, Hp. repeat split. exact Ht.
Qed.

Lemma backtest_depends_on_rates_only_witness :
  exists p pct ts1 ts2 pv,
    snd (calculate_trading_profit sample_frame 1000) = Ok (p, pct, ts1, pv)
    /\ snd (calculate_trading_profit
              (pd_DataFrame
                 (map (fun r => mkPoint "1999-12-31" r)
                      [3; 3; 3; 3; 3; 3; 3; 4; 1])) 1000)
       = Ok (p, pct, ts2, pv)
    /\ map trade_figures ts1 = map trade_figures ts2.
Proof.
  pose proof (backtest_depends_on_rates_only sample_frame
                (pd_DataFrame
                   (map (fun r => mkPoint "1999-12-31" r)
                        [3; 3; 3; 3; 3; 3; 3; 4; 1])) 1000 eq_refl) as H.
  destruct (snd (calculate_trading_profit sample_frame 1000))
    as [[[[p1 pct1] ts1] pv1]|e1] eqn:E1; [|vm_compute in E1; discriminate E1].
  destruct (snd (calculate_trading_profit (pd_DataFrame _) 1000))
    as [[[[p2 pct2] ts2] pv2]|e2]; [|contradiction].
  cbn [agree] in H. destruct H as (-> & -> & -> & Ht).
  exists p2, pct2, ts1, ts2, pv2. auto.
Defined.

(** X14.  Demo mode always tells the same story: whatever the clock reads,
    the backtest of the generated series returns, makes seven trades that
    start and end with a BUY, and closes 1000 USD with a loss between 1.44
    and 1.45 USD over a trajectory of 30 entries. *)
Theorem demo_mode_backtest_is_fixed :
  forall now_ : datetime,
    exists profit_usd profit_pct ts pv,
      snd (calculate_trading_profit (frame_of (generate_demo_data now_)) 1000)
      = Ok (profit_usd, Some profit_pct, ts, pv)
      /\ map action ts = [BUY; SELL; BUY; SELL; BUY; SELL; BUY]
      /\ - (145 # 100) < profit_usd /\ profit_usd < - (144 # 100)
      /\ length pv = 30%nat.
Proof.
  intros now_.
  set (df1 := frame_of (generate_demo_data now_)).
  set (df2 := frame_of (generate_demo_data sample_now)).
  assert (Hrates : map Rate (records df1) = map Rate (records df2)).
  { unfold df1, df2. rewrite !demo_records, !map_map. reflexivity. }
  assert (Hne : records df1 <> []).
  { intros E. rewrite E in Hrates. vm_compute in Hrates.
    discriminate Hrates. }
  rewrite (calculate_trading_profit_result df1 1000 Hne).
  pose proof (backtest_loop_redated _ _ 1000 Hrates) as H.
  rewrite Hrates.
  rewrite Hrates in H at 1 2.
  destruct (backtest_loop (records df2) _ _ 1000) as [s2|e2] eqn:E2;
    [|vm_compute in E2; discriminate E2].
  destruct (backtest_loop (records df1) _ _ 1000) as [s1|e1];
    [|contradiction].
  cbn [agree] in H. destruct H as (Hu & Hn & Hp & Ht).
  vm_compute in E2. inversion E2; subst s2; clear E2.
  cbn [bind]. rewrite Hu, Hn, Hp.
  destruct (iloc_last (map Rate (records df2))) as [x|e] eqn:EL;
    vm_compute in EL; inversion EL; subst x; clear EL.
  do 4 eexists. split; [reflexivity|].
  split; [|repeat split].
  apply (f_equal (map (fun f : Action * Q * Q * Q => fst (fst (fst f)))))
    in Ht.
  rewrite !map_map in Ht. cbn [map trade_figures fst action] in Ht.
  exact Ht.
Qed.

(* ================================================================== *)
(** * Further properties of the acquisition                             *)
(* ================================================================== *)

Lemma py_round_4_near (q : Q) :
  Qabs (py_round q 4 - q) <= 1 # 20000
  /\ exists z, py_round q 4 == inject_Z z / 10000.
Proof.
  unfold py_round. change (inject_Z (10 ^ Z.of_nat 4)) with 10000.
  split; [|eexists; reflexivity].
  pose proof (round_half_even_nearest (q * 10000)) as H.
  apply Qabs_Qle_condition in H. destruct H as [H1 H2].
  apply Qabs_Qle_condition.
  set (z := inject_Z (round_half_even (q * 10000))) in *.
  split.
  - apply Qle_minus_iff. apply Qle_minus_iff in H1.
    setoid_replace (z / 10000 - q + - - (1 # 20000))
      with ((z - q * 10000 + - - (1 # 2)) / 10000) by field.
    apply Qle_shift_div_l; [reflexivity|]. lra.
  - apply Qle_minus_iff. apply Qle_minus_iff in H2.
    setoid_replace ((1 # 20000) + - (z / 10000 - q))
      with (((1 # 2) + - (z - q * 10000)) / 10000) by field.
    apply Qle_shift_div_l; [reflexivity|]. lra.
Qed.

Lemma history_records_rounded (items : list (string * option Q)) :
  Forall2 rounded_from (history_records items) (with_rate items).
Proof.
  induction items as [|[d [x|]] items IH].
  - constructor.
  - cbn [history_records with_rate flat_map app].
    constructor; [|exact IH].
    unfold rounded_from. cbn [Date Rate fst snd].
    split; [reflexivity|]. apply py_round_4_near.
  - exact IH.
Qed.

(** X15.  When the historical fetch answers, its frame is not empty and
    has no indicator columns; it holds, in the order received, one point
    for every item that carries an ILS rate, with the item's date and the
    rate rounded to four decimals (within 0.00005 of it); and its message
    reads "30 days" whatever number of days was asked for. *)
Theorem historical_frame_shape :
  forall (days : Z) (w : World) (df : DataFrame) (msg : option string),
    fetch_historical_data days w = (Some df, msg) ->
    exists items,
      history_response w days = Some items
      /\ df_empty df = false
      /\ SMA_7 df = None /\ SMA_14 df = None
      /\ Forall2 rounded_from (records df) (with_rate items)
      /\ (df_len df <= length items)%nat
      /\ msg = Some "Historical data (30 days)".
Proof.
  intros days w df msg H. unfold fetch_historical_data in H.
  destruct (history_response w days) as [items|]; [|discriminate H].
  exists items. split; [reflexivity|].
  pose proof (history_records_rounded items) as Hr.
  assert (Hlen : (length (history_records items) <= length items)%nat).
  { clear. induction items as [|[d [x|]] items IH]; simpl in *; lia. }
  destruct (history_records items) as [|p data]; [discriminate H|].
  inversion H; subst. repeat split; auto.
Qed.

Lemma historical_frame_shape_witness :
  exists df,
    fetch_historical_data 7 world_live
    = (Some df, Some "Historical data (30 days)")
    /\ df_len df = 2%nat
    /\ Forall2 rounded_from (records df)
               [("2025-12-31", 3.08111); ("2026-01-02", 3.09)].
Proof.
  destruct (fetch_historical_data 7 world_live) as [[df|] msg] eqn:E;
    [|vm_compute in E; discriminate E].
  destruct (historical_frame_shape 7 world_live df msg E)
    as (items & Hi & _ & _ & _ & Hr & _ & ->).
  exists df. split; [reflexivity|].
  cbn in Hi. inversion Hi; subst items. split; [|exact Hr].
  vm_compute in E. inversion E. reflexivity.
Defined.

(** X16.  What [get_current_rate] returns hangs together: without a rate
    there is no date, a rate that is there is never zero, the label reads
    "All APIs unavailable" exactly when there is no rate, and a rate comes
    without a date only when the Bank of Israel or ExchangeRate.host sent
    it with an empty date. *)
Theorem current_rate_and_label_agree :
  forall w : World,
    let '(rate_, date_, label) := get_current_rate w in
    (rate_ = None -> date_ = None)
    /\ (rate_ = None <-> label = "❌ All APIs unavailable")
    /\ (forall r, rate_ = Some r -> ~ r == 0)
    /\ (label = "✅ Bank of Israel (Official)"
        \/ label = "✅ ExchangeRate.host"
        \/ label = "✅ ExchangeRate-API"
        \/ label = "❌ All APIs unavailable")
    /\ (forall r, rate_ = Some r -> date_ = None ->
          boi_response w = Some (r, DateEmpty)
          \/ host_response w = Some (r, DateEmpty)).
Proof.
  intros w.
  unfold get_current_rate, fetch_from_bank_of_israel,
    fetch_from_exchangerate_host, fetch_from_exchangerate_api,
    provider_result, provider_date, truthy.
  assert (Hnz : forall r, Qeq_bool r 0 = false -> ~ r == 0).
  { intros r E Hz. apply Qeq_bool_iff in Hz. congruence. }
  destruct (boi_response w) as [[r1 [| |d1]]|];
    try (destruct (Qeq_bool r1 0) eqn:E1; cbn [negb]);
    try (cbn [fmt_opt or_else String.append];
         repeat split; try discriminate; auto;
         intros r H; inversion H; subst; auto; fail).
  all: destruct (host_response w) as [[r2 [| |d2]]|];
    try (destruct (Qeq_bool r2 0) eqn:E2; cbn [negb]);
    try (cbn [fmt_opt or_else String.append];
         repeat split; try discriminate; auto;
         intros r H; inversion H; subst; auto; fail).
  all: destruct (erapi_response w) as [[r3 [| |d3]]|];
    try (destruct (Qeq_bool r3 0) eqn:E3; cbn [negb]);
    cbn [fmt_opt or_else String.append];
    repeat split; try discriminate; auto 6;
    intros r H; inversion H; subst; auto.
Qed.

Lemma no_rate_means_unavailable (w : World) :
  fst (fst (get_current_rate w)) = None ->
  snd (get_current_rate w) = "❌ All APIs unavailable".
Proof.
  unfold get_current_rate, fetch_from_bank_of_israel,
    fetch_from_exchangerate_host, fetch_from_exchangerate_api,
    provider_result, truthy.
  destruct (boi_response w) as [[r1 d1]|];
    [destruct (Qeq_bool r1 0); cbn [negb]; [|discriminate]|];
    (destruct (host_response w) as [[r2 d2]|];
     [destruct (Qeq_bool r2 0); cbn [negb]; [|discriminate]|]);
    (destruct (erapi_response w) as [[r3 [| |d3]]|];
     try (destruct (Qeq_bool r3 0); cbn [negb]; [|discriminate]));
    reflexivity.
Qed.

(** A refresh whose history arrives and whose cache write goes through. *)
Lemma fetch_success (fromisoformat : string -> result datetime)
      (days : Z) (w : World) (df : DataFrame) :
  fst (fetch_historical_data days w) = Some df ->
  write_fault w = None ->
  exists current last_rate current_date,
    fetch_real_exchange_rates fromisoformat days w
    = ((df, current, snd (get_current_rate w)),
       Stored {| c_timestamp := Some (isoformat (now w));
                 c_data := Some (records df);
                 c_current_rate := Some current;
                 c_current_date := Some current_date |})
    /\ iloc_last (map Rate (records df)) = Ok last_rate
    /\ rate_or (fst (fst (get_current_rate w))) (Ok last_rate) = Ok current
    /\ df = pd_DataFrame (records df)
    /\ records df <> [].
Proof.
  intros Hh Hw. unfold fetch_real_exchange_rates, fetch_live.
  destruct (get_current_rate w) as [[cr cd] msg]. cbn [fst snd].
  unfold fetch_historical_data in *.
  destruct (history_response w days) as [items|]; [|discriminate Hh].
  destruct (history_records items) as [|p data] eqn:E; [discriminate Hh|].
  cbn [fst] in Hh. inversion Hh; subst df. clear Hh.
  cbn [df_empty pd_DataFrame records negb].
  unfold col_Rate, col_Date. cbn [records].
  destruct (iloc_last_returns (map Rate (p :: data))) as (x & Hx);
    [discriminate|].
  destruct (iloc_last_returns (map Date (p :: data))) as (y & Hy);
    [discriminate|].
  change (records (pd_DataFrame (p :: data))) with (p :: data).
  cbn [bind]. rewrite Hx, Hy.
  assert (Hr : exists current, rate_or cr (Ok x) = Ok current).
  { unfold rate_or. destruct cr as [r|]; [|eauto].
    destruct (negb (Qeq_bool r 0)); eauto. }
  assert (Hd : exists d, date_or cd (Ok y) = Ok d).
  { unfold date_or. destruct cd as [s|]; [|eauto].
    destruct (String.eqb s ""); eauto. }
  destruct Hr as (current & Hr). destruct Hd as (d & Hd).
  rewrite Hr, Hd. cbn [bind]. unfold write_cache. rewrite Hw.
  exists current, x, d. repeat split; [exact Hr|discriminate].
Qed.

(** X17.  Save and load round trip: after a refresh whose history arrived
    and whose cache write went through, loading the cache file at any later
    time gives back the very series and current rate that refresh returned,
    labelled with the age of the record; this needs the timestamp written
    to be one the parser reads back. *)
Theorem cache_round_trip :
  forall (fromisoformat : string -> result datetime) (days : Z) (w : World)
         (later : datetime),
    fst (fetch_historical_data days w) <> None ->
    write_fault w = None ->
    fromisoformat (isoformat (now w)) = Ok (now w) ->
    let refreshed := fetch_real_exchange_rates fromisoformat days w in
    load_cached_data fromisoformat later (snd refreshed)
    = (frame_of (fst refreshed), rate_of (fst refreshed),
       ("⚠️ Using cached data (" ++ format_1f (age_hours later (now w))
        ++ " hours old)")%string).
Proof.
  intros fromisoformat days w later Hh Hw Hts refreshed. subst refreshed.
  destruct (fst (fetch_historical_data days w)) as [df|] eqn:E;
    [|congruence].
  destruct (fetch_success fromisoformat days w df E Hw)
    as (current & last_rate & cd & Hf & _ & _ & Hdf & _).
  rewrite Hf. cbn [fst snd frame_of rate_of].
  unfold load_cached_data.
  rewrite (cache_attempt_valid fromisoformat later
             {| c_timestamp := Some (isoformat (now w));
                c_data := Some (records df);
                c_current_rate := Some current;
                c_current_date := Some cd |}
             (records df) (isoformat (now w)) (now w) current
             eq_refl eq_refl Hts eq_refl).
  rewrite <- Hdf. reflexivity.
Qed.

Lemma cache_round_trip_witness :
  load_cached_data fromisoformat_basic (sample_now + 5400000000)
    (snd (fetch_real_exchange_rates fromisoformat_basic 30 world_live))
  = (frame_of (fst (fetch_real_exchange_rates fromisoformat_basic 30
                                              world_live)),
     3.09, "⚠️ Using cached data (1.5 hours old)").
Proof.
  rewrite (cache_round_trip fromisoformat_basic 30 world_live
             (sample_now + 5400000000)).
  - vm_compute. reflexivity.
  - discriminate.
  - reflexivity.
  - vm_compute. reflexivity.
Defined.

(** X18.  Live data under an "unavailable" label: when no provider gives a
    current rate but the history arrives and is cached, the refresh returns
    the live series with the rate of its last point as current rate, and the
    status label "All APIs unavailable". *)
Theorem live_series_labelled_unavailable :
  forall (fromisoformat : string -> result datetime) (days : Z) (w : World)
         (df : DataFrame),
    fst (fst (get_current_rate w)) = None ->
    fst (fetch_historical_data days w) = Some df ->
    write_fault w = None ->
    let r := fst (fetch_real_exchange_rates fromisoformat days w) in
    frame_of r = df
    /\ iloc_last (map Rate (records df)) = Ok (rate_of r)
    /\ label_of r = "❌ All APIs unavailable".
Proof.
  intros fromisoformat days w df Hnone Hh Hw r. subst r.
  destruct (fetch_success fromisoformat days w df Hh Hw)
    as (current & last_rate & cd & Hf & Hlast & Hcur & _ & _).
  rewrite Hf. cbn [fst frame_of rate_of label_of snd].
  rewrite Hnone in Hcur. cbn [rate_or] in Hcur. inversion Hcur; subst.
  repeat split; auto. apply no_rate_means_unavailable. exact Hnone.
Qed.

Lemma live_series_labelled_unavailable_witness :
  let w := {| now := sample_now;
              boi_response := None;
              host_response := Some (0, DateGiven "2026-01-02");
              erapi_response := None;
              history_response :=
                fun _ => Some [("2026-01-01", Some 3.08);
                               ("2026-01-02", Some 3.09)];
              cache_file := NoFile;
              write_fault := None |} in
  let r := fst (fetch_real_exchange_rates fromisoformat_basic 30 w) in
  df_len (frame_of r) = 2%nat
  /\ label_of r = "❌ All APIs unavailable".
Proof.
  intros w r.
  destruct (fst (fetch_historical_data 30 w)) as [df|] eqn:E;
    [|vm_compute in E; discriminate E].
  destruct (live_series_labelled_unavailable fromisoformat_basic 30 w df)
    as (Hf & _ & Hl).
  - reflexivity.
  - exact E.
  - reflexivity.
  - split; [|exact Hl]. fold r in Hf. rewrite Hf.
    vm_compute in E. inversion E. reflexivity.
Defined.

(** X22.  What a refresh can do to the cache file when writes go through:
    it leaves the file as it was, or replaces it with a complete record
    stamped with the refresh's clock whose data array is not empty; it
    never stores an empty series. *)
Theorem refresh_stores_complete_records_only :
  forall (fromisoformat : string -> result datetime) (days : Z) (w : World),
    write_fault w = None ->
    let after := snd (fetch_real_exchange_rates fromisoformat days w) in
    (fst (fetch_historical_data days w) = None /\ after = cache_file w)
    \/ exists data current current_date,
         after = Stored {| c_timestamp := Some (isoformat (now w));
                           c_data := Some data;
                           c_current_rate := Some current;
                           c_current_date := Some current_date |}
         /\ data <> []
         /\ records (frame_of (fst (fetch_real_exchange_rates
                                      fromisoformat days w))) = data.
Proof.
  intros fromisoformat days w Hw after. subst after.
  destruct (fst (fetch_historical_data days w)) as [df|] eqn:E.
  - right.
    destruct (fetch_success fromisoformat days w df E Hw)
      as (current & last_rate & cd & Hf & _ & _ & _ & Hne).
    rewrite Hf. cbn [fst snd frame_of].
    exists (records df), current, cd. repeat split. exact Hne.
  - left. split; [reflexivity|].
    rewrite (fetch_without_history fromisoformat days w E). reflexivity.
Qed.

Lemma refresh_stores_complete_records_only_witness :
  exists data current current_date,
    snd (fetch_real_exchange_rates fromisoformat_basic 30 world_live)
    = Stored {| c_timestamp := Some "2026-01-02T03:04:05.000123";
                c_data := Some data;
                c_current_rate := Some current;
                c_current_date := Some current_date |}
    /\ length data = 2%nat.
Proof.
  destruct (refresh_stores_complete_records_only fromisoformat_basic 30
              world_live eq_refl)
    as [[Hnone _] | (data & current & cd & Hf & _ & Hd)].
  - vm_compute in Hnone. discriminate Hnone.
  - exists data, current, cd. split.
    + rewrite Hf. reflexivity.
    + rewrite <- Hd. vm_compute. reflexivity.
Defined.

(* ================================================================== *)
(** * Properties of the dashboard                                       *)
(* ================================================================== *)

Lemma calculate_raises_on_zero_rate (df : DataFrame) (initial_usd : Q) :
  records df <> [] ->
  (exists p, In p (records df) /\ Rate p == 0) ->
  snd (calculate_trading_profit df initial_usd) = Raise ZeroDivisionError.
Proof.
  intros Hne (p & Hin & Hz).
  pose proof (rolling_lengths (records df) 7) as H7.
  pose proof (rolling_lengths (records df) 14) as H14.
  rewrite (calculate_trading_profit_result df initial_usd Hne).
  destruct (backtest_loop (records df) _ _ initial_usd) as [st|e] eqn:El.
  - exfalso.
    pose proof (backtest_ok_nonzero _ _ _ _ _ H7 H14 El) as Hnz.
    unfold nonzero_rates in Hnz. rewrite Forall_forall in Hnz.
    exact (Hnz p Hin Hz).
  - cbn [bind]. f_equal.
    rewrite <- (backtest_upto_all _ _ _ _ H7 H14) in El.
    exact (proj1 (backtest_upto_raises _ _ _ _ H7 H14 _ _
                    (Nat.le_refl _) El)).
Qed.

Lemma iloc_second_last_single {A : Type} (l : list A) :
  length l = 1%nat -> iloc_second_last l = Raise IndexError.
Proof.
  destruct l as [|x [|y l]]; try discriminate. reflexivity.
Qed.



Section DashboardProperties.

Variable fromisoformat : string -> result datetime.
Variable Figure : Type.
Variable plot_advanced_chart :
  DataFrame -> list Trade -> list Q -> result Figure.

Local Abbreviation dashboard :=
  (dashboard_after_fetch Figure plot_advanced_chart).

(** X19.  What stops the dashboard before the chart is drawn, whatever the
    renderer would do: an empty series raises [KeyError], a rate of zero
    raises [ZeroDivisionError], and a series of a single point with a
    non-zero rate raises [IndexError], as the report reads the previous
    close without the guard the daily change has. *)
Theorem dashboard_raises_before_the_chart :
  forall (df : DataFrame) (current_rate : Q) (status_msg : string),
    (records df = [] ->
     dashboard (df, current_rate, status_msg) = Raise KeyError)
    /\ (records df <> [] ->
        (exists p, In p (records df) /\ Rate p == 0) ->
        dashboard (df, current_rate, status_msg) = Raise ZeroDivisionError)
    /\ (df_len df = 1%nat -> nonzero_rates (records df) ->
        dashboard (df, current_rate, status_msg) = Raise IndexError).
Proof.
  intros df current_rate status_msg. unfold dashboard_after_fetch.
  split; [|split].
  - intros E. unfold calculate_trading_profit, col_Rate. rewrite E.
    reflexivity.
  - intros Hne Hz.
    pose proof (calculate_raises_on_zero_rate df 1000 Hne Hz) as H.
    destruct (calculate_trading_profit df 1000) as [df' outcome].
    cbn [snd] in H. rewrite H. reflexivity.
  - intros Hlen Hnz.
    assert (Hne : records df <> []).
    { intros E. unfold df_len in Hlen. rewrite E in Hlen. discriminate. }
    destruct (calculate_trading_profit_returns df 1000 Hne Hnz)
      as (st & p & pct & _ & Hret).
    pose proof (calculate_trading_profit_frame df 1000 Hne) as Hframe.
    destruct (calculate_trading_profit df 1000) as [df' outcome].
    cbn [fst snd] in Hret, Hframe. subst df' outcome. cbn [bind].
    unfold col_Rate, col_Date, df_len in *.
    cbn [records SMA_7 SMA_14 col_opt].
    destruct (records df) as [|r0 [|r1 rs]]; try discriminate Hlen.
    reflexivity.
Qed.





End DashboardProperties.

Lemma dashboard_raises_before_the_chart_witness :
  let plot := fun (_ : DataFrame) (_ : list Trade) (_ : list Q) =>
                Ok tt in
  let w := {| now := sample_now;
              boi_response := Some (3.09, DateMissing);
              host_response := None;
              erapi_response := None;
              history_response := fun _ => Some [("2026-01-02", Some 3.09)];
              cache_file := NoFile;
              write_fault := None |} in
  refresh_dashboard fromisoformat_basic unit plot w = Raise IndexError
  /\ refresh_dashboard fromisoformat_basic unit plot world_empty_cache
     = Raise KeyError
  /\ dashboard_after_fetch unit plot (frame_of_rates [3; 0; 3], 3, "")
     = Raise ZeroDivisionError.
Proof.
  intros plot w. unfold refresh_dashboard.
  split; [|split].
  - destruct (fst (fetch_real_exchange_rates fromisoformat_basic 30 w))
      as [[df cr] msg] eqn:E.
    apply (proj2 (proj2 (dashboard_raises_before_the_chart unit plot
                           df cr msg))).
    + vm_compute in E. inversion E. reflexivity.
    + vm_compute in E. inversion E. unfold nonzero_rates. nonzero_list.
  - destruct (fst (fetch_real_exchange_rates fromisoformat_basic 30
                                             world_empty_cache))
      as [[df cr] msg] eqn:E.
    apply (proj1 (dashboard_raises_before_the_chart unit plot df cr msg)).
    vm_compute in E. inversion E. reflexivity.
  - apply (proj1 (proj2 (dashboard_raises_before_the_chart unit plot
                           (frame_of_rates [3; 0; 3]) 3 ""))).
    + discriminate.
    + exists (mkPoint "2026-01-01" 0). split.
      * right. left. reflexivity.
      * reflexivity.
Defined.


(* ------------------------------------------------------------------ *)
(** ** The chart's trade markers                                        *)
(* ------------------------------------------------------------------ *)

Lemma Subseq_In {A : Type} (l1 l2 : list A) (x : A) :
  Subseq l1 l2 -> In x l1 -> In x l2.
Proof.
  induction 1 as [|l1 l2 y _ IH|l1 l2 y _ IH]; intros Hin.
  - exact Hin.
  - right. apply IH. exact Hin.
  - destruct Hin as [->|Hin]; [left; reflexivity|right; apply IH; exact Hin].
Qed.

Lemma first_index_of_In (d : string) (dates : list string) :
  In d dates ->
  forall k, exists i,
    first_index_of d dates k = Some (k + i)%nat
    /\ nth_error dates i = Some d.
Proof.
  induction dates as [|x rest IH]; intros Hin k; [destruct Hin|].
  cbn [first_index_of]. destruct (String.eqb x d) eqn:E.
  - apply String.eqb_eq in E. subst x. exists 0%nat.
    split; [f_equal; lia|reflexivity].
  - assert (Hrest : In d rest).
    { destruct Hin as [->|H]; [|exact H].
      rewrite String.eqb_refl in E. discriminate E. }
    destruct (IH Hrest (S k)) as (i & Hi & Hn).
    exists (S i). split; [rewrite Hi; f_equal; lia|exact Hn].
Qed.

(** X21.  The row lookup the chart makes for each trade marker never
    fails on the trades of the backtest: every trade's date is the date of
    a row of the frame, and the lookup returns the first such row. *)
Theorem trade_markers_are_found :
  forall (df : DataFrame) (initial_usd profit_usd : Q)
         (profit_pct : option Q) (ts : list Trade) (pv : list Q),
    snd (calculate_trading_profit df initial_usd)
    = Ok (profit_usd, profit_pct, ts, pv) ->
    Forall (fun t =>
              exists i r,
                trade_row_index (fst (calculate_trading_profit df initial_usd))
                                t = Ok i
                /\ nth_error (records df) i = Some r
                /\ Date r = date t) ts.
Proof.
  intros df initial_usd profit_usd profit_pct ts pv H.
  assert (Hne : records df <> []).
  { intros E. unfold calculate_trading_profit, col_Rate in H.
    rewrite E in H. discriminate H. }
  assert (Hsub : Subseq (map trade_point ts) (records df)).
  { rewrite (calculate_trading_profit_result df initial_usd Hne) in H.
    apply bind_ok in H. destruct H as (st & Hst & H).
    apply bind_ok in H. destruct H as (x & _ & H).
    inversion H; subst; clear H.
    exact (backtest_loop_trades_subseq _ _ _ Hst). }
  rewrite (calculate_trading_profit_frame df initial_usd Hne).
  apply Forall_forall. intros t Ht.
  assert (Hin : In (date t) (map Date (records df))).
  { change (date t) with (Date (trade_point t)). apply in_map.
    apply (Subseq_In _ _ _ Hsub). apply in_map. exact Ht. }
  destruct (first_index_of_In _ _ Hin 0%nat) as (i & Hi & Hn).
  rewrite nth_error_map in Hn.
  destruct (nth_error (records df) i) as [r|] eqn:Er; [|discriminate Hn].
  cbn [option_map] in Hn. injection Hn as Hd.
  exists i, r. split; [|split; [exact Er|exact Hd]].
  unfold trade_row_index, col_Date. cbn [records].
  destruct (records df) as [|r0 rs] eqn:E0; [congruence|].
  cbn [bind]. rewrite Hi. reflexivity.
Qed.

Lemma trade_markers_are_found_witness :
  exists profit_usd profit_pct b s pv,
    snd (calculate_trading_profit sample_frame 1000)
    = Ok (profit_usd, profit_pct, [b; s], pv)
    /\ exists i, trade_row_index
                   (fst (calculate_trading_profit sample_frame 1000)) b
                 = Ok i.
Proof.
  destruct (snd (calculate_trading_profit sample_frame 1000))
    as [[[[p pct] ts] pv]|e] eqn:E; [|vm_compute in E; discriminate E].
  pose proof (trade_markers_are_found sample_frame 1000 p pct ts pv E) as H.
  assert (Hts : exists b s, ts = [b; s]).
  { vm_compute in E. inversion E. do 2 eexists. reflexivity. }
  destruct Hts as (b & s & ->).
  exists p, pct, b, s, pv. split; [reflexivity|].
  inversion H as [|? ? (i & r & Hi & _) _]. exists i. exact Hi.
Defined.
